(** * Beam analysis report generator: a shallow embedding of [main.py]

    The program reads a spreadsheet of beam results with pandas, builds a
    LaTeX document with PyLaTeX (narrative, a data table, two pgfplots
    fragments) and hands it to the LaTeX toolchain.  This development
    embeds its three functions, [generate_beam_report], [generate_sfd_plot]
    and [generate_bmd_plot], and proves what the specification says about
    them.

    The functions are a few loops and many literals; what they compute
    depends on the libraries they call.  Those are modelled as far as the
    program's behaviour depends on them:
    - the text of numbers: [str] of an integer and of a double (the
      shortest digits that read back), and the [.1f] format (the binary
      value rounded to one decimal, ties to even);
    - pandas: a frame as typed columns, and the rows [iterrows] yields in
      the common dtype of the columns;
    - PyLaTeX: the document as a tree, filled by [append] and by
      [with doc.create(...)];
    - the world around a run: the files, the console and the LaTeX
      toolchain, the last one as an oracle. *)

From Stdlib Require Import ZArith List String Ascii Bool Lia.
Import ListNotations.

Local Set Warnings "-register-all".
Local Open Scope string_scope.
Local Open Scope Z_scope.

(** ** Text *)

Fixpoint all_chars (p : ascii -> bool) (s : string) : bool :=
  match s with
  | "" => true
  | String c s' => p c && all_chars p s'
  end.

Definition is_empty (s : string) : bool :=
  match s with
  | "" => true
  | _ => false
  end.

Definition head_char (s : string) : string :=
  match s with
  | String c _ => String c ""
  | "" => ""
  end.

Definition tail_chars (s : string) : string :=
  match s with
  | String _ s' => s'
  | "" => ""
  end.

Definition take (n : Z) (s : string) : string := substring 0 (Z.to_nat n) s.
Definition drop (n : Z) (s : string) : string :=
  substring (Z.to_nat n) (String.length s - Z.to_nat n) s.

Definition slen (s : string) : Z := Z.of_nat (String.length s).

(** [strip_prefix pat s] is what follows [pat] when [s] starts with it;
    [after pat s] is what follows the first occurrence of [pat] in [s]. *)
Fixpoint strip_prefix (pat s : string) : option string :=
  match pat with
  | "" => Some s
  | String a pat' =>
      match s with
      | "" => None
      | String b s' => if Ascii.eqb a b then strip_prefix pat' s' else None
      end
  end.

Fixpoint after (pat s : string) : option string :=
  match strip_prefix pat s with
  | Some r => Some r
  | None =>
      match s with
      | "" => None
      | String _ s' => after pat s'
      end
  end.

Fixpoint occurrences (pat s : string) : nat :=
  match s with
  | "" => O
  | String _ s' =>
      match strip_prefix pat s with
      | Some _ => S (occurrences pat s')
      | None => occurrences pat s'
      end
  end.

(** [split_at c s]: the text before the first [c] and the text after it. *)
Fixpoint split_at (c : ascii) (s : string) : option (string * string) :=
  match s with
  | "" => None
  | String a s' =>
      if Ascii.eqb a c then Some ("", s')
      else
        match split_at c s' with
        | Some (l, r) => Some (String a l, r)
        | None => None
        end
  end.

Definition is_blank (c : ascii) : bool :=
  Ascii.eqb c " " || Ascii.eqb c (ascii_of_nat 10).

Fixpoint skip_blanks (s : string) : string :=
  match s with
  | String c s' => if is_blank c then skip_blanks s' else s
  | "" => ""
  end.

Definition differs_from (c0 c : ascii) : bool := negb (Ascii.eqb c c0).

(** ** Decimal digits *)

Definition digit_char (d : Z) : ascii :=
  ascii_of_nat (48 + Z.to_nat d).

Definition digit_value (c : ascii) : Z :=
  Z.of_nat (nat_of_ascii c) - 48.

Definition is_digit (c : ascii) : bool :=
  (48 <=? nat_of_ascii c)%nat && (nat_of_ascii c <=? 57)%nat.

(** The digits of a non-negative integer, most significant first.  The
    fuel is the bit length, which bounds the number of decimal digits. *)
Fixpoint digits_fuel (fuel : nat) (z : Z) (acc : string) : string :=
  match fuel with
  | O => acc
  | S fuel' =>
      let acc' := String (digit_char (z mod 10)) acc in
      if z <? 10 then acc' else digits_fuel fuel' (z / 10) acc'
  end.

Definition digits_of_Z (z : Z) : string :=
  digits_fuel (S (Z.to_nat (Z.log2 z))) z "".

Fixpoint Z_of_digits_acc (s : string) (acc : Z) : Z :=
  match s with
  | "" => acc
  | String c s' => Z_of_digits_acc s' (10 * acc + digit_value c)
  end.

Definition Z_of_digits (s : string) : Z := Z_of_digits_acc s 0.

Fixpoint zeros (n : nat) : string :=
  match n with
  | O => ""
  | S n' => String "0" (zeros n')
  end.

(** Drop the zeros at the end of a digit string. *)
Fixpoint rstrip0 (s : string) : string :=
  match s with
  | "" => ""
  | String c s' =>
      match rstrip0 s' with
      | "" => if Ascii.eqb c "0" then "" else String c ""
      | t => String c t
      end
  end.


(** The longest prefix of digits, and the rest. *)
Fixpoint span_digits (s : string) : string * string :=
  match s with
  | "" => ("", "")
  | String c s' =>
      if is_digit c then let '(d, r) := span_digits s' in (String c d, r)
      else ("", s)
  end.



Definition sign_text (neg : bool) : string := if neg then "-" else "".

Definition starts_with_minus (s : string) : bool :=
  match s with
  | String c _ => Ascii.eqb c "-"
  | "" => false
  end.

(** A text without its minus sign, if it has one. *)
Definition unsigned_part (s : string) : string :=
  if starts_with_minus s then tail_chars s else s.

(** [str(int)] *)
Definition str_int (z : Z) : string :=
  if z <? 0 then "-" ++ digits_of_Z (- z) else digits_of_Z z.

(** ** Binary64 floating-point numbers

    A finite double is [(-1)^neg * m * 2^e] in its IEEE form: 53 bits of
    significand, the exponent of the last bit between -1074 and 971, and
    the significand normalised unless the exponent is the smallest. *)

Inductive float64 : Type :=
| Fnan
| Finf (neg : bool)
| Ffin (neg : bool) (m e : Z).

Definition emin : Z := -1074.
Definition emax : Z := 971.

Definition canonical (m e : Z) : bool :=
  (0 <=? m) && (m <? 2 ^ 53) && (emin <=? e) && (e <=? emax)
  && ((2 ^ 52 <=? m) || (e =? emin)).

Definition valid_float (f : float64) : bool :=
  match f with
  | Ffin _ m e => canonical m e
  | _ => true
  end.

Definition is_finite (f : float64) : bool :=
  match f with
  | Ffin _ _ _ => true
  | _ => false
  end.

Definition float64_eqb (f g : float64) : bool :=
  match f, g with
  | Fnan, Fnan => true
  | Finf a, Finf b => Bool.eqb a b
  | Ffin a m e, Ffin b m' e' => Bool.eqb a b && (m =? m') && (e =? e')
  | _, _ => false
  end.


(** [x * 2^k] and [x * 10^k] for [k >= 0], [x] otherwise: a ratio
    [num / den] is scaled by a power [k] of either sign by scaling
    [num] by [k] and [den] by [-k]. *)
Definition shl2 (x k : Z) : Z := x * 2 ^ Z.max k 0.
Definition shl10 (x k : Z) : Z := x * 10 ^ Z.max k 0.

(** The integer [lg] with [2^lg <= num/den < 2^(lg+1)], for positive
    [num] and [den]. *)
Definition floor_log2_q (num den : Z) : Z :=
  let L := Z.log2 num - Z.log2 den in
  if shl2 den L <=? shl2 num (- L) then L else L - 1.

(** Round to nearest, ties to even, of a non-negative ratio. *)
Definition round_half_even (num den : Z) : Z :=
  let q := num / den in
  let r := num mod den in
  if (den <? 2 * r) || ((den =? 2 * r) && Z.odd q) then q + 1 else q.

(** The double nearest to [(-1)^neg * num / den] (ties to even), for
    [num >= 0] and [den > 0]; infinity on overflow.  This is the rounding
    of [float(int)], of [astype(float64)] and of reading a decimal
    literal. *)
Definition round_b64 (neg : bool) (num den : Z) : float64 :=
  if num =? 0 then Ffin neg 0 emin
  else
    let lg := floor_log2_q num den in
    let e := Z.max (lg - 52) emin in
    let q := round_half_even (shl2 num (- e)) (shl2 den e) in
    let m' := if q =? 2 ^ 53 then 2 ^ 52 else q in
    let e' := if q =? 2 ^ 53 then e + 1 else e in
    if emax <? e' then Finf neg else Ffin neg m' e'.

Definition float_of_Z (z : Z) : float64 :=
  round_b64 (z <? 0) (Z.abs z) 1.

(** *** Fixed notation with one decimal: the [.1f] format of a float *)

Definition format_1f_float (f : float64) : string :=
  match f with
  | Fnan => "nan"
  | Finf neg => sign_text neg ++ "inf"
  | Ffin neg m e =>
      let t := round_half_even (shl2 (10 * m) e) (shl2 1 (- e)) in
      sign_text neg ++ digits_of_Z (t / 10) ++ "." ++ digits_of_Z (t mod 10)
  end.

(** *** The shortest digits that read back: [repr] of a float

    A positive decimal is a digit string [ds] without zeros at either end
    and a position [decpt] of the decimal point: [0.ds * 10^decpt]. *)

Definition decimal_reads_as (neg : bool) (ds : string) (decpt : Z) : float64 :=
  let k := decpt - slen ds in
  round_b64 neg (shl10 (Z_of_digits ds) k) (shl10 1 (- k)).

(** The integer [p] with [10^p <= num/den < 10^(p+1)]: an estimate from
    the binary logarithm, corrected by at most two steps either way. *)
Definition floor_log10_q (num den : Z) : Z :=
  let up p := if shl10 den (p + 1) <=? shl10 num (- (p + 1)) then p + 1 else p in
  let down p := if shl10 num (- p) <? shl10 den p then p - 1 else p in
  let p0 := (floor_log2_q num den * 1233) / 4096 in
  down (down (up (up p0))).

Definition decimal_of (d k : Z) : string * Z :=
  let ds := digits_of_Z d in (rstrip0 ds, k + slen ds).

(** The candidates with [n] digits on either side of [num/den] and, of
    those that read back as [Ffin false m e], the nearer one. *)
Definition shortest_at (m e num den p : Z) (n : nat) : option (string * Z) :=
  let k := p + 1 - Z.of_nat n in
  let lo := shl10 num (- k) / shl10 den k in
  let hi := lo + 1 in
  let reads d :=
    let '(ds, decpt) := decimal_of d k in
    float64_eqb (decimal_reads_as false ds decpt) (Ffin false m e) in
  let lo_nearer :=
    let twice := 2 * shl10 num (- k) in
    let mid := (lo + hi) * shl10 den k in
    (twice <? mid) || ((twice =? mid) && Z.even lo) in
  match reads lo, reads hi with
  | true, true => Some (decimal_of (if lo_nearer then lo else hi) k)
  | true, false => Some (decimal_of lo k)
  | false, true => Some (decimal_of hi k)
  | false, false => None
  end.

Fixpoint shortest_from (m e num den p : Z) (n : nat) (tries : nat)
  : option (string * Z) :=
  match tries with
  | O => None
  | S tries' =>
      match shortest_at m e num den p n with
      | Some d => Some d
      | None => shortest_from m e num den p (S n) tries'
      end
  end.

(** The exact decimal expansion of [m * 2^e]. *)
Definition exact_decimal (m e : Z) : string * Z :=
  if 0 <=? e then decimal_of (m * 2 ^ e) 0 else decimal_of (m * 5 ^ (- e)) e.

(** Seventeen digits always suffice for a double, so the search succeeds;
    the exact expansion makes the function total. *)
Definition shortest_decimal (m e : Z) : string * Z :=
  let num := shl2 m e in
  let den := shl2 1 (- e) in
  match shortest_from m e num den (floor_log10_q num den) 1 17 with
  | Some d => d
  | None => exact_decimal m e
  end.

(** The exponent of the scientific notation: a sign and at least two
    digits. *)
Definition exponent_text (x : Z) : string :=
  let a := Z.abs x in
  (if x <? 0 then "-" else "+") ++ (if a <? 10 then "0" else "") ++ digits_of_Z a.

(** Layout of [repr]: scientific notation when the decimal point falls
    more than 16 places right or more than 3 places left of the first
    digit, fixed notation with at least one decimal otherwise. *)
Definition repr_layout (ds : string) (decpt : Z) : string :=
  let n := slen ds in
  if (16 <? decpt) || (decpt <? -3) then
    head_char ds
    ++ (if 1 <? n then "." ++ tail_chars ds else "")
    ++ "e" ++ exponent_text (decpt - 1)
  else if decpt <=? 0 then
    "0." ++ zeros (Z.to_nat (- decpt)) ++ ds
  else if n <=? decpt then
    ds ++ zeros (Z.to_nat (decpt - n)) ++ ".0"
  else
    take decpt ds ++ "." ++ drop decpt ds.

(** [str(float)], which is [repr(float)] *)
Definition str_float (f : float64) : string :=
  match f with
  | Fnan => "nan"
  | Finf neg => sign_text neg ++ "inf"
  | Ffin neg m e =>
      sign_text neg ++
      (if m =? 0 then "0.0"
       else let '(ds, decpt) := shortest_decimal m e in repr_layout ds decpt)
  end.

(** *** Reading a float literal

    The program writes numbers and never reads them; what follows is the
    reading of Python's [float()], used to say what a written number
    denotes. *)



(** ** Python values, exceptions and formatting *)

(** The scalars a spreadsheet cell can hold once pandas has read it. *)
Inductive value : Type :=
| VInt (z : Z)
| VFloat (f : float64)
| VStr (s : string).

Inductive exn : Type :=
| FileNotFoundError (path : string)
| BadExcelFile (path : string)
| KeyError (key : string)
| ValueError (msg : string)
| OverflowError
| CalledProcessError (basename : string)
| CompilerError (basename : string).

Inductive result (A : Type) : Type :=
| Ok (a : A)
| Raise (e : exn).

Arguments Ok {A} a.
Arguments Raise {A} e.

Definition bind {A B : Type} (r : result A) (k : A -> result B) : result B :=
  match r with
  | Ok a => k a
  | Raise e => Raise e
  end.

Declare Scope py_scope.
Delimit Scope py_scope with py.
Notation "x <- r ;; k" := (bind r (fun x => k))
  (at level 61, r at next level, right associativity) : py_scope.

(** [f"{v}"]: [format(v, '')], that is [str(v)].  A NumPy scalar formats
    as the Python number it wraps. *)
Definition py_str (v : value) : string :=
  match v with
  | VInt z => str_int z
  | VFloat f => str_float f
  | VStr s => s
  end.

(** [f"{v:.1f}"]: an integer is converted with [float(v)] first, a string
    rejects the format code. *)
Definition format_1f (v : value) : result string :=
  match v with
  | VInt z =>
      match float_of_Z z with
      | Ffin neg m e => Ok (format_1f_float (Ffin neg m e))
      | _ => Raise OverflowError
      end
  | VFloat f => Ok (format_1f_float f)
  | VStr _ => Raise (ValueError "Unknown format code 'f' for object of type 'str'")
  end.


(** [for x in xs: body], threading the variables the body assigns. *)
Fixpoint for_each {A S : Type} (xs : list A) (body : A -> S -> result S) (s : S)
  : result S :=
  match xs with
  | [] => Ok s
  | x :: xs' =>
      match body x s with
      | Ok s' => for_each xs' body s'
      | Raise e => Raise e
      end
  end.

(** The values a loop body computes for each row, up to the first row
    that raises. *)
Fixpoint map_result {A B : Type} (f : A -> result B) (xs : list A)
  : result (list B) :=
  match xs with
  | [] => Ok []
  | x :: xs' =>
      match f x with
      | Ok y =>
          match map_result f xs' with
          | Ok ys => Ok (y :: ys)
          | Raise e => Raise e
          end
      | Raise e => Raise e
      end
  end.

(** *** What a text in fixed notation says *)

(** The characters of the text of a real number. *)
Definition numeric_char (c : ascii) : bool :=
  is_digit c || Ascii.eqb c "." || Ascii.eqb c "-" || Ascii.eqb c "+"
  || Ascii.eqb c "e".

(** A number in fixed notation with exactly one decimal: an optional
    minus sign, digits, a point, one digit. *)
Definition has_one_decimal (s : string) : bool :=
  let '(ip, r) := span_digits (unsigned_part s) in
  negb (is_empty ip) &&
  match strip_prefix "." r with
  | Some d => (String.length d =? 1)%nat && all_chars is_digit d
  | None => false
  end.

(** The real number a cell holds, as a ratio [(num, den)]; only real
    cells are ever asked. *)
Definition value_ratio (v : value) : Z * Z :=
  match v with
  | VInt z => (z, 1)
  | VFloat (Ffin neg m e) => ((if neg then - shl2 m e else shl2 m e), shl2 1 (- e))
  | _ => (0, 1)
  end.

(** The number of tenths a text in fixed notation with one decimal
    shows: ["-12.5"] shows -125 tenths. *)
Definition tenths_of (s : string) : Z :=
  let '(ip, r) := span_digits (unsigned_part s) in
  let t := 10 * Z_of_digits ip + Z_of_digits (tail_chars r) in
  if starts_with_minus s then - t else t.

(** The text shows the tenth nearest to the value: it is off by half a
    tenth at most. *)
Definition nearest_tenth (v : value) (s : string) : bool :=
  let '(n, d) := value_ratio v in
  2 * Z.abs (10 * n - tenths_of s * d) <=? d.


(** ** pandas: frames and the rows [iterrows] yields

    A frame is a list of named columns, each of one dtype, over [nrows]
    index positions; every column of a frame read from a sheet has [nrows]
    cells.  Cells are numbers or text: a column of whole numbers is read as
    [int64], one with a fraction or an empty cell (NaN) as [float64], one
    with text as [object]. *)

Inductive dtype : Type := dt_int64 | dt_float64 | dt_object.

Inductive Column : Type :=
| Int64Column (xs : list Z)
| Float64Column (xs : list float64)
| ObjectColumn (xs : list value).

Record DataFrame : Type := {
  columns : list (string * Column);
  nrows : nat
}.

Definition Series : Type := list (string * value).

Definition dtype_of (c : Column) : dtype :=
  match c with
  | Int64Column _ => dt_int64
  | Float64Column _ => dt_float64
  | ObjectColumn _ => dt_object
  end.

Definition is_int64 (d : dtype) : bool :=
  match d with dt_int64 => true | _ => false end.

Definition is_number_dtype (d : dtype) : bool :=
  match d with dt_object => false | _ => true end.

(** The dtype of [df.values]: the one type all columns can be held in. *)
Definition common_dtype (df : DataFrame) : dtype :=
  let ds := map (fun c => dtype_of (snd c)) (columns df) in
  if forallb is_int64 ds then dt_int64
  else if forallb is_number_dtype ds then dt_float64
  else dt_object.

(** The cell of a column at a position, held in dtype [d]: an integer
    becomes a float in a float row.  The defaults of [nth] stand for
    positions a column of [nrows] cells does not have. *)
Definition cell (d : dtype) (c : Column) (i : nat) : value :=
  match c with
  | Int64Column xs =>
      match d with
      | dt_float64 => VFloat (float_of_Z (nth i xs 0))
      | _ => VInt (nth i xs 0)
      end
  | Float64Column xs => VFloat (nth i xs Fnan)
  | ObjectColumn xs => nth i xs (VFloat Fnan)
  end.

(** [df.iterrows()]: one Series per row, in index order, sliced out of
    [df.values] and labelled with the column names.  A Series has one
    dtype, so [iterrows] does not keep the dtypes of the columns: next to a
    [float64] column the integers of an [int64] column arrive as floats. *)
Definition iterrows (df : DataFrame) : list Series :=
  map (fun i => map (fun c => (fst c, cell (common_dtype df) (snd c) i)) (columns df))
      (seq 0 (nrows df)).

(** [row[key]] for a row whose labels are distinct, as the rows of a frame
    read from a sheet are: [read_excel] renames a repeated header.  With a
    repeated label pandas returns the Series of all its cells; that case
    is not modelled, and the first cell is returned. *)
Fixpoint getitem (row : Series) (key : string) : result value :=
  match row with
  | [] => Raise (KeyError key)
  | (k, v) :: row' => if String.eqb k key then Ok v else getitem row' key
  end.

(** ** PyLaTeX: the document tree *)

Record Package : Type := {
  package_name : string;
  package_options : list string
}.

Inductive LatexObject : Type :=
| Text (s : string)
| NoEscape (s : string)
| Command (name : string) (argument : LatexObject)
| Section (title : string) (data : list LatexObject)
| Subsection (title : string) (data : list LatexObject)
| Figure (position : string) (data : list LatexObject)
| Tabular (table_spec : string) (data : list LatexObject)
| HLine
| Row (cells : list string)
| Image (filename : string) (width : string)
| Caption (caption : string).

(** [packages] holds what the program appends; PyLaTeX's constructor adds
    its own default packages, the same on every run. *)
Record Document : Type := {
  documentclass : string;
  document_options : list string;
  packages : list Package;
  preamble : list LatexObject;
  doc_data : list LatexObject
}.

(** Statements that act on the document under construction. *)
Definition builder (A : Type) : Type := Document -> result (A * Document).

Definition ret {A : Type} (a : A) : builder A := fun d => Ok (a, d).

Definition seq_builder {A B : Type} (m : builder A) (k : A -> builder B) : builder B :=
  fun d =>
    match m d with
    | Ok (a, d') => k a d'
    | Raise e => Raise e
    end.

Declare Scope builder_scope.
Delimit Scope builder_scope with builder.
Notation "x <- m ;; k" := (seq_builder m (fun x => k))
  (at level 61, m at next level, right associativity) : builder_scope.
Notation "m ;;; k" := (seq_builder m (fun _ => k))
  (at level 61, right associativity) : builder_scope.

Definition lift {A : Type} (r : result A) : builder A :=
  fun d =>
    match r with
    | Ok a => Ok (a, d)
    | Raise e => Raise e
    end.

Definition set_data (d : Document) (items : list LatexObject) : Document :=
  {| documentclass := documentclass d;
     document_options := document_options d;
     packages := packages d;
     preamble := preamble d;
     doc_data := items |}.

(** [doc.append(x)].  Inside [with doc.create(c) as t], [t.append] is the
    same statement: the container's list is the document's current list. *)
Definition append (x : LatexObject) : builder unit :=
  fun d => Ok (tt, set_data d (doc_data d ++ [x])%list).

Definition packages_append (p : Package) : builder unit :=
  fun d =>
    Ok (tt, {| documentclass := documentclass d;
               document_options := document_options d;
               packages := (packages d ++ [p])%list;
               preamble := preamble d;
               doc_data := doc_data d |}).

Definition preamble_append (x : LatexObject) : builder unit :=
  fun d =>
    Ok (tt, {| documentclass := documentclass d;
               document_options := document_options d;
               packages := packages d;
               preamble := (preamble d ++ [x])%list;
               doc_data := doc_data d |}).

(** [with doc.create(child): body]: the document's list is swapped for the
    child's empty one while the body runs, then restored, and the filled
    child is appended. *)
Definition create (child : list LatexObject -> LatexObject) (body : builder unit)
  : builder unit :=
  fun d =>
    match body (set_data d []) with
    | Ok (_, d') => Ok (tt, set_data d' (doc_data d ++ [child (doc_data d')])%list)
    | Raise e => Raise e
    end.

(** [for x in xs: body] over the document. *)
Fixpoint for_rows {A : Type} (xs : list A) (body : A -> builder unit) : builder unit :=
  match xs with
  | [] => ret tt
  | x :: xs' => seq_builder (body x) (fun _ => for_rows xs' body)
  end.

Definition add_hline : builder unit := append HLine.
Definition add_row (cells : list string) : builder unit := append (Row cells).
Definition add_image (filename width : string) : builder unit :=
  append (Image filename width).
Definition add_caption (caption : string) : builder unit := append (Caption caption).

Definition new_Document (cls : string) (options : list string) : Document :=
  {| documentclass := cls;
     document_options := options;
     packages := [];
     preamble := [];
     doc_data := [] |}.

(** ** The outside world: files, the console and the LaTeX toolchain *)

Inductive File : Type :=
| Workbook (df : DataFrame)
| TexSource (doc : Document)
| PdfOf (doc : Document)
| OtherFile (bytes : string).

(** What running the toolchain on a source comes to: a PDF, a rejection
    with the toolchain's diagnostics, or no toolchain at all. *)
Inductive latex_outcome : Type :=
| Compiled
| Rejected (output : string)
| NotInstalled.

(** A spreadsheet file is held as the frame pandas reads out of it, a
    [.tex] file as the document whose [dumps()] it stores.  [latex] is the
    installed toolchain: what it makes of a source, given the files at
    hand (the beam image among them). *)
Record World : Type := {
  files : list (string * File);
  stdout : list string;
  latex : list (string * File) -> Document -> latex_outcome
}.

Definition io (A : Type) : Type := World -> result A * World.

Definition io_bind {A B : Type} (m : io A) (k : A -> io B) : io B :=
  fun w =>
    match m w with
    | (Ok a, w') => k a w'
    | (Raise e, w') => (Raise e, w')
    end.

Declare Scope io_scope.
Delimit Scope io_scope with io.
Notation "x <- m ;; k" := (io_bind m (fun x => k))
  (at level 61, m at next level, right associativity) : io_scope.
Notation "m ;;; k" := (io_bind m (fun _ => k))
  (at level 61, right associativity) : io_scope.

Definition io_lift {A : Type} (r : result A) : io A := fun w => (r, w).

Fixpoint lookup_file (path : string) (fs : list (string * File)) : option File :=
  match fs with
  | [] => None
  | (p, f) :: fs' => if String.eqb p path then Some f else lookup_file path fs'
  end.

Definition write_file (path : string) (f : File) (fs : list (string * File))
  : list (string * File) :=
  (path, f) :: filter (fun e => negb (String.eqb (fst e) path)) fs.

Definition print (line : string) : io unit :=
  fun w =>
    (Ok tt, {| files := files w; stdout := (stdout w ++ [line])%list; latex := latex w |}).

(** [pd.read_excel(path)]: the frame held by the workbook, whatever its
    columns are; an error when the file is absent or is no workbook. *)
Definition read_excel (path : string) : io DataFrame :=
  fun w =>
    match lookup_file path (files w) with
    | None => (Raise (FileNotFoundError path), w)
    | Some (Workbook df) => (Ok df, w)
    | Some _ => (Raise (BadExcelFile path), w)
    end.

(** [doc.generate_pdf(basename, clean_tex=False)]: write the source and
    run the toolchain on it.  PyLaTeX prints the diagnostics of a rejected
    source and lets the error through; the source file stays in every
    case. *)
Definition generate_pdf (doc : Document) (basename : string) : io unit :=
  fun w =>
    let fs := write_file (basename ++ ".tex") (TexSource doc) (files w) in
    match latex w fs doc with
    | Compiled =>
        (Ok tt, {| files := write_file (basename ++ ".pdf") (PdfOf doc) fs;
                   stdout := stdout w; latex := latex w |})
    | Rejected output =>
        (Raise (CalledProcessError basename),
         {| files := fs; stdout := (stdout w ++ [output])%list; latex := latex w |})
    | NotInstalled =>
        (Raise (CompilerError basename),
         {| files := fs; stdout := stdout w; latex := latex w |})
    end.

(** ** The program *)

Definition sfd_head : string := "
    \begin{center}
    \begin{tikzpicture}
    \begin{axis}[
        width=14cm,
        height=6cm,
        xlabel={Beam Length (m)},
        ylabel={Shear Force (kN)},
        grid=major,
        grid style={dotted,gray!50},
        xmin=0, xmax=12,
        ymin=-50, ymax=50,
        xtick={0,2,4,6,8,10,12},
        ytick={-40,-20,0,20,40},
        legend pos=north east,
        title={Shear Force Diagram},
        axis lines=left,
        thick
    ]
    \addplot[
        color=blue,
        mark=*,
        mark size=1.5pt,
        line width=1.5pt
    ]
    coordinates {
    ".

Definition sfd_tail : string := "    };
    \addplot[color=red, dashed, line width=1pt] coordinates {(0,0) (12,0)};
    \legend{Shear Force, Zero Line}
    \end{axis}
    \end{tikzpicture}
    \end{center}
    ".

Definition bmd_head : string := "
    \begin{center}
    \begin{tikzpicture}
    \begin{axis}[
        width=14cm,
        height=6cm,
        xlabel={Beam Length (m)},
        ylabel={Bending Moment (kNm)},
        grid=major,
        grid style={dotted,gray!50},
        xmin=0, xmax=12,
        ymin=0, ymax=180,
        xtick={0,2,4,6,8,10,12},
        ytick={0,40,80,120,160},
        legend pos=north east,
        title={Bending Moment Diagram},
        axis lines=left,
        thick
    ]
    \addplot[
        color=red,
        mark=*,
        mark size=1.5pt,
        line width=1.5pt
    ]
    coordinates {
    ".

Definition bmd_tail : string := "    };
    \legend{Bending Moment}
    \end{axis}
    \end{tikzpicture}
    \end{center}
    ".

(** [generate_sfd_plot(df)] *)
Definition generate_sfd_plot (df : DataFrame) : result string :=
  (let tikz_code := sfd_head in
   tikz_code <- for_each (iterrows df) (fun row tikz_code =>
       x <- getitem row "X" ;;
       y <- getitem row "Shear force" ;;
       Ok (tikz_code ++ "        (" ++ py_str x ++ ", " ++ py_str y ++ ")
")) tikz_code ;;
   let tikz_code := tikz_code ++ sfd_tail in
   Ok tikz_code)%py.

(** [generate_bmd_plot(df)] *)
Definition generate_bmd_plot (df : DataFrame) : result string :=
  (let tikz_code := bmd_head in
   tikz_code <- for_each (iterrows df) (fun row tikz_code =>
       x <- getitem row "X" ;;
       y <- getitem row "Bending Moment" ;;
       Ok (tikz_code ++ "        (" ++ py_str x ++ ", " ++ py_str y ++ ")
")) tikz_code ;;
   let tikz_code := tikz_code ++ bmd_tail in
   Ok tikz_code)%py.

Definition mkPackage (name : string) (options : list string) : Package :=
  {| package_name := name; package_options := options |}.

(** The body of [generate_beam_report] between reading the data and
    generating the PDF: the statements that fill [doc]. *)
Definition fill_document (df : DataFrame) : builder unit :=
  (packages_append (mkPackage "tikz" []) ;;;
   packages_append (mkPackage "pgfplots" []) ;;;
   packages_append (mkPackage "geometry" ["margin=1in"]) ;;;
   packages_append (mkPackage "graphicx" []) ;;;
   preamble_append (Command "title" (Text "Beam Analysis Report")) ;;;
   preamble_append (Command "author" (Text "Structural Engineering Analysis")) ;;;
   preamble_append (Command "date" (NoEscape "\today")) ;;;
   append (NoEscape "\maketitle") ;;;
   append (NoEscape "\tableofcontents") ;;;
   append (NoEscape "\newpage") ;;;
   create (Section "Introduction") (
     append (Text "This engineering report presents a comprehensive analysis of a simply supported beam subjected to various loads. The analysis includes shear force and bending moment calculations with corresponding diagrams.") ;;;
     create (Subsection "Beam Description") (
       append (Text "The structural element under analysis is a simply supported beam with pinned support at one end and roller support at the other. This configuration allows for rotation at both ends while preventing vertical displacement at supports.") ;;;
       create (Figure "h!") (
         add_image "beam.png" "0.8\textwidth" ;;;
         add_caption "Simply Supported Beam Configuration")) ;;;
     create (Subsection "Data Source") (
       append (Text "The force and moment analysis data was obtained from the provided Excel spreadsheet. The calculated values at various points along the beam length are presented in the table below:") ;;;
       create (Tabular "|c|c|c|") (
         add_hline ;;;
         add_row ["Position (m)"; "Shear Force (kN)"; "Bending Moment (kNm)"] ;;;
         add_hline ;;;
         for_rows (iterrows df) (fun row =>
           x <- lift (v <- getitem row "X" ;; format_1f v)%py ;;
           s <- lift (v <- getitem row "Shear force" ;; format_1f v)%py ;;
           b <- lift (v <- getitem row "Bending Moment" ;; format_1f v)%py ;;
           add_row [x; s; b] ;;;
           add_hline)))) ;;;
   create (Section "Analysis") (
     append (Text "The beam analysis reveals the internal forces and moments along the beam length. Key observations from the calculations:") ;;;
     create (Subsection "Shear Force Diagram (SFD)") (
       append (Text "The Shear Force Diagram illustrates the variation of internal shear force along the beam length. Positive values indicate upward shear, while negative values indicate downward shear.") ;;;
       sfd_tikz <- lift (generate_sfd_plot df) ;;
       append (NoEscape sfd_tikz) ;;;
       append (Text "\textbf{Key Observations:}") ;;;
       append (NoEscape "\begin{itemize}") ;;;
       append (NoEscape "\item Maximum shear force: 45 kN") ;;;
       append (NoEscape "\item Zero shear occurs at 7.5 m from left support") ;;;
       append (NoEscape "\item Shear force changes sign at the point of maximum moment") ;;;
       append (NoEscape "\end{itemize}")) ;;;
     create (Subsection "Bending Moment Diagram (BMD)") (
       append (Text "The Bending Moment Diagram shows the variation of internal bending moment. Positive bending moment causes tension in the bottom fibers of the beam.") ;;;
       bmd_tikz <- lift (generate_bmd_plot df) ;;
       append (NoEscape bmd_tikz) ;;;
       append (Text "\textbf{Key Observations:}") ;;;
       append (NoEscape "\begin{itemize}") ;;;
       append (NoEscape "\item Maximum bending moment: 168.75 kNm at 7.5 m") ;;;
       append (NoEscape "\item Zero moments occur at both supports") ;;;
       append (NoEscape "\item Parabolic distribution indicates uniformly distributed load") ;;;
       append (NoEscape "\end{itemize}"))) ;;;
   create (Section "Summary") (
     append (Text "This analysis successfully demonstrates the fundamental principles of beam mechanics for a simply supported configuration.") ;;;
     create (Subsection "Shear Force Diagram") (
       append (Text "A Shear Force Diagram (SFD) is a graphical representation that shows the internal shear force at every point along a beam. It helps structural engineers identify critical sections where shear stresses are maximum and where shear reinforcement may be required.")) ;;;
     create (Subsection "Bending Moment Diagram") (
       append (Text "A Bending Moment Diagram (BMD) illustrates the internal bending moment along the beam length. It indicates locations of maximum bending stress, helping engineers determine appropriate beam dimensions and reinforcement for moment resistance.")) ;;;
     append (Text "Both diagrams are essential tools in structural design, ensuring that beams are properly sized and reinforced to withstand applied loads safely.")))%builder.

(** The document as it stands when [generate_pdf] is reached: [doc] is
    created by [Document(documentclass='report', ...)] and filled. *)
Definition build_document (df : DataFrame) : result Document :=
  match fill_document df (new_Document "report" ["a4paper"; "12pt"]) with
  | Ok (_, doc) => Ok doc
  | Raise e => Raise e
  end.

(** [generate_beam_report()] *)
Definition generate_beam_report : io unit :=
  (print "📊 Reading beam data from Excel..." ;;;
   df <- read_excel "beam_data.xlsx" ;;
   doc <- io_lift (build_document df) ;;
   print "📄 Generating PDF report..." ;;;
   generate_pdf doc "beam_analysis_report" ;;;
   print "✅ PDF report generated successfully: beam_analysis_report.pdf")%io.

Definition input_path : string := "beam_data.xlsx".
Definition tex_path : string := "beam_analysis_report.tex".
Definition pdf_path : string := "beam_analysis_report.pdf".

Definition reading_message : string := "📊 Reading beam data from Excel...".
Definition generating_message : string := "📄 Generating PDF report...".
Definition success_message : string :=
  "✅ PDF report generated successfully: beam_analysis_report.pdf".

(** ** The loops, row by row *)

(** The cells of a table row: the three format expressions of
    [table.add_row], evaluated left to right. *)
Definition table_cells (row : Series) : result (list string) :=
  (x <- (v <- getitem row "X" ;; format_1f v) ;;
   s <- (v <- getitem row "Shear force" ;; format_1f v) ;;
   b <- (v <- getitem row "Bending Moment" ;; format_1f v) ;;
   Ok [x; s; b])%py.

(** The line a plot loop adds for a row: the f-string of its body. *)
Definition coordinate_line (key : string) (row : Series) : result string :=
  (x <- getitem row "X" ;;
   y <- getitem row key ;;
   Ok ("        (" ++ py_str x ++ ", " ++ py_str y ++ ")
"))%py.

(** The cells of a Record's table row. *)
Definition cells_of (row : Series) : list string :=
  match table_cells row with
  | Ok cs => cs
  | Raise _ => []
  end.

(** The field of a Record, and the token and the line the formatter writes
    for it. *)
Definition field (row : Series) (key : string) : value :=
  match getitem row key with
  | Ok v => v
  | Raise _ => VStr ""
  end.

Definition token_of (key : string) (row : Series) : string :=
  "(" ++ py_str (field row "X") ++ ", " ++ py_str (field row key) ++ ")".

Definition line_of (key : string) (row : Series) : string :=
  "        " ++ token_of key row ++ "
".


(** ** Datasets

    A Record has three real fields; a cell read from a spreadsheet is a
    double, or an integer that a double holds exactly. *)

Definition is_real (v : value) : bool :=
  match v with
  | VInt z => Z.abs z <=? 2 ^ 53
  | VFloat f => is_finite f && valid_float f
  | VStr _ => false
  end.

Definition real_at (row : Series) (key : string) : bool :=
  match getitem row key with
  | Ok v => is_real v
  | Raise _ => false
  end.

Definition is_record (row : Series) : bool :=
  real_at row "X" && real_at row "Shear force" && real_at row "Bending Moment".

Definition is_dataset (df : DataFrame) : bool :=
  forallb is_record (iterrows df).

Definition has_column (df : DataFrame) (key : string) : bool :=
  existsb (fun c => String.eqb (fst c) key) (columns df).

Definition required_columns : list string := ["X"; "Shear force"; "Bending Moment"].

(** The errors of the statements that format a row, as opposed to those
    of the loader and of the toolchain. *)
Definition assembly_error (e : exn) : bool :=
  match e with
  | KeyError _ | ValueError _ | OverflowError => true
  | _ => false
  end.

(** ** Reading the output back

    What a fragment says to the one who reads it: the coordinate tokens of
    its data series, the numbers in them, its legend. *)

(** The tokens of a coordinate list, as pgfplots reads one: groups in
    parentheses separated by blanks, up to the closing brace.  [cur] holds
    the token being read. *)
Fixpoint tokens_in (s : string) (cur : option string) : option (list string) :=
  match s with
  | "" => None
  | String c s' =>
      match cur with
      | None =>
          if is_blank c then tokens_in s' None
          else if Ascii.eqb c "(" then tokens_in s' (Some "(")
          else if Ascii.eqb c "}" then Some []
          else None
      | Some t =>
          if Ascii.eqb c ")" then
            match tokens_in s' None with
            | Some ts => Some ((t ++ ")") :: ts)
            | None => None
            end
          else tokens_in s' (Some (t ++ String c ""))
      end
  end.

(** The tokens of the data series of a plot fragment: those of its first
    [coordinates] list. *)
Definition coordinate_tokens (tikz : string) : option (list string) :=
  match after "coordinates {" tikz with
  | Some r => tokens_in r None
  | None => None
  end.

(** The coordinate list in one line, tokens separated by one space. *)
Definition coordinate_list (tikz : string) : option string :=
  match coordinate_tokens tikz with
  | Some ts => Some (String.concat " " ts)
  | None => None
  end.

(** The coordinate lists of the two fragments of a frame, when both plot
    functions return. *)
Definition coordinate_lists (df : DataFrame) : option (string * string) :=
  match generate_sfd_plot df, generate_bmd_plot df with
  | Ok sfd, Ok bmd =>
      match coordinate_list sfd, coordinate_list bmd with
      | Some s, Some b => Some (s, b)
      | _, _ => None
      end
  | _, _ => None
  end.




(** The entries of the first [\legend{...}] of a fragment. *)
Fixpoint split_commas (s : string) (cur : string) : list string :=
  match s with
  | "" => [cur]
  | String c s' =>
      if Ascii.eqb c "," then cur :: split_commas s' ""
      else split_commas s' (cur ++ String c "")
  end.

Definition legend_entries (tikz : string) : option (list string) :=
  match after "\legend{" tikz with
  | Some r =>
      match split_at "}" r with
      | Some (body, _) => Some (map skip_blanks (split_commas body ""))
      | None => None
      end
  | None => None
  end.

Definition zero_line : string :=
  "\addplot[color=red, dashed, line width=1pt] coordinates {(0,0) (12,0)};".

Definition no_paren (c : ascii) : bool := negb (Ascii.eqb c ")").

(** The characters of a coordinate line: those of numbers, parentheses,
    the comma and blanks. *)
Definition coordinate_char (c : ascii) : bool :=
  numeric_char c || Ascii.eqb c "(" || Ascii.eqb c ")" || Ascii.eqb c ","
  || is_blank c.

(** ** Looking into a document *)

Definition object_children (x : LatexObject) : list LatexObject :=
  match x with
  | Section _ data => data
  | Subsection _ data => data
  | Figure _ data => data
  | Tabular _ data => data
  | _ => []
  end.

(** The contents of the subsection titled [title], searched in the
    sections of a document body. *)
Definition find_subsection (title : string) (body : list LatexObject)
  : option (list LatexObject) :=
  let subsections := flat_map object_children body in
  match
    find (fun x => match x with
                   | Subsection t _ => String.eqb t title
                   | _ => false
                   end) subsections
  with
  | Some x => Some (object_children x)
  | None => None
  end.

Definition find_tabular (items : list LatexObject) : option (list LatexObject) :=
  match find (fun x => match x with Tabular _ _ => true | _ => false end) items with
  | Some x => Some (object_children x)
  | None => None
  end.

(** The rows of the table of the "Data Source" subsection: cells only,
    rules left out. *)
Definition table_rows (doc : Document) : option (list (list string)) :=
  match find_subsection "Data Source" (doc_data doc) with
  | Some items =>
      match find_tabular items with
      | Some t =>
          Some (flat_map (fun x => match x with Row cells => [cells] | _ => [] end) t)
      | None => None
      end
  | None => None
  end.

(** The bullets of a subsection: its [\item] lines. *)
Definition bullet_items (items : list LatexObject) : list string :=
  flat_map (fun x =>
              match x with
              | NoEscape s =>
                  match strip_prefix "\item " s with
                  | Some t => [t]
                  | None => []
                  end
              | _ => []
              end) items.

Definition key_observations (title : string) (doc : Document) : option (list string) :=
  match find_subsection title (doc_data doc) with
  | Some items => Some (bullet_items items)
  | None => None
  end.

(** The plot fragment embedded in a subsection: its first raw block. *)
Definition plot_fragment (title : string) (doc : Document) : option string :=
  match find_subsection title (doc_data doc) with
  | Some items =>
      match find (fun x => match x with NoEscape _ => true | _ => false end) items with
      | Some (NoEscape s) => Some s
      | _ => None
      end
  | None => None
  end.

Definition table_header : list string :=
  ["Position (m)"; "Shear Force (kN)"; "Bending Moment (kNm)"].

Definition sfd_title : string := "Shear Force Diagram (SFD)".
Definition bmd_title : string := "Bending Moment Diagram (BMD)".

Definition sfd_observations : list string :=
  ["Maximum shear force: 45 kN";
   "Zero shear occurs at 7.5 m from left support";
   "Shear force changes sign at the point of maximum moment"].

Definition bmd_observations : list string :=
  ["Maximum bending moment: 168.75 kNm at 7.5 m";
   "Zero moments occur at both supports";
   "Parabolic distribution indicates uniformly distributed load"].

(** ** Example inputs *)

(** 67.5 as a double. *)
Definition f67_5 : float64 := Ffin false 4749890231992320 (-46).

(** The dataset [(0,0,0), (6,15,67.5), (12,0,0)] as pandas reads it from
    a sheet: whole numbers become [int64] columns. *)
Definition scenario_df : DataFrame :=
  {| columns :=
       [("X", Int64Column [0; 6; 12]);
        ("Shear force", Int64Column [0; 15; 0]);
        ("Bending Moment", Float64Column [Ffin false 0 emin; f67_5; Ffin false 0 emin])];
     nrows := 3 |}.

(** The same dataset with every column held as doubles. *)
Definition scenario_df_float : DataFrame :=
  {| columns :=
       [("X", Float64Column [float_of_Z 0; float_of_Z 6; float_of_Z 12]);
        ("Shear force", Float64Column [float_of_Z 0; float_of_Z 15; float_of_Z 0]);
        ("Bending Moment", Float64Column [Ffin false 0 emin; f67_5; Ffin false 0 emin])];
     nrows := 3 |}.

(** A shear-force jump at a point load: two Records at [X = 6]. *)
Definition jump_df : DataFrame :=
  {| columns :=
       [("X", Int64Column [0; 6; 6; 12]);
        ("Shear force", Int64Column [15; 15; -15; -15]);
        ("Bending Moment", Int64Column [0; 90; 90; 0])];
     nrows := 4 |}.

(** A sheet with its header row only. *)
Definition empty_df : DataFrame :=
  {| columns :=
       [("X", ObjectColumn []); ("Shear force", ObjectColumn []);
        ("Bending Moment", ObjectColumn [])];
     nrows := 0 |}.

(** A sheet without the "Bending Moment" column. *)
Definition two_column_df : DataFrame :=
  {| columns := [("X", Int64Column [0; 6]); ("Shear force", Int64Column [15; -15])];
     nrows := 2 |}.

(** A sheet with a text cell in the "Shear force" column: a word that
    [read_excel] keeps as text (it reads [n/a], [NA] and the like as empty
    cells instead). *)
Definition text_cell_df : DataFrame :=
  {| columns :=
       [("X", Int64Column [0; 6]);
        ("Shear force", ObjectColumn [VInt 15; VStr "pending"]);
        ("Bending Moment", Int64Column [0; 90])];
     nrows := 2 |}.

(** A toolchain that succeeds when the beam image is at hand. *)
Definition needs_image (fs : list (string * File)) (doc : Document) : latex_outcome :=
  match lookup_file "beam.png" fs with
  | Some _ => Compiled
  | None => Rejected "! LaTeX Error: File `beam.png' not found."
  end.

Definition world_of (fs : list (string * File)) : World :=
  {| files := fs; stdout := []; latex := needs_image |}.

Definition with_stdout (w : World) (lines : list string) : World :=
  {| files := files w; stdout := lines; latex := latex w |}.


(** ** Further views of a frame, a document and a fragment *)

(** [df[key]]: the column labelled [key], the first one when a label is
    repeated, as [getitem] finds it in a row. *)
Definition column (df : DataFrame) (key : string) : option Column :=
  match find (fun c => String.eqb (fst c) key) (columns df) with
  | Some c => Some (snd c)
  | None => None
  end.

(** The range of an [int64] cell. *)
Definition in_int64 (z : Z) : bool := (- 2 ^ 63 <=? z) && (z <? 2 ^ 63).

(** A column of numbers: [int64] or [float64], empty cells (NaN) and
    infinities included. *)
Definition numeric_column (c : Column) : bool :=
  match c with
  | Int64Column xs => forallb in_int64 xs
  | Float64Column _ => true
  | ObjectColumn _ => false
  end.

(** The outline of a document body: the title of each section with the
    titles of its subsections. *)
Definition subsection_titles (items : list LatexObject) : list string :=
  flat_map (fun x => match x with Subsection t _ => [t] | _ => [] end) items.

Definition outline (body : list LatexObject) : list (string * list string) :=
  flat_map (fun x =>
              match x with
              | Section t data => [(t, subsection_titles data)]
              | _ => []
              end) body.

(** What comes before the first section of a document body. *)
Fixpoint front_matter (body : list LatexObject) : list LatexObject :=
  match body with
  | [] => []
  | Section _ _ :: _ => []
  | x :: body' => x :: front_matter body'
  end.

(** The table of the "Data Source" subsection, rules included. *)
Definition data_table (doc : Document) : option LatexObject :=
  match find_subsection "Data Source" (doc_data doc) with
  | Some items =>
      find (fun x => match x with Tabular _ _ => true | _ => false end) items
  | None => None
  end.

(** The figure of the "Beam Description" subsection. *)
Definition beam_figure (doc : Document) : option LatexObject :=
  match find_subsection "Beam Description" (doc_data doc) with
  | Some items =>
      find (fun x => match x with Figure _ _ => true | _ => false end) items
  | None => None
  end.

(** The items of a filled table: a rule, the header, a rule, then every
    row with the rule below it. *)
Definition table_items (css : list (list string)) : list LatexObject :=
  (HLine :: Row table_header :: HLine :: flat_map (fun cs => [Row cs; HLine]) css)%list.

(** The value of an axis option [key=value] of a fragment: the text from
    the first [key=] to the next comma or blank. *)
Fixpoint take_until (stop : ascii -> bool) (s : string) : string :=
  match s with
  | "" => ""
  | String c s' => if stop c then "" else String c (take_until stop s')
  end.

Definition axis_option (key tikz : string) : option string :=
  match after (key ++ "=") tikz with
  | Some r => Some (take_until (fun c => Ascii.eqb c "," || is_blank c) r)
  | None => None
  end.

(** A sheet with an empty cell: pandas reads the column as [float64] and
    the cell as NaN. *)
Definition blank_cell_df : DataFrame :=
  {| columns :=
       [("X", Int64Column [0; 6; 12]);
        ("Shear force", Float64Column [float_of_Z 15; Fnan; float_of_Z (-15)]);
        ("Bending Moment", Int64Column [0; 90; 0])];
     nrows := 3 |}.

(** A beam longer and loaded more than the axes of the plots reach. *)
Definition long_beam_df : DataFrame :=
  {| columns :=
       [("X", Int64Column [0; 10; 20]);
        ("Shear force", Int64Column [100; 0; -100]);
        ("Bending Moment", Int64Column [0; 500; 0])];
     nrows := 3 |}.

(** A sheet with the columns of one plot only. *)
Definition moment_only_df : DataFrame :=
  {| columns := [("X", Int64Column [0; 6]); ("Bending Moment", Int64Column [0; 90])];
     nrows := 2 |}.

(** A sheet without the "X" column. *)
Definition no_position_df : DataFrame :=
  {| columns :=
       [("Shear force", Int64Column [15; -15]); ("Bending Moment", Int64Column [0; 90])];
     nrows := 2 |}.

(** A sheet of two rows. *)
Definition two_row_df : DataFrame :=
  {| columns :=
       [("X", Int64Column [0; 6]);
        ("Shear force", Int64Column [15; -15]);
        ("Bending Moment", Int64Column [0; 90])];
     nrows := 2 |}.

(** The cells of an [int64] column are 64-bit integers. *)
Definition in_range_column (c : Column) : bool :=
  match c with
  | Int64Column xs => forallb in_int64 xs
  | _ => true
  end.

(** The sheet of two rows with one more column, of fractions. *)
Definition two_row_load_df : DataFrame :=
  {| columns :=
       [("X", Int64Column [0; 6]);
        ("Shear force", Int64Column [15; -15]);
        ("Bending Moment", Int64Column [0; 90]);
        ("Deflection", Float64Column [f67_5; f67_5])];
     nrows := 2 |}.

(** ** Sheets as they are stored, and cells one by one *)

(** The text of one cell of a table row: [f"{row[key]:.1f}"]. *)
Definition cell_text (row : Series) (key : string) : result string :=
  (v <- getitem row key ;; format_1f v)%py.

(** What [.1f] raises on text. *)
Definition str_format_error : exn :=
  ValueError "Unknown format code 'f' for object of type 'str'".

(** The labels of a frame are distinct. *)
Fixpoint distinct (ks : list string) : bool :=
  match ks with
  | [] => true
  | k :: ks' => negb (existsb (String.eqb k) ks') && distinct ks'
  end.

Definition unique_labels (df : DataFrame) : bool :=
  distinct (map (fun c => fst c) (columns df)).








(** * Properties *)

#[local] Arguments digit_char : simpl never.
#[local] Arguments digit_value : simpl never.
#[local] Arguments is_digit : simpl never.
#[local] Arguments Z.pow : simpl never.

(** ** The text of numbers, on examples

    The numbers of the scenario and some others, written as CPython writes
    them: [repr] picks the shortest digits, [.1f] rounds the binary value
    to even. *)

Example str_float_examples :
  map str_float
    [float_of_Z 0; float_of_Z 6; float_of_Z 15; f67_5; Ffin true 0 emin;
     round_b64 false 1 10; round_b64 true 16875 100; round_b64 false 1 3;
     float_of_Z (10 ^ 16); round_b64 false 1 100000; Ffin false 1 emin;
     float_of_Z (2 ^ 53 + 1)]
  = ["0.0"; "6.0"; "15.0"; "67.5"; "-0.0"; "0.1"; "-168.75"; "0.3333333333333333";
     "1e+16"; "1e-05"; "5e-324"; "9007199254740992.0"].
Proof. vm_compute. reflexivity. Qed.

Example format_1f_examples :
  map format_1f
    [VInt 0; VInt 15; VInt (-45); VFloat f67_5; VFloat (round_b64 false 16875 100);
     VFloat (round_b64 false 25 100); VFloat (round_b64 false 35 100);
     VFloat (round_b64 true 4 100); VFloat Fnan; VStr "n/a"]
  = [Ok "0.0"; Ok "15.0"; Ok "-45.0"; Ok "67.5"; Ok "168.8"; Ok "0.2"; Ok "0.3";
     Ok "-0.0"; Ok "nan";
     Raise (ValueError "Unknown format code 'f' for object of type 'str'")].
Proof. vm_compute. reflexivity. Qed.

(** What [iterrows] yields for the scenario: the whole numbers arrive as
    doubles, next to the [float64] column. *)
Example iterrows_scenario :
  iterrows scenario_df
  = [[("X", VFloat (float_of_Z 0)); ("Shear force", VFloat (float_of_Z 0));
      ("Bending Moment", VFloat (Ffin false 0 emin))];
     [("X", VFloat (float_of_Z 6)); ("Shear force", VFloat (float_of_Z 15));
      ("Bending Moment", VFloat f67_5)];
     [("X", VFloat (float_of_Z 12)); ("Shear force", VFloat (float_of_Z 0));
      ("Bending Moment", VFloat (Ffin false 0 emin))]]
  /\ iterrows scenario_df_float = iterrows scenario_df.
Proof. split; vm_compute; reflexivity. Qed.

(** ** Strings *)

Lemma append_nil_r (s : string) : s ++ "" = s.
Proof. induction s as [|c s IH]; simpl; [reflexivity | now rewrite IH]. Qed.

Lemma append_assoc (s t u : string) : (s ++ t) ++ u = s ++ t ++ u.
Proof. induction s as [|c s IH]; simpl; [reflexivity | now rewrite IH]. Qed.

(** Normal form of concatenations: associated to the right, literals
    pushed into the text that follows them. *)
Ltac string_norm :=
  repeat first [rewrite !append_assoc | progress cbn [String.append]].


Lemma all_chars_append (p : ascii -> bool) (s t : string) :
  all_chars p (s ++ t) = all_chars p s && all_chars p t.
Proof.
  induction s as [|c s IH]; simpl; [reflexivity |].
  now rewrite IH, andb_assoc.
Qed.

Lemma all_chars_weaken (p q : ascii -> bool) (s : string) :
  (forall c, p c = true -> q c = true) ->
  all_chars p s = true -> all_chars q s = true.
Proof.
  intros Hpq. induction s as [|c s IH]; simpl; [reflexivity |].
  intros H. apply andb_true_iff in H as [Hc Hs].
  now rewrite (Hpq _ Hc), IH.
Qed.

Lemma all_chars_zeros (p : ascii -> bool) (n : nat) :
  p "0"%char = true -> all_chars p (zeros n) = true.
Proof. intros H. induction n as [|n IH]; simpl; [reflexivity | now rewrite H, IH]. Qed.


(** ** Digits *)

Lemma digit_cases (d : Z) :
  0 <= d < 10 ->
  d = 0 \/ d = 1 \/ d = 2 \/ d = 3 \/ d = 4 \/ d = 5 \/ d = 6 \/ d = 7 \/ d = 8 \/ d = 9.
Proof. lia. Qed.

Lemma digit_value_char (d : Z) : 0 <= d < 10 -> digit_value (digit_char d) = d.
Proof.
  intros H. destruct (digit_cases d H) as [-> | H'];
    [reflexivity | repeat (destruct H' as [-> | H']; [reflexivity |])].
  now subst.
Qed.

Lemma is_digit_char (d : Z) : 0 <= d < 10 -> is_digit (digit_char d) = true.
Proof.
  intros H. destruct (digit_cases d H) as [-> | H'];
    [reflexivity | repeat (destruct H' as [-> | H']; [reflexivity |])].
  now subst.
Qed.

Lemma digit_char_zero (d : Z) :
  0 <= d < 10 -> Ascii.eqb (digit_char d) "0" = (d =? 0).
Proof.
  intros H. destruct (digit_cases d H) as [-> | H'];
    [reflexivity | repeat (destruct H' as [-> | H']; [reflexivity |])].
  now subst.
Qed.

Lemma Z_of_digits_acc_append (s t : string) (a : Z) :
  Z_of_digits_acc (s ++ t) a = Z_of_digits_acc t (Z_of_digits_acc s a).
Proof. revert a. induction s as [|c s IH]; intros a; simpl; [reflexivity | apply IH]. Qed.

Lemma Z_of_digits_acc_shift (s : string) (a : Z) :
  Z_of_digits_acc s a = a * 10 ^ slen s + Z_of_digits s.
Proof.
  unfold Z_of_digits, slen. revert a.
  induction s as [|c s IH]; intros a.
  - simpl. lia.
  - cbn [Z_of_digits_acc String.length].
    rewrite (IH (10 * a + digit_value c)), (IH (10 * 0 + digit_value c)).
    rewrite Nat2Z.inj_succ, Z.pow_succ_r by lia. ring.
Qed.

Lemma Z_of_digits_append (s t : string) :
  Z_of_digits (s ++ t) = Z_of_digits s * 10 ^ slen t + Z_of_digits t.
Proof.
  unfold Z_of_digits at 1. rewrite Z_of_digits_acc_append.
  now rewrite Z_of_digits_acc_shift.
Qed.

(** What [digits_fuel] puts in front of the accumulator: the digits of
    [z], at least one, the first one not a zero unless [z] is zero. *)
Lemma single_digit_spec (z : Z) (acc : string) :
  0 <= z < 10 ->
  exists d,
    String (digit_char z) acc = d ++ acc
    /\ Z_of_digits d = z
    /\ all_chars is_digit d = true
    /\ (exists c r, d = String c r /\ (0 < z -> Ascii.eqb c "0" = false)).
Proof.
  intros Hz. exists (String (digit_char z) "").
  split; [reflexivity |]. split; [| split].
  - unfold Z_of_digits. cbn [Z_of_digits_acc]. rewrite digit_value_char; lia.
  - cbn [all_chars]. rewrite is_digit_char; [reflexivity | lia].
  - exists (digit_char z), "". split; [reflexivity |].
    intros Hpos. rewrite digit_char_zero by lia. apply Z.eqb_neq. lia.
Qed.

Lemma digits_fuel_spec (fuel : nat) :
  forall z acc, 0 <= z < 2 ^ Z.of_nat (S fuel) ->
  exists d,
    digits_fuel (S fuel) z acc = d ++ acc
    /\ Z_of_digits d = z
    /\ all_chars is_digit d = true
    /\ (exists c r, d = String c r /\ (0 < z -> Ascii.eqb c "0" = false)).
Proof.
  induction fuel as [|fuel IH]; intros z acc Hz.
  - assert (Hlt : z < 10) by (change (2 ^ Z.of_nat 1) with 2 in Hz; lia).
    cbn [digits_fuel]. apply Z.ltb_lt in Hlt as Hb. rewrite Hb.
    rewrite Z.mod_small by lia. apply single_digit_spec. lia.
  - cbn [digits_fuel]. destruct (z <? 10) eqn:Hb.
    + apply Z.ltb_lt in Hb. rewrite Z.mod_small by lia.
      apply single_digit_spec. lia.
    + apply Z.ltb_ge in Hb.
      assert (Hq : 0 <= z / 10 < 2 ^ Z.of_nat (S fuel)).
      { split; [apply Z.div_pos; lia |].
        apply Z.div_lt_upper_bound; [lia |].
        rewrite (Nat2Z.inj_succ (S fuel)), Z.pow_succ_r in Hz by lia. lia. }
      destruct (IH (z / 10) (String (digit_char (z mod 10)) acc) Hq)
        as (d & Hd & Hv & Hall & c & r & Hcr & Hc).
      exists (d ++ String (digit_char (z mod 10)) "").
      assert (Hm : 0 <= z mod 10 < 10) by (apply Z.mod_pos_bound; lia).
      split; [| split; [| split]].
      * rewrite append_assoc. exact Hd.
      * rewrite Z_of_digits_append, Hv. unfold Z_of_digits, slen.
        cbn [Z_of_digits_acc String.length].
        rewrite digit_value_char by lia.
        pose proof (Z.div_mod z 10). change (10 ^ Z.of_nat 1) with 10. lia.
      * rewrite all_chars_append, Hall. cbn [all_chars].
        rewrite is_digit_char; [reflexivity | lia].
      * subst d. exists c, (r ++ String (digit_char (z mod 10)) "").
        split; [reflexivity |].
        intros _. apply Hc. apply Z.div_str_pos. lia.
Qed.

Lemma digits_of_Z_spec (z : Z) :
  0 <= z ->
  Z_of_digits (digits_of_Z z) = z
  /\ all_chars is_digit (digits_of_Z z) = true
  /\ (exists c r, digits_of_Z z = String c r /\ (0 < z -> Ascii.eqb c "0" = false)).
Proof.
  intros Hz. unfold digits_of_Z.
  assert (Hb : 0 <= z < 2 ^ Z.of_nat (S (Z.to_nat (Z.log2 z)))).
  { split; [assumption |].
    rewrite Nat2Z.inj_succ, Z2Nat.id by apply Z.log2_nonneg.
    destruct (Z.eq_dec z 0) as [-> | Hne]; [reflexivity |].
    apply Z.log2_spec. lia. }
  destruct (digits_fuel_spec _ z "" Hb) as (d & Hd & Hv & Hall & Hhd).
  rewrite Hd, append_nil_r. auto.
Qed.

(** Whatever the argument, [digits_of_Z] yields digits only. *)
Lemma digits_fuel_digits (fuel : nat) :
  forall z acc, all_chars is_digit acc = true ->
  all_chars is_digit (digits_fuel fuel z acc) = true.
Proof.
  induction fuel as [|fuel IH]; intros z acc Hacc; [exact Hacc |].
  cbn [digits_fuel].
  assert (Hc : all_chars is_digit (String (digit_char (z mod 10)) acc) = true).
  { cbn [all_chars]. rewrite is_digit_char, Hacc; [reflexivity | apply Z.mod_pos_bound; lia]. }
  destruct (z <? 10); [exact Hc | now apply IH].
Qed.

Lemma digits_of_Z_digits (z : Z) : all_chars is_digit (digits_of_Z z) = true.
Proof. unfold digits_of_Z. now apply digits_fuel_digits. Qed.

(** ** The loops of the program *)

Lemma plot_loop (key : string) (rows : list Series) (acc : string) :
  for_each rows
    (fun row tikz_code =>
       (x <- getitem row "X" ;;
        y <- getitem row key ;;
        Ok (tikz_code ++ "        (" ++ py_str x ++ ", " ++ py_str y ++ ")
"))%py) acc
  = match map_result (coordinate_line key) rows with
    | Ok ls => Ok (acc ++ String.concat "" ls)
    | Raise e => Raise e
    end.
Proof.
  revert acc. induction rows as [|row rows IH]; intros acc.
  - cbn. now rewrite append_nil_r.
  - cbn [for_each map_result]. unfold coordinate_line at 1.
    destruct (getitem row "X") as [x|e]; cbn [bind]; [| reflexivity].
    destruct (getitem row key) as [y|e]; cbn [bind]; [| reflexivity].
    rewrite IH.
    destruct (map_result (coordinate_line key) rows) as [ls|e]; [| reflexivity].
    f_equal. rewrite append_assoc. f_equal.
    destruct ls; cbn; [now rewrite append_nil_r | reflexivity].
Qed.

Lemma generate_sfd_plot_eq (df : DataFrame) :
  generate_sfd_plot df
  = match map_result (coordinate_line "Shear force") (iterrows df) with
    | Ok ls => Ok (sfd_head ++ String.concat "" ls ++ sfd_tail)
    | Raise e => Raise e
    end.
Proof.
  unfold generate_sfd_plot. rewrite plot_loop.
  destruct (map_result _ _); cbn [bind]; [| reflexivity].
  now rewrite append_assoc.
Qed.

Lemma generate_bmd_plot_eq (df : DataFrame) :
  generate_bmd_plot df
  = match map_result (coordinate_line "Bending Moment") (iterrows df) with
    | Ok ls => Ok (bmd_head ++ String.concat "" ls ++ bmd_tail)
    | Raise e => Raise e
    end.
Proof.
  unfold generate_bmd_plot. rewrite plot_loop.
  destruct (map_result _ _); cbn [bind]; [| reflexivity].
  now rewrite append_assoc.
Qed.

Lemma table_loop (rows : list Series) (d : Document) :
  for_rows rows
    (fun row =>
       (x <- lift (v <- getitem row "X" ;; format_1f v)%py ;;
        s <- lift (v <- getitem row "Shear force" ;; format_1f v)%py ;;
        b <- lift (v <- getitem row "Bending Moment" ;; format_1f v)%py ;;
        add_row [x; s; b] ;;;
        add_hline)%builder) d
  = match map_result table_cells rows with
    | Ok css =>
        Ok (tt, set_data d (doc_data d ++ flat_map (fun cs => [Row cs; HLine]) css)%list)
    | Raise e => Raise e
    end.
Proof.
  revert d. induction rows as [|row rows IH]; intros d.
  - cbn. rewrite app_nil_r. destruct d; reflexivity.
  - cbn [for_rows map_result]. unfold table_cells at 1.
    unfold seq_builder at 1. unfold seq_builder at 1, lift at 1.
    destruct (v <- getitem row "X";; format_1f v)%py as [x|e]; cbn [bind]; [| reflexivity].
    unfold seq_builder at 1, lift at 1.
    destruct (v <- getitem row "Shear force";; format_1f v)%py as [s|e]; cbn [bind];
      [| reflexivity].
    unfold seq_builder at 1, lift at 1.
    destruct (v <- getitem row "Bending Moment";; format_1f v)%py as [b|e]; cbn [bind];
      [| reflexivity].
    unfold seq_builder at 1, add_row, add_hline, append.
    rewrite IH.
    destruct (map_result table_cells rows) as [css|e]; [| reflexivity].
    cbn. now rewrite <- !app_assoc.
Qed.

Lemma for_rows_ext {A : Type} (xs : list A) (f g : A -> builder unit) (d : Document) :
  (forall x d', f x d' = g x d') -> for_rows xs f d = for_rows xs g d.
Proof.
  intros H. revert d. induction xs as [|x xs IH]; intros d; [reflexivity |].
  cbn [for_rows]. unfold seq_builder. rewrite H.
  destruct (g x d) as [[u d']|e]; [apply IH | reflexivity].
Qed.

Lemma table_loop_ext (body : Series -> builder unit) (rows : list Series) (d : Document) :
  (forall row d',
      body row d'
      = (x <- lift (v <- getitem row "X" ;; format_1f v)%py ;;
         s <- lift (v <- getitem row "Shear force" ;; format_1f v)%py ;;
         b <- lift (v <- getitem row "Bending Moment" ;; format_1f v)%py ;;
         add_row [x; s; b] ;;;
         add_hline)%builder d') ->
  for_rows rows body d
  = match map_result table_cells rows with
    | Ok css =>
        Ok (tt, set_data d (doc_data d ++ flat_map (fun cs => [Row cs; HLine]) css)%list)
    | Raise e => Raise e
    end.
Proof. intros H. rewrite <- table_loop. now apply for_rows_ext. Qed.

(** ** The assembled document *)

Lemma rows_of_table_items (css : list (list string)) :
  flat_map (fun x => match x with Row cells => [cells] | _ => [] end)
           (flat_map (fun cs => [Row cs; HLine]) css) = css.
Proof. induction css as [|cs css IH]; cbn; [reflexivity | now rewrite IH]. Qed.

(** Run the statements of a builder as far as they go. *)
Ltac run_builder :=
  cbv beta iota zeta
      delta [seq_builder create append packages_append preamble_append
             add_hline add_row add_image add_caption lift ret set_data
             new_Document mkPackage
             documentclass document_options packages preamble doc_data
             fst snd app].

(** What the document holds once it is filled: the table, the two plot
    fragments, the bullets and the date; and which statement raises when
    it is not filled. *)
Lemma build_document_spec (df : DataFrame) :
  match map_result table_cells (iterrows df) with
  | Raise e => build_document df = Raise e
  | Ok css =>
      match generate_sfd_plot df with
      | Raise e => build_document df = Raise e
      | Ok sfd =>
          match generate_bmd_plot df with
          | Raise e => build_document df = Raise e
          | Ok bmd =>
              exists doc,
                build_document df = Ok doc
                /\ table_rows doc = Some (table_header :: css)
                /\ plot_fragment sfd_title doc = Some sfd
                /\ plot_fragment bmd_title doc = Some bmd
                /\ key_observations sfd_title doc = Some sfd_observations
                /\ key_observations bmd_title doc = Some bmd_observations
                /\ In (Command "date" (NoEscape "\today")) (preamble doc)
          end
      end
  end.
Proof.
  unfold build_document, fill_document.
  run_builder.
  rewrite table_loop_ext by (intros; reflexivity).
  destruct (map_result table_cells (iterrows df)) as [css|e]; [| reflexivity].
  run_builder.
  rewrite generate_sfd_plot_eq, generate_bmd_plot_eq.
  destruct (map_result (coordinate_line "Shear force") (iterrows df)) as [ls|e];
    [| reflexivity].
  run_builder.
  destruct (map_result (coordinate_line "Bending Moment") (iterrows df)) as [lb|e];
    [| reflexivity].
  run_builder.
  eexists. split; [reflexivity |].
  unfold table_rows, plot_fragment, key_observations.
  cbn. rewrite rows_of_table_items.
  repeat split. cbv [In]. auto.
Qed.

(** ** The text of numbers: which characters, which shape *)

Lemma digits_fuel_front (fuel : nat) :
  forall z acc, exists c r, digits_fuel (S fuel) z acc = String c (r ++ acc).
Proof.
  induction fuel as [|fuel IH]; intros z acc.
  - cbn [digits_fuel]. destruct (z <? 10); now exists (digit_char (z mod 10)), "".
  - cbn [digits_fuel]. destruct (z <? 10).
    + now exists (digit_char (z mod 10)), "".
    + destruct (IH (z / 10) (String (digit_char (z mod 10)) acc)) as (c & r & H).
      exists c, (r ++ String (digit_char (z mod 10)) "").
      cbn [digits_fuel] in H. rewrite H, append_assoc. reflexivity.
Qed.

Lemma digits_of_Z_nonempty (z : Z) : is_empty (digits_of_Z z) = false.
Proof.
  unfold digits_of_Z.
  destruct (digits_fuel_front (Z.to_nat (Z.log2 z)) z "") as (c & r & H).
  now rewrite H.
Qed.

Lemma digits_of_Z_small (z : Z) :
  0 <= z < 10 -> digits_of_Z z = String (digit_char z) "".
Proof.
  intros Hz. unfold digits_of_Z. cbn [digits_fuel].
  apply proj2 in Hz as Hlt. apply Z.ltb_lt in Hlt. rewrite Hlt.
  now rewrite Z.mod_small.
Qed.

Lemma all_chars_rstrip0 (p : ascii -> bool) (s : string) :
  all_chars p s = true -> all_chars p (rstrip0 s) = true.
Proof.
  induction s as [|c s IH]; [reflexivity |].
  cbn [all_chars rstrip0]. intros H. apply andb_true_iff in H as [Hc Hs].
  specialize (IH Hs). destruct (rstrip0 s) as [|c' t].
  - destruct (Ascii.eqb c "0"); cbn [all_chars]; [reflexivity | now rewrite Hc].
  - cbn [all_chars] in *. now rewrite Hc, IH.
Qed.

Lemma all_chars_substring (p : ascii -> bool) (s : string) :
  all_chars p s = true -> forall n k, all_chars p (substring n k s) = true.
Proof.
  induction s as [|c s IH]; intros H n k.
  - destruct n, k; reflexivity.
  - cbn [all_chars] in H. apply andb_true_iff in H as [Hc Hs].
    destruct n as [|n]; destruct k as [|k]; cbn [substring all_chars];
      try reflexivity; try now apply IH.
    now rewrite Hc, IH.
Qed.

Lemma is_digit_numeric (c : ascii) : is_digit c = true -> numeric_char c = true.
Proof. intros H. unfold numeric_char. now rewrite H. Qed.

Lemma digits_numeric (s : string) :
  all_chars is_digit s = true -> all_chars numeric_char s = true.
Proof. apply all_chars_weaken, is_digit_numeric. Qed.

Lemma str_int_numeric (z : Z) : all_chars numeric_char (str_int z) = true.
Proof.
  unfold str_int. destruct (z <? 0).
  - cbn [String.append all_chars]. rewrite digits_numeric by apply digits_of_Z_digits.
    reflexivity.
  - apply digits_numeric, digits_of_Z_digits.
Qed.

Lemma decimal_of_digits (d k : Z) : all_chars is_digit (fst (decimal_of d k)) = true.
Proof. unfold decimal_of. cbn [fst]. apply all_chars_rstrip0, digits_of_Z_digits. Qed.

Lemma shortest_at_digits (m e num den p : Z) (n : nat) (r : string * Z) :
  shortest_at m e num den p n = Some r -> all_chars is_digit (fst r) = true.
Proof.
  unfold shortest_at. cbv zeta.
  repeat match goal with
         | |- context [match ?b with true => _ | false => _ end] => destruct b
         | |- context [let '(_, _) := ?x in _] => destruct x
         end;
    intros H; inversion H; subst; apply decimal_of_digits.
Qed.

Lemma shortest_from_digits (m e num den p : Z) (tries n : nat) (r : string * Z) :
  shortest_from m e num den p n tries = Some r -> all_chars is_digit (fst r) = true.
Proof.
  revert n. induction tries as [|tries IH]; intros n; cbn [shortest_from]; [discriminate |].
  destruct (shortest_at m e num den p n) as [d|] eqn:Hat.
  - intros H. inversion H; subst. eapply shortest_at_digits, Hat.
  - apply IH.
Qed.

Lemma shortest_decimal_digits (m e : Z) :
  all_chars is_digit (fst (shortest_decimal m e)) = true.
Proof.
  unfold shortest_decimal. cbv zeta.
  destruct (shortest_from _ _ _ _ _ _ _) as [d|] eqn:H.
  - eapply shortest_from_digits, H.
  - unfold exact_decimal. destruct (0 <=? e); apply decimal_of_digits.
Qed.

Lemma exponent_text_numeric (x : Z) : all_chars numeric_char (exponent_text x) = true.
Proof.
  unfold exponent_text. cbv zeta. rewrite !all_chars_append.
  rewrite (digits_numeric _ (digits_of_Z_digits _)).
  destruct (x <? 0), (Z.abs x <? 10); reflexivity.
Qed.

Lemma repr_layout_numeric (ds : string) (decpt : Z) :
  all_chars is_digit ds = true -> all_chars numeric_char (repr_layout ds decpt) = true.
Proof.
  intros Hd. apply digits_numeric in Hd as Hn.
  unfold repr_layout. cbv zeta.
  destruct ((16 <? decpt) || (decpt <? -3)).
  - rewrite !all_chars_append, exponent_text_numeric.
    assert (Hh : all_chars numeric_char (head_char ds) = true).
    { destruct ds as [|c r]; [reflexivity |].
      cbn [head_char all_chars] in *. apply andb_true_iff in Hn as [-> _]. reflexivity. }
    assert (Ht : all_chars numeric_char (tail_chars ds) = true).
    { destruct ds as [|c r]; [reflexivity |].
      cbn [tail_chars all_chars] in *. now apply andb_true_iff in Hn as [_ ->]. }
    rewrite Hh. destruct (1 <? slen ds); [rewrite all_chars_append, Ht |]; reflexivity.
  - destruct (decpt <=? 0).
    + cbn [String.append all_chars]. rewrite all_chars_append, Hn, all_chars_zeros; reflexivity.
    + destruct (slen ds <=? decpt).
      * rewrite !all_chars_append, Hn, all_chars_zeros; reflexivity.
      * unfold take, drop. rewrite !all_chars_append.
        rewrite !all_chars_substring by assumption. reflexivity.
Qed.

Lemma str_float_numeric (neg : bool) (m e : Z) :
  all_chars numeric_char (str_float (Ffin neg m e)) = true.
Proof.
  cbn [str_float]. rewrite all_chars_append.
  replace (all_chars numeric_char (sign_text neg)) with true by now destruct neg.
  destruct (m =? 0); [reflexivity |].
  pose proof (shortest_decimal_digits m e) as H.
  destruct (shortest_decimal m e) as [ds decpt]. cbn [fst] in H.
  now apply repr_layout_numeric.
Qed.

(** The text of a real number is made of digits, a point, signs and [e]. *)
Lemma py_str_numeric (v : value) :
  is_real v = true -> all_chars numeric_char (py_str v) = true.
Proof.
  destruct v as [z|f|s]; cbn [is_real py_str]; intros H.
  - apply str_int_numeric.
  - destruct f as [| neg | neg m e]; try discriminate. apply str_float_numeric.
  - discriminate.
Qed.

(** *** The [.1f] format *)

Lemma span_digits_append (d r : string) :
  all_chars is_digit d = true ->
  match r with
  | "" => True
  | String c _ => is_digit c = false
  end ->
  span_digits (d ++ r) = (d, r).
Proof.
  intros Hd Hr. induction d as [|c d IH].
  - cbn [String.append]. destruct r as [|c r]; [reflexivity |].
    cbn [span_digits]. now rewrite Hr.
  - cbn [all_chars] in Hd. apply andb_true_iff in Hd as [Hc Hd].
    cbn [String.append span_digits]. rewrite Hc, (IH Hd). reflexivity.
Qed.

Lemma digit_not_minus (c : ascii) : is_digit c = true -> Ascii.eqb c "-" = false.
Proof.
  intros H. destruct (Ascii.eqb c "-") eqn:E; [| reflexivity].
  apply Ascii.eqb_eq in E. subst c. discriminate H.
Qed.

Lemma unsigned_part_signed (neg : bool) (c : ascii) (r : string) :
  is_digit c = true ->
  unsigned_part (sign_text neg ++ String c r) = String c r
  /\ starts_with_minus (sign_text neg ++ String c r) = neg.
Proof.
  intros H. destruct neg; cbn [sign_text String.append]; [split; reflexivity |].
  unfold unsigned_part. cbn [starts_with_minus]. now rewrite digit_not_minus.
Qed.

Lemma one_decimal_shape (neg : bool) (ip : string) (d : ascii) :
  all_chars is_digit ip = true -> is_empty ip = false -> is_digit d = true ->
  has_one_decimal (sign_text neg ++ ip ++ "." ++ String d "") = true.
Proof.
  intros Hip Hne Hd. unfold has_one_decimal.
  destruct ip as [|c r]; [discriminate |].
  cbn [all_chars] in Hip. apply andb_true_iff in Hip as [Hc Hr].
  cbn [String.append].
  rewrite (proj1 (unsigned_part_signed neg c _ Hc)).
  change (String c (r ++ String "." (String d "")))
    with (String c r ++ String "." (String d "")).
  rewrite span_digits_append.
  - cbn. now rewrite Hd.
  - cbn [all_chars]. now rewrite Hc, Hr.
  - reflexivity.
Qed.

(** Every finite double is written by [.1f] with exactly one decimal. *)
Lemma format_1f_float_shape (neg : bool) (m e : Z) :
  has_one_decimal (format_1f_float (Ffin neg m e)) = true.
Proof.
  cbn [format_1f_float]. cbv zeta.
  set (t := round_half_even _ _).
  assert (Hm : 0 <= t mod 10 < 10) by (apply Z.mod_pos_bound; lia).
  rewrite (digits_of_Z_small (t mod 10)) by assumption.
  apply one_decimal_shape.
  - apply digits_of_Z_digits.
  - apply digits_of_Z_nonempty.
  - now apply is_digit_char.
Qed.

(** ** Datasets: every row formats *)

Lemma real_at_field (row : Series) (key : string) :
  real_at row key = true ->
  getitem row key = Ok (field row key) /\ is_real (field row key) = true.
Proof.
  unfold real_at, field. destruct (getitem row key) as [v|e]; [auto | discriminate].
Qed.

Lemma is_record_fields (row : Series) :
  is_record row = true ->
  real_at row "X" = true
  /\ real_at row "Shear force" = true
  /\ real_at row "Bending Moment" = true.
Proof.
  unfold is_record. intros H.
  apply andb_true_iff in H as [H Hb]. apply andb_true_iff in H as [Hx Hs]. auto.
Qed.

Lemma map_result_ok {A B : Type} (f : A -> result B) (g : A -> B) (xs : list A) :
  (forall x, In x xs -> f x = Ok (g x)) -> map_result f xs = Ok (map g xs).
Proof.
  induction xs as [|x xs IH]; intros H; [reflexivity |].
  cbn [map_result map]. rewrite (H x) by now left.
  rewrite IH; [reflexivity |]. intros y Hy. apply H. now right.
Qed.

Lemma coordinate_line_record (key : string) (row : Series) :
  real_at row "X" = true -> real_at row key = true ->
  coordinate_line key row = Ok (line_of key row).
Proof.
  intros Hx Hk. unfold coordinate_line, line_of, token_of.
  rewrite (proj1 (real_at_field _ _ Hx)), (proj1 (real_at_field _ _ Hk)).
  cbn [bind]. now string_norm.
Qed.

Lemma dataset_rows (df : DataFrame) :
  is_dataset df = true -> forall row, In row (iterrows df) -> is_record row = true.
Proof. unfold is_dataset. intros H. now apply forallb_forall. Qed.

Lemma dataset_sfd_lines (df : DataFrame) :
  is_dataset df = true ->
  map_result (coordinate_line "Shear force") (iterrows df)
  = Ok (map (line_of "Shear force") (iterrows df)).
Proof.
  intros H. apply map_result_ok. intros row Hrow.
  destruct (is_record_fields row (dataset_rows df H row Hrow)) as (Hx & Hs & Hb).
  now apply coordinate_line_record.
Qed.

Lemma dataset_bmd_lines (df : DataFrame) :
  is_dataset df = true ->
  map_result (coordinate_line "Bending Moment") (iterrows df)
  = Ok (map (line_of "Bending Moment") (iterrows df)).
Proof.
  intros H. apply map_result_ok. intros row Hrow.
  destruct (is_record_fields row (dataset_rows df H row Hrow)) as (Hx & Hs & Hb).
  now apply coordinate_line_record.
Qed.

(** The logarithm that [round_b64] starts from is within one of the
    quotient of the bit lengths. *)
Lemma floor_log2_q_le (num den : Z) :
  floor_log2_q num den <= Z.log2 num - Z.log2 den.
Proof. unfold floor_log2_q. cbv zeta. destruct (_ <=? _); lia. Qed.

Lemma float_of_Z_finite (z : Z) :
  Z.abs z <= 2 ^ 53 -> exists m e, float_of_Z z = Ffin (z <? 0) m e.
Proof.
  intros Hz. unfold float_of_Z, round_b64. cbv zeta.
  destruct (Z.abs z =? 0); [now eexists _, _ |].
  set (lg := floor_log2_q (Z.abs z) 1).
  assert (Hlg : lg <= 53).
  { pose proof (floor_log2_q_le (Z.abs z) 1) as H.
    change (Z.log2 1) with 0 in H.
    pose proof (Z.log2_le_mono _ _ Hz) as H'.
    rewrite Z.log2_pow2 in H' by lia. unfold lg. lia. }
  set (e := Z.max (lg - 52) emin).
  assert (He : e <= 1) by (unfold e, emin; lia).
  set (q := round_half_even _ _).
  replace (emax <? (if q =? 2 ^ 53 then e + 1 else e)) with false.
  - now eexists _, _.
  - symmetry. apply Z.ltb_ge. unfold emax. destruct (q =? 2 ^ 53); lia.
Qed.

(** Every real cell is written by [.1f], with exactly one decimal. *)
Lemma format_1f_real (v : value) :
  is_real v = true -> exists s, format_1f v = Ok s /\ has_one_decimal s = true.
Proof.
  destruct v as [z|f|s]; cbn [is_real format_1f]; intros H.
  - apply Z.leb_le in H. destruct (float_of_Z_finite z H) as (m & e & ->).
    eexists. split; [reflexivity | apply format_1f_float_shape].
  - destruct f as [| neg | neg m e]; try discriminate.
    eexists. split; [reflexivity | apply format_1f_float_shape].
  - discriminate.
Qed.

Lemma table_cells_record (row : Series) :
  is_record row = true ->
  exists x s b,
    table_cells row = Ok [x; s; b]
    /\ format_1f (field row "X") = Ok x
    /\ format_1f (field row "Shear force") = Ok s
    /\ format_1f (field row "Bending Moment") = Ok b
    /\ has_one_decimal x = true /\ has_one_decimal s = true
    /\ has_one_decimal b = true.
Proof.
  intros H. destruct (is_record_fields row H) as (Hx & Hs & Hb).
  destruct (real_at_field _ _ Hx) as [Gx Rx].
  destruct (real_at_field _ _ Hs) as [Gs Rs].
  destruct (real_at_field _ _ Hb) as [Gb Rb].
  destruct (format_1f_real _ Rx) as (x & Fx & Dx).
  destruct (format_1f_real _ Rs) as (s & Fs & Ds).
  destruct (format_1f_real _ Rb) as (b & Fb & Db).
  exists x, s, b. unfold table_cells.
  rewrite Gx, Gs, Gb. cbn [bind]. rewrite Fx, Fs, Fb. cbn [bind]. auto 10.
Qed.

Lemma dataset_table (df : DataFrame) :
  is_dataset df = true ->
  map_result table_cells (iterrows df) = Ok (map cells_of (iterrows df)).
Proof.
  intros H. apply map_result_ok. intros row Hrow.
  destruct (table_cells_record row (dataset_rows df H row Hrow)) as (x & s & b & E & _).
  unfold cells_of. now rewrite E.
Qed.

(** ** Reading the tokens of a coordinate list *)

Lemma tokens_in_token (body rest t : string) :
  all_chars no_paren body = true ->
  tokens_in (body ++ ")" ++ rest) (Some t)
  = match tokens_in rest None with
    | Some ts => Some ((t ++ body ++ ")") :: ts)
    | None => None
    end.
Proof.
  revert t. induction body as [|c body IH]; intros t H.
  - cbn. reflexivity.
  - cbn [all_chars] in H. apply andb_true_iff in H as [Hc Hb].
    unfold no_paren in Hc. apply negb_true_iff in Hc.
    cbn [String.append tokens_in]. rewrite Hc, (IH _ Hb).
    destruct (tokens_in rest None); [| reflexivity].
    now rewrite append_assoc.
Qed.

Lemma numeric_no_paren (s : string) :
  all_chars numeric_char s = true -> all_chars no_paren s = true.
Proof.
  apply all_chars_weaken. intros c H.
  unfold no_paren. destruct (Ascii.eqb c ")") eqn:E; [| reflexivity].
  apply Ascii.eqb_eq in E. subst c. discriminate H.
Qed.

Lemma token_body_no_paren (key : string) (row : Series) :
  is_real (field row "X") = true -> is_real (field row key) = true ->
  all_chars no_paren (py_str (field row "X") ++ ", " ++ py_str (field row key)) = true.
Proof.
  intros Hx Hk. rewrite !all_chars_append.
  rewrite (numeric_no_paren _ (py_str_numeric _ Hx)).
  rewrite (numeric_no_paren _ (py_str_numeric _ Hk)). reflexivity.
Qed.

Lemma tokens_in_indent (s : string) :
  tokens_in ("        (" ++ s) None = tokens_in s (Some "(").
Proof. reflexivity. Qed.

Lemma tokens_in_newline (s : string) :
  tokens_in ("
" ++ s) None = tokens_in s None.
Proof. reflexivity. Qed.

Lemma line_of_shape (key : string) (row : Series) (rest : string) :
  line_of key row ++ rest
  = "        (" ++ (py_str (field row "X") ++ ", " ++ py_str (field row key))
      ++ ")" ++ "
" ++ rest.
Proof. unfold line_of, token_of. now string_norm. Qed.

Lemma tokens_in_line (key : string) (row : Series) (rest : string) :
  is_real (field row "X") = true -> is_real (field row key) = true ->
  tokens_in (line_of key row ++ rest) None
  = match tokens_in rest None with
    | Some ts => Some (token_of key row :: ts)
    | None => None
    end.
Proof.
  intros Hx Hk.
  rewrite line_of_shape, tokens_in_indent.
  rewrite tokens_in_token by now apply token_body_no_paren.
  rewrite tokens_in_newline.
  destruct (tokens_in rest None); [| reflexivity].
  unfold token_of. now string_norm.
Qed.

Lemma tokens_in_lines (key : string) (rows : list Series) (rest : string) :
  (forall row, In row rows ->
     is_real (field row "X") = true /\ is_real (field row key) = true) ->
  tokens_in (String.concat "" (map (line_of key) rows) ++ rest) None
  = match tokens_in rest None with
    | Some ts => Some (map (token_of key) rows ++ ts)%list
    | None => None
    end.
Proof.
  induction rows as [|row rows IH]; intros H.
  - cbn. now destruct (tokens_in rest None).
  - assert (Hc : String.concat "" (map (line_of key) (row :: rows))
                 = line_of key row ++ String.concat "" (map (line_of key) rows)).
    { cbn [map String.concat]. destruct (map (line_of key) rows) eqn:E.
      - cbn. now rewrite append_nil_r.
      - reflexivity. }
    rewrite Hc, append_assoc.
    destruct (H row (or_introl eq_refl)) as [Hx Hk].
    rewrite tokens_in_line by assumption.
    rewrite IH by (intros r Hr; apply H; now right).
    now destruct (tokens_in rest None).
Qed.

(** *** Finding the lists in the two fragments *)

Lemma after_coordinates_sfd (s : string) :
  after "coordinates {" (sfd_head ++ s) = Some ("
    " ++ s).
Proof. reflexivity. Qed.

Lemma after_coordinates_bmd (s : string) :
  after "coordinates {" (bmd_head ++ s) = Some ("
    " ++ s).
Proof. reflexivity. Qed.

Lemma tokens_in_blank_head (s : string) :
  tokens_in ("
    " ++ s) None = tokens_in s None.
Proof. reflexivity. Qed.

Lemma tokens_in_sfd_end : tokens_in sfd_tail None = Some [].
Proof. reflexivity. Qed.

Lemma tokens_in_bmd_end : tokens_in bmd_tail None = Some [].
Proof. reflexivity. Qed.

Lemma record_reals (key : string) (rows : list Series) :
  (forall row, In row rows -> is_record row = true) ->
  key = "Shear force" \/ key = "Bending Moment" ->
  forall row, In row rows ->
    is_real (field row "X") = true /\ is_real (field row key) = true.
Proof.
  intros H Hkey row Hrow.
  destruct (is_record_fields row (H row Hrow)) as (Hx & Hs & Hb).
  split; [now apply real_at_field |].
  destruct Hkey as [-> | ->]; now apply real_at_field.
Qed.

(** The tokens read back from the fragment of a dataset are those of
    its rows, in order. *)
Lemma coordinate_tokens_sfd (df : DataFrame) :
  is_dataset df = true ->
  exists tikz,
    generate_sfd_plot df = Ok tikz
    /\ tikz = sfd_head ++ String.concat "" (map (line_of "Shear force") (iterrows df))
                ++ sfd_tail
    /\ coordinate_tokens tikz = Some (map (token_of "Shear force") (iterrows df)).
Proof.
  intros H. rewrite generate_sfd_plot_eq, dataset_sfd_lines by assumption.
  eexists. split; [reflexivity |]. split; [reflexivity |].
  unfold coordinate_tokens. rewrite after_coordinates_sfd, tokens_in_blank_head.
  rewrite tokens_in_lines
    by (apply record_reals; [now apply dataset_rows | now left]).
  rewrite tokens_in_sfd_end. now rewrite app_nil_r.
Qed.

Lemma coordinate_tokens_bmd (df : DataFrame) :
  is_dataset df = true ->
  exists tikz,
    generate_bmd_plot df = Ok tikz
    /\ tikz = bmd_head ++ String.concat "" (map (line_of "Bending Moment") (iterrows df))
                ++ bmd_tail
    /\ coordinate_tokens tikz = Some (map (token_of "Bending Moment") (iterrows df)).
Proof.
  intros H. rewrite generate_bmd_plot_eq, dataset_bmd_lines by assumption.
  eexists. split; [reflexivity |]. split; [reflexivity |].
  unfold coordinate_tokens. rewrite after_coordinates_bmd, tokens_in_blank_head.
  rewrite tokens_in_lines
    by (apply record_reals; [now apply dataset_rows | now right]).
  rewrite tokens_in_bmd_end. now rewrite app_nil_r.
Qed.

(** ** Searching a fragment for a pattern *)

Lemma strip_prefix_first (c0 c : ascii) (pat s : string) :
  Ascii.eqb c c0 = false -> strip_prefix (String c0 pat) (String c s) = None.
Proof.
  intros H. cbn [strip_prefix]. rewrite Ascii.eqb_sym, H. reflexivity.
Qed.

(** A stretch of text without the first character of the pattern holds
    no occurrence and no start of one. *)
Lemma occurrences_skip (c0 : ascii) (pat mid rest : string) :
  all_chars (differs_from c0) mid = true ->
  occurrences (String c0 pat) (mid ++ rest) = occurrences (String c0 pat) rest.
Proof.
  induction mid as [|c mid IH]; intros H; [reflexivity |].
  cbn [all_chars] in H. apply andb_true_iff in H as [Hc Hm].
  unfold differs_from in Hc. apply negb_true_iff in Hc.
  cbn [String.append occurrences]. rewrite strip_prefix_first by assumption.
  now apply IH.
Qed.

Lemma after_skip (c0 : ascii) (pat mid rest : string) :
  all_chars (differs_from c0) mid = true ->
  after (String c0 pat) (mid ++ rest) = after (String c0 pat) rest.
Proof.
  induction mid as [|c mid IH]; intros H; [reflexivity |].
  cbn [all_chars] in H. apply andb_true_iff in H as [Hc Hm].
  unfold differs_from in Hc. apply negb_true_iff in Hc.
  cbn [String.append after]. rewrite strip_prefix_first by assumption.
  now apply IH.
Qed.

Lemma all_chars_concat (p : ascii -> bool) (ss : list string) :
  (forall s, In s ss -> all_chars p s = true) ->
  all_chars p (String.concat "" ss) = true.
Proof.
  induction ss as [|s ss IH]; intros H; [reflexivity |].
  cbn [String.concat]. destruct ss as [|s' ss'].
  - apply H. now left.
  - cbn [String.append]. rewrite all_chars_append, (H s) by now left.
    apply IH. intros t Ht. apply H. now right.
Qed.

Lemma numeric_coordinate (s : string) :
  all_chars numeric_char s = true -> all_chars coordinate_char s = true.
Proof.
  apply all_chars_weaken. intros c H. unfold coordinate_char. now rewrite H.
Qed.

Lemma line_of_chars (key : string) (row : Series) :
  is_real (field row "X") = true -> is_real (field row key) = true ->
  all_chars coordinate_char (line_of key row) = true.
Proof.
  intros Hx Hk. unfold line_of, token_of. rewrite !all_chars_append.
  rewrite (numeric_coordinate _ (py_str_numeric _ Hx)).
  rewrite (numeric_coordinate _ (py_str_numeric _ Hk)). reflexivity.
Qed.

Lemma lines_chars (key : string) (rows : list Series) :
  (forall row, In row rows ->
     is_real (field row "X") = true /\ is_real (field row key) = true) ->
  all_chars coordinate_char (String.concat "" (map (line_of key) rows)) = true.
Proof.
  intros H. apply all_chars_concat. intros s Hs.
  apply in_map_iff in Hs as (row & <- & Hrow).
  destruct (H row Hrow). now apply line_of_chars.
Qed.

Lemma coordinate_differs (c0 : ascii) (s : string) :
  coordinate_char c0 = false ->
  all_chars coordinate_char s = true -> all_chars (differs_from c0) s = true.
Proof.
  intros H0. apply all_chars_weaken. intros c Hc.
  unfold differs_from. destruct (Ascii.eqb c c0) eqn:E; [| reflexivity].
  apply Ascii.eqb_eq in E. subst c. congruence.
Qed.

(** *** The two fragments around the data *)

Lemma sfd_head_addplot (s : string) :
  occurrences "\addplot" (sfd_head ++ s) = S (occurrences "\addplot" s).
Proof. reflexivity. Qed.

Lemma bmd_head_addplot (s : string) :
  occurrences "\addplot" (bmd_head ++ s) = S (occurrences "\addplot" s).
Proof. reflexivity. Qed.

Lemma sfd_head_zero_line (s : string) :
  occurrences zero_line (sfd_head ++ s) = occurrences zero_line s.
Proof. reflexivity. Qed.

Lemma bmd_head_zero_line (s : string) :
  occurrences zero_line (bmd_head ++ s) = occurrences zero_line s.
Proof. reflexivity. Qed.

Lemma bmd_head_dashed (s : string) :
  occurrences "dashed" (bmd_head ++ s) = occurrences "dashed" s.
Proof. reflexivity. Qed.

Lemma sfd_head_legend (s : string) :
  after "\legend{" (sfd_head ++ s) = after "\legend{" s.
Proof. reflexivity. Qed.

Lemma bmd_head_legend (s : string) :
  after "\legend{" (bmd_head ++ s) = after "\legend{" s.
Proof. reflexivity. Qed.

(** What surrounds the data of a dataset's fragments: one plot command and
    a one-entry legend for the moment, a second, dashed plot command and a
    second legend entry for the shear force. *)
Lemma fragment_frame (key tail : string) (rows : list Series) (c0 : ascii) (pat : string) :
  (forall row, In row rows ->
     is_real (field row "X") = true /\ is_real (field row key) = true) ->
  coordinate_char c0 = false ->
  occurrences (String c0 pat) (String.concat "" (map (line_of key) rows) ++ tail)
  = occurrences (String c0 pat) tail
  /\ after (String c0 pat) (String.concat "" (map (line_of key) rows) ++ tail)
     = after (String c0 pat) tail.
Proof.
  intros H Hc0.
  pose proof (coordinate_differs c0 _ Hc0 (lines_chars key rows H)) as Hd.
  split; [now apply occurrences_skip | now apply after_skip].
Qed.

(** ** Reading numbers back *)

(** *** Digit strings *)

















(** *** The syntax of a float literal *)







(** *** Cutting a digit string at the decimal point *)



(** *** Every layout of [repr] reads back as the decimal it shows *)






(** *** Rounding: a double rounds to itself *)

(** Both sides of a comparison of [a * 2^x] with [b], written with
    [shl2], are the sides of a comparison of integers scaled by a common
    positive factor. *)
Lemma scale_common (a b x K : Z) :
  Z.abs x <= K ->
  exists P, 0 < P /\ shl2 a x * P = a * 2 ^ (K + x) /\ shl2 b (- x) * P = b * 2 ^ K.
Proof.
  intros HK. unfold shl2. destruct (Z_lt_le_dec x 0) as [Hx | Hx].
  - exists (2 ^ (K + x)). split; [apply Z.pow_pos_nonneg; lia |].
    rewrite (Z.max_r x 0), (Z.max_l (- x) 0) by lia. split; [now rewrite Z.pow_0_r, Z.mul_1_r |].
    rewrite <- Z.mul_assoc, <- Z.pow_add_r by lia. do 2 f_equal. lia.
  - exists (2 ^ K). split; [apply Z.pow_pos_nonneg; lia |].
    rewrite (Z.max_l x 0), (Z.max_r (- x) 0) by lia. split; [| now rewrite Z.pow_0_r, Z.mul_1_r].
    rewrite <- Z.mul_assoc, <- Z.pow_add_r by lia. do 2 f_equal. lia.
Qed.

Lemma scale_le (a b x K : Z) :
  Z.abs x <= K -> (shl2 a x <= shl2 b (- x) <-> a * 2 ^ (K + x) <= b * 2 ^ K).
Proof.
  intros HK. destruct (scale_common a b x K HK) as (P & HP & <- & <-).
  split; [now apply Z.mul_le_mono_pos_r | now apply Z.mul_le_mono_pos_r].
Qed.

(** [floor_log2_q] is the binary logarithm of the ratio, rounded down. *)
Lemma floor_log2_q_spec (num den K : Z) :
  0 < num -> 0 < den -> Z.abs (floor_log2_q num den) + 1 <= K ->
  den * 2 ^ (K + floor_log2_q num den) <= num * 2 ^ K
  /\ num * 2 ^ K < den * 2 ^ (K + floor_log2_q num den + 1).
Proof.
  intros Hn Hd. unfold floor_log2_q. cbv zeta.
  destruct (Z.log2_spec num Hn) as [Ha1 Ha2].
  destruct (Z.log2_spec den Hd) as [Hb1 Hb2].
  pose proof (Z.log2_nonneg num) as Ha0. pose proof (Z.log2_nonneg den) as Hb0.
  set (a := Z.log2 num) in *. set (b := Z.log2 den) in *.
  destruct (shl2 den (a - b) <=? shl2 num (- (a - b))) eqn:T; intros HK.
  - apply Z.leb_le in T. apply (scale_le den num (a - b) K) in T; [| lia].
    split; [exact T |].
    assert (H2K : 0 < 2 ^ K) by (apply Z.pow_pos_nonneg; lia).
    apply Z.lt_le_trans with (2 ^ Z.succ a * 2 ^ K); [now apply Z.mul_lt_mono_pos_r |].
    replace (2 ^ Z.succ a * 2 ^ K) with (2 ^ b * 2 ^ (K + (a - b) + 1)).
    + apply Z.mul_le_mono_nonneg_r; [apply Z.pow_nonneg; lia | exact Hb1].
    + rewrite <- !Z.pow_add_r by lia. f_equal. lia.
  - apply Z.leb_gt in T.
    assert (T' : ~ den * 2 ^ (K + (a - b)) <= num * 2 ^ K).
    { intros C. apply (scale_le den num (a - b) K) in C; lia. }
    split; [| replace (K + (a - b - 1) + 1) with (K + (a - b)) by lia; lia].
    assert (H2 : 0 < 2 ^ (K + (a - b - 1))) by (apply Z.pow_pos_nonneg; lia).
    apply Z.le_trans with (2 ^ Z.succ b * 2 ^ (K + (a - b - 1)));
      [apply Z.mul_le_mono_nonneg_r; lia |].
    replace (2 ^ Z.succ b * 2 ^ (K + (a - b - 1))) with (2 ^ a * 2 ^ K).
    + apply Z.mul_le_mono_nonneg_r; [apply Z.pow_nonneg; lia | exact Ha1].
    + rewrite <- !Z.pow_add_r by lia. f_equal. lia.
Qed.

Lemma log2_window_unique (den N x y K : Z) :
  0 < den -> Z.abs x + 1 <= K -> Z.abs y + 1 <= K ->
  den * 2 ^ (K + x) <= N < den * 2 ^ (K + x + 1) ->
  den * 2 ^ (K + y) <= N < den * 2 ^ (K + y + 1) ->
  x = y.
Proof.
  intros Hd Hx Hy [Hx1 Hx2] [Hy1 Hy2].
  destruct (Z.lt_trichotomy x y) as [H | [H | H]]; [exfalso | assumption | exfalso].
  - assert (2 ^ (K + x + 1) <= 2 ^ (K + y)) by (apply Z.pow_le_mono_r; lia).
    assert (den * 2 ^ (K + x + 1) <= den * 2 ^ (K + y)) by (apply Z.mul_le_mono_nonneg_l; lia).
    lia.
  - assert (2 ^ (K + y + 1) <= 2 ^ (K + x)) by (apply Z.pow_le_mono_r; lia).
    assert (den * 2 ^ (K + y + 1) <= den * 2 ^ (K + x)) by (apply Z.mul_le_mono_nonneg_l; lia).
    lia.
Qed.

Lemma floor_log2_q_exact (num den m e : Z) :
  0 < num -> 0 < den -> 0 < m ->
  shl2 num (- e) = m * shl2 den e ->
  floor_log2_q num den = Z.log2 m + e.
Proof.
  intros Hn Hd Hm H.
  set (lg := floor_log2_q num den). set (t := Z.log2 m + e).
  set (K := Z.abs lg + Z.abs t + Z.abs e + 2).
  pose proof (Z.log2_nonneg m) as Hl0.
  assert (HK : Z.abs e <= K) by (unfold K; lia).
  destruct (scale_common den num e K HK) as (P & HP & Hden & Hnum).
  assert (E : num * 2 ^ K = m * (den * 2 ^ (K + e))).
  { rewrite <- Hnum, <- Hden, H. ring. }
  apply (log2_window_unique den (num * 2 ^ K) lg t K); try assumption;
    try (unfold K; lia).
  - apply floor_log2_q_spec; try assumption. unfold K. lia.
  - destruct (Z.log2_spec m Hm) as [H1 H2].
    assert (H2e : 0 < 2 ^ (K + e)) by (apply Z.pow_pos_nonneg; unfold K; lia).
    assert (P1 : 2 ^ (K + t) = 2 ^ Z.log2 m * 2 ^ (K + e)).
    { rewrite <- Z.pow_add_r by (unfold K; lia). f_equal. unfold t. lia. }
    assert (P2 : 2 ^ (K + t + 1) = 2 ^ Z.succ (Z.log2 m) * 2 ^ (K + e)).
    { rewrite <- Z.pow_add_r by (unfold K; lia). f_equal. unfold t. lia. }
    rewrite E, P1, P2.
    assert (Hde : 0 < den * 2 ^ (K + e)) by now apply Z.mul_pos_pos.
    split.
    + replace (den * (2 ^ Z.log2 m * 2 ^ (K + e)))
        with (2 ^ Z.log2 m * (den * 2 ^ (K + e))) by ring.
      apply Z.mul_le_mono_nonneg_r; lia.
    + replace (den * (2 ^ Z.succ (Z.log2 m) * 2 ^ (K + e)))
        with (2 ^ Z.succ (Z.log2 m) * (den * 2 ^ (K + e))) by ring.
      apply Z.mul_lt_mono_pos_r; lia.
Qed.

Lemma round_half_even_exact (m d : Z) : 0 < d -> round_half_even (m * d) d = m.
Proof.
  intros Hd. unfold round_half_even. cbv zeta.
  rewrite Z.div_mul, Z.mod_mul by lia.
  replace (d <? 2 * 0) with false by (symmetry; apply Z.ltb_ge; lia).
  replace (d =? 2 * 0) with false by (symmetry; apply Z.eqb_neq; lia).
  reflexivity.
Qed.

Lemma canonical_spec (m e : Z) :
  canonical m e = true ->
  0 <= m < 2 ^ 53 /\ emin <= e <= emax /\ (2 ^ 52 <= m \/ e = emin).
Proof.
  unfold canonical. intros H.
  repeat (apply andb_true_iff in H as [H ?]).
  apply orb_true_iff in H0. lia.
Qed.

Lemma shl2_pos (x k : Z) : 0 < x -> 0 < shl2 x k.
Proof. intros H. unfold shl2. apply Z.mul_pos_pos; [assumption | apply Z.pow_pos_nonneg; lia]. Qed.

(** A ratio equal to a positive double rounds to that double. *)
Lemma round_b64_exact (neg : bool) (num den m e : Z) :
  canonical m e = true -> 0 < m -> 0 < num -> 0 < den ->
  shl2 num (- e) = m * shl2 den e ->
  round_b64 neg num den = Ffin neg m e.
Proof.
  intros Hc Hm Hn Hd H. destruct (canonical_spec m e Hc) as (Hm' & He & Hnorm).
  unfold round_b64. cbv zeta.
  replace (num =? 0) with false by (symmetry; apply Z.eqb_neq; lia).
  rewrite (floor_log2_q_exact num den m e) by assumption.
  assert (Ee : Z.max (Z.log2 m + e - 52) emin = e).
  { destruct Hnorm as [Hn52 | Hemin].
    - assert (Z.log2 m = 52) by (apply Z.log2_unique; lia). lia.
    - assert (Z.log2 m < 53) by (apply Z.log2_lt_pow2; lia). lia. }
  rewrite Ee, H, round_half_even_exact by now apply shl2_pos.
  replace (m =? 2 ^ 53) with false by (symmetry; apply Z.eqb_neq; lia).
  replace (emax <? e) with false by (symmetry; apply Z.ltb_ge; lia).
  reflexivity.
Qed.



(** *** The digits [repr] chooses read back as the double *)












(** *** Tokens read back as pairs of numbers *)







(** *** The [.1f] format shows the nearest tenth *)

Lemma round_half_even_spec (n d : Z) :
  0 <= n -> 0 < d ->
  0 <= round_half_even n d /\ 2 * Z.abs (n - round_half_even n d * d) <= d.
Proof.
  intros Hn Hd. unfold round_half_even. cbv zeta.
  pose proof (Z.div_mod n d) as E. pose proof (Z.mod_pos_bound n d Hd) as Hr.
  assert (Hq : 0 <= n / d) by (apply Z.div_pos; lia).
  destruct ((d <? 2 * (n mod d)) || ((d =? 2 * (n mod d)) && Z.odd (n / d))) eqn:T.
  - assert (d <= 2 * (n mod d)).
    { apply orb_true_iff in T as [T | T]; [apply Z.ltb_lt in T; lia |].
      apply andb_true_iff in T as [T _]. apply Z.eqb_eq in T. lia. }
    split; [lia | nia].
  - apply orb_false_iff in T as [T _]. apply Z.ltb_ge in T. split; [lia | nia].
Qed.

Lemma tenths_of_text (neg : bool) (q d : Z) :
  0 <= q -> 0 <= d < 10 ->
  tenths_of (sign_text neg ++ digits_of_Z q ++ "." ++ digits_of_Z d)
  = if neg then - (10 * q + d) else 10 * q + d.
Proof.
  intros Hq Hd. unfold tenths_of.
  destruct (digits_of_Z_spec q Hq) as (Hv & Hall & c & r & Hcr & _).
  assert (Hc : is_digit c = true).
  { rewrite Hcr in Hall. cbn [all_chars] in Hall. now apply andb_true_iff in Hall as [-> _]. }
  set (rest := "." ++ digits_of_Z d). rewrite Hcr.
  change (sign_text neg ++ String c r ++ rest) with (sign_text neg ++ String c (r ++ rest)).
  destruct (unsigned_part_signed neg c (r ++ rest) Hc) as [-> ->].
  change (String c (r ++ rest)) with (String c r ++ rest).
  rewrite <- Hcr, span_digits_append by (assumption || reflexivity).
  unfold rest. cbn [String.append tail_chars]. rewrite Hv.
  now rewrite (proj1 (digits_of_Z_spec d (proj1 Hd))).
Qed.

Lemma shl2_nonneg (x k : Z) : 0 <= x -> 0 <= shl2 x k.
Proof. intros H. unfold shl2. apply Z.mul_nonneg_nonneg; [assumption | apply Z.pow_nonneg; lia]. Qed.

Lemma shl2_mul (a x k : Z) : shl2 (a * x) k = a * shl2 x k.
Proof. unfold shl2. ring. Qed.

Lemma format_1f_float_nearest (neg : bool) (m e : Z) :
  0 <= m ->
  nearest_tenth (VFloat (Ffin neg m e)) (format_1f_float (Ffin neg m e)) = true.
Proof.
  intros Hm. unfold nearest_tenth. cbn [value_ratio format_1f_float]. cbv zeta.
  set (den := shl2 1 (- e)). set (num := shl2 m e).
  assert (Hd : 0 < den) by now apply shl2_pos.
  assert (Hn : 0 <= num) by now apply shl2_nonneg.
  rewrite shl2_mul. fold num.
  destruct (round_half_even_spec (10 * num) den) as [Ht Hacc]; [lia | assumption |].
  set (t := round_half_even (10 * num) den) in *.
  rewrite tenths_of_text;
    [| apply Z.div_pos; lia | apply Z.mod_pos_bound; lia].
  pose proof (Z.div_mod t 10) as E.
  replace (10 * (t / 10) + t mod 10) with t by lia.
  apply Z.leb_le. destruct neg; [| exact Hacc].
  replace (10 * - num - - t * den) with (- (10 * num - t * den)) by ring.
  now rewrite Z.abs_opp.
Qed.

(** An integer that a double holds exactly becomes that double. *)
Lemma float_of_Z_exact (z : Z) :
  Z.abs z <= 2 ^ 53 ->
  exists m e,
    float_of_Z z = Ffin (z <? 0) m e /\ 0 <= m /\ shl2 m e = Z.abs z * shl2 1 (- e).
Proof.
  intros Hz. unfold float_of_Z.
  destruct (Z.eq_dec z 0) as [-> | Hne].
  - exists 0, emin. repeat split; reflexivity || lia.
  - set (a := Z.abs z) in *. assert (Ha : 0 < a) by (unfold a; lia).
    destruct (Z.log2_spec a Ha) as [L1 L2]. pose proof (Z.log2_nonneg a) as L0.
    assert (L53 : Z.log2 a <= 53).
    { pose proof (Z.log2_le_mono _ _ Hz) as H. now rewrite Z.log2_pow2 in H by lia. }
    destruct (Z.eq_dec (Z.log2 a) 53) as [E53 | N53].
    + assert (a = 2 ^ 53) by (rewrite E53 in L1; lia).
      exists (2 ^ 52), 1. rewrite H. split; [| split; reflexivity || lia].
      apply round_b64_exact; reflexivity.
    + set (s := 52 - Z.log2 a). assert (Hs : 0 <= s <= 52) by (unfold s; lia).
      assert (P : 2 ^ Z.log2 a * 2 ^ s = 2 ^ 52).
      { rewrite <- Z.pow_add_r by lia. f_equal. unfold s. lia. }
      assert (P' : 2 ^ Z.succ (Z.log2 a) * 2 ^ s = 2 ^ 53).
      { rewrite <- Z.pow_add_r by lia. f_equal. unfold s. lia. }
      assert (H2s : 0 < 2 ^ s) by (apply Z.pow_pos_nonneg; lia).
      exists (a * 2 ^ s), (- s).
      assert (Hsh : shl2 a (- - s) = a * 2 ^ s * shl2 1 (- s)).
      { unfold shl2. rewrite Z.opp_involutive, (Z.max_l s 0), (Z.max_r (- s) 0) by lia.
        rewrite Z.pow_0_r. ring. }
      split; [| split].
      * assert (Hm1 : 2 ^ 52 <= a * 2 ^ s) by nia.
        assert (Hm2 : a * 2 ^ s < 2 ^ 53) by nia.
        assert (H52 : 0 < 2 ^ 52) by reflexivity.
        apply round_b64_exact; [| lia | lia | lia | exact Hsh].
        unfold canonical, emin, emax.
        repeat (apply andb_true_iff; split);
          try (apply Z.leb_le; lia); try (apply Z.ltb_lt; lia).
        apply orb_true_iff. left. apply Z.leb_le. lia.
      * lia.
      * unfold shl2. rewrite (Z.max_r (- s) 0), (Z.max_l (- - s) 0) by lia.
        rewrite Z.pow_0_r, Z.opp_involutive. ring.
Qed.

(** A whole number is written with [.0] after it. *)
Lemma format_1f_int (z : Z) :
  Z.abs z <= 2 ^ 53 -> format_1f (VInt z) = Ok (str_int z ++ ".0").
Proof.
  intros Hz. cbn [format_1f].
  destruct (float_of_Z_exact z Hz) as (m & e & -> & Hm & Hv).
  f_equal. cbn [format_1f_float]. cbv zeta.
  rewrite shl2_mul, Hv.
  replace (10 * (Z.abs z * shl2 1 (- e))) with (10 * Z.abs z * shl2 1 (- e)) by ring.
  rewrite round_half_even_exact by now apply shl2_pos.
  replace (10 * Z.abs z / 10) with (Z.abs z) by (rewrite Z.mul_comm, Z.div_mul; lia).
  replace ((10 * Z.abs z) mod 10) with 0 by (rewrite Z.mul_comm, Z.mod_mul; lia).
  unfold str_int. destruct (z <? 0) eqn:E.
  - apply Z.ltb_lt in E. replace (Z.abs z) with (- z) by lia. now string_norm.
  - apply Z.ltb_ge in E. replace (Z.abs z) with z by lia. reflexivity.
Qed.

Lemma format_1f_nearest (v : value) (s : string) :
  is_real v = true -> format_1f v = Ok s -> nearest_tenth v s = true.
Proof.
  destruct v as [z|f|t]; cbn [is_real]; intros H F.
  - apply Z.leb_le in H. rewrite (format_1f_int z H) in F. injection F as <-.
    unfold nearest_tenth. cbn [value_ratio].
    assert (T : tenths_of (str_int z ++ ".0") = 10 * z).
    { unfold str_int. destruct (z <? 0) eqn:E.
      - apply Z.ltb_lt in E.
        change (("-" ++ digits_of_Z (- z)) ++ ".0")
          with (sign_text true ++ (digits_of_Z (- z) ++ ".0")).
        change ".0" with ("." ++ digits_of_Z 0).
        rewrite tenths_of_text by lia. lia.
      - apply Z.ltb_ge in E.
        change (digits_of_Z z ++ ".0") with (sign_text false ++ digits_of_Z z ++ "." ++ digits_of_Z 0).
        rewrite tenths_of_text by lia. lia. }
    rewrite T. apply Z.leb_le. rewrite Z.mul_1_r, Z.sub_diag. cbn. lia.
  - destruct f as [| neg | neg m e]; try discriminate.
    cbn [is_finite valid_float andb] in H. cbn [format_1f] in F. injection F as <-.
    apply format_1f_float_nearest. now destruct (canonical_spec m e H) as ((? & _) & _).
  - discriminate.
Qed.

(** ** One run of the program *)

(** The outcome of a run, stage by stage. *)
Lemma generate_beam_report_spec (w : World) :
  generate_beam_report w
  = let out := (stdout w ++ [reading_message])%list in
    match lookup_file input_path (files w) with
    | None => (Raise (FileNotFoundError input_path), with_stdout w out)
    | Some (Workbook df) =>
        match build_document df with
        | Raise e => (Raise e, with_stdout w out)
        | Ok doc =>
            let fs := write_file tex_path (TexSource doc) (files w) in
            match latex w fs doc with
            | Compiled =>
                (Ok tt,
                 {| files := write_file pdf_path (PdfOf doc) fs;
                    stdout := (out ++ [generating_message; success_message])%list;
                    latex := latex w |})
            | Rejected output =>
                (Raise (CalledProcessError "beam_analysis_report"),
                 {| files := fs;
                    stdout := (out ++ [generating_message; output])%list;
                    latex := latex w |})
            | NotInstalled =>
                (Raise (CompilerError "beam_analysis_report"),
                 {| files := fs;
                    stdout := (out ++ [generating_message])%list;
                    latex := latex w |})
            end
        end
    | Some _ => (Raise (BadExcelFile input_path), with_stdout w out)
    end.
Proof.
  unfold generate_beam_report, io_bind, print, read_excel, io_lift, generate_pdf,
    with_stdout.
  cbn [files stdout latex]. cbv zeta.
  change "beam_data.xlsx" with input_path.
  destruct (lookup_file input_path (files w)) as [[df|doc|doc|bytes]|]; try reflexivity.
  destruct (build_document df) as [doc|e]; [| reflexivity].
  cbn [files stdout latex].
  change ("beam_analysis_report" ++ ".tex") with tex_path.
  change ("beam_analysis_report" ++ ".pdf") with pdf_path.
  destruct (latex w _ doc); cbn [files stdout latex];
    rewrite <- ?app_assoc; reflexivity.
Qed.

Lemma build_document_dataset (df : DataFrame) :
  is_dataset df = true ->
  exists doc sfd bmd,
    build_document df = Ok doc
    /\ generate_sfd_plot df = Ok sfd
    /\ generate_bmd_plot df = Ok bmd
    /\ table_rows doc = Some (table_header :: map cells_of (iterrows df))
    /\ plot_fragment sfd_title doc = Some sfd
    /\ plot_fragment bmd_title doc = Some bmd.
Proof.
  intros H. pose proof (build_document_spec df) as S.
  rewrite (dataset_table df H) in S.
  destruct (coordinate_tokens_sfd df H) as (sfd & Es & _).
  destruct (coordinate_tokens_bmd df H) as (bmd & Eb & _).
  rewrite Es, Eb in S. destruct S as (doc & Ed & Ht & Hs & Hb & _).
  exists doc, sfd, bmd. auto 10.
Qed.

Lemma iterrows_length (df : DataFrame) : List.length (iterrows df) = nrows df.
Proof. unfold iterrows. now rewrite length_map, length_seq. Qed.

Lemma iterrows_empty (df : DataFrame) : nrows df = O -> iterrows df = [].
Proof. unfold iterrows. now intros ->. Qed.

(** ** Rows that do not format *)

Lemma getitem_error (row : Series) (key : string) (e : exn) :
  getitem row key = Raise e -> e = KeyError key.
Proof.
  induction row as [|[k v] row IH]; cbn [getitem]; [now intros [= <-] |].
  destruct (String.eqb k key); [discriminate | exact IH].
Qed.

Lemma format_1f_error (v : value) (e : exn) :
  format_1f v = Raise e -> assembly_error e = true.
Proof.
  destruct v as [z|f|s]; cbn [format_1f].
  - destruct (float_of_Z z); intros [= <-]; reflexivity.
  - discriminate.
  - intros [= <-]. reflexivity.
Qed.

Lemma cell_text_error (row : Series) (key : string) (e : exn) :
  (v <- getitem row key ;; format_1f v)%py = Raise e -> assembly_error e = true.
Proof.
  destruct (getitem row key) as [v|e'] eqn:G; cbn [bind].
  - apply format_1f_error.
  - intros [= <-]. now rewrite (getitem_error _ _ _ G).
Qed.

Lemma table_cells_error (row : Series) (e : exn) :
  table_cells row = Raise e -> assembly_error e = true.
Proof.
  unfold table_cells.
  destruct (v <- getitem row "X";; format_1f v)%py eqn:Ex; cbn [bind];
    [| intros [= <-]; eapply cell_text_error, Ex].
  destruct (v <- getitem row "Shear force";; format_1f v)%py eqn:Es; cbn [bind];
    [| intros [= <-]; eapply cell_text_error, Es].
  destruct (v <- getitem row "Bending Moment";; format_1f v)%py eqn:Eb; cbn [bind];
    [discriminate | intros [= <-]; eapply cell_text_error, Eb].
Qed.

Lemma getitem_missing (d : dtype) (i : nat) (key : string) (cols : list (string * Column)) :
  existsb (fun c => String.eqb (fst c) key) cols = false ->
  getitem (map (fun c => (fst c, cell d (snd c) i)) cols) key = Raise (KeyError key).
Proof.
  induction cols as [|[k c] cols IH]; cbn [existsb map getitem fst snd]; [reflexivity |].
  intros H. apply orb_false_iff in H as [Hk Hc]. rewrite Hk. now apply IH.
Qed.

Lemma iterrows_missing (df : DataFrame) (key : string) (row : Series) :
  has_column df key = false -> In row (iterrows df) ->
  getitem row key = Raise (KeyError key).
Proof.
  unfold has_column, iterrows. intros H Hrow.
  apply in_map_iff in Hrow as (i & <- & _). now apply getitem_missing.
Qed.

Lemma document_builds_without_rows (df : DataFrame) :
  nrows df = O -> exists doc, build_document df = Ok doc.
Proof.
  intros H. apply iterrows_empty in H.
  pose proof (build_document_spec df) as S.
  rewrite generate_sfd_plot_eq, generate_bmd_plot_eq, H in S. cbn [map_result] in S.
  destruct S as (doc & Ed & _). now exists doc.
Qed.

(** ** Rows, cells and runs: further lemmas *)

Lemma coordinate_line_present (key : string) (row : Series) (x y : value) :
  getitem row "X" = Ok x -> getitem row key = Ok y ->
  coordinate_line key row = Ok (line_of key row).
Proof.
  intros Hx Hk. unfold coordinate_line, line_of, token_of, field.
  rewrite Hx, Hk. cbn [bind]. now string_norm.
Qed.

Lemma bind_ok {A B : Type} (r : result A) (k : A -> result B) (b : B) :
  bind r k = Ok b -> exists a, r = Ok a /\ k a = Ok b.
Proof. destruct r as [a|e]; cbn [bind]; [now exists a | discriminate]. Qed.

(** A row that the table loop formats has the three cells, and three
    texts come out of it. *)
Lemma table_cells_ok (row : Series) (cs : list string) :
  table_cells row = Ok cs ->
  exists vx vs vb x s b,
    getitem row "X" = Ok vx /\ getitem row "Shear force" = Ok vs
    /\ getitem row "Bending Moment" = Ok vb
    /\ format_1f vx = Ok x /\ format_1f vs = Ok s /\ format_1f vb = Ok b
    /\ cs = [x; s; b].
Proof.
  unfold table_cells. intros H.
  apply bind_ok in H as (x & Hx & H). apply bind_ok in Hx as (vx & Gx & Fx).
  apply bind_ok in H as (s & Hs & H). apply bind_ok in Hs as (vs & Gs & Fs).
  apply bind_ok in H as (b & Hb & H). apply bind_ok in Hb as (vb & Gb & Fb).
  injection H as <-. exists vx, vs, vb, x, s, b. auto 10.
Qed.

Lemma map_result_all {A B : Type} (f : A -> result B) (xs : list A) :
  (exists ys, map_result f xs = Ok ys) <-> (forall x, In x xs -> exists y, f x = Ok y).
Proof.
  induction xs as [|x xs IH]; cbn [map_result In].
  - split; [intros _ y [] | intros _; now eexists].
  - split.
    + intros [ys H] y [Ey | Hy].
      * subst y. destruct (f x) as [b|e]; [now eexists | discriminate].
      * destruct (f x); [| discriminate].
        destruct (map_result f xs) as [ys'|e] eqn:E; [| discriminate].
        apply (proj1 IH); [now eexists | exact Hy].
    + intros H. destruct (H x (or_introl eq_refl)) as [b ->].
      destruct (proj2 IH) as [ys ->]; [| now eexists].
      intros y Hy. apply H. now right.
Qed.

Lemma map_result_length {A B : Type} (f : A -> result B) (xs : list A) (ys : list B) :
  map_result f xs = Ok ys -> List.length ys = List.length xs.
Proof.
  revert ys. induction xs as [|x xs IH]; intros ys; cbn [map_result].
  - now intros [= <-].
  - destruct (f x); [| discriminate].
    destruct (map_result f xs) as [ys'|e]; [| discriminate].
    intros [= <-]. cbn [List.length]. now rewrite (IH ys').
Qed.

(** The rows before the first one that raises do not count. *)
Lemma map_result_first_error {A B : Type} (f : A -> result B)
      (good : list A) (x : A) (rest : list A) (e : exn) :
  (forall y, In y good -> exists b, f y = Ok b) -> f x = Raise e ->
  map_result f (good ++ x :: rest)%list = Raise e.
Proof.
  intros Hgood Hx. induction good as [|y good IH]; cbn [app map_result].
  - now rewrite Hx.
  - destruct (Hgood y (or_introl eq_refl)) as [b ->].
    rewrite IH; [reflexivity |]. intros z Hz. apply Hgood. now right.
Qed.

(** Once the table loop has formatted every row, the loops of the two
    plots find their cells. *)
Lemma table_rows_plot_lines (key : string) (rows : list Series) (css : list (list string)) :
  key = "Shear force" \/ key = "Bending Moment" ->
  map_result table_cells rows = Ok css ->
  map_result (coordinate_line key) rows = Ok (map (line_of key) rows).
Proof.
  intros Hkey H. apply map_result_ok. intros row Hrow.
  destruct (proj1 (map_result_all table_cells rows) (ex_intro _ css H) row Hrow) as [cs Hcs].
  destruct (table_cells_ok row cs Hcs) as (vx & vs & vb & _ & _ & _ & Gx & Gs & Gb & _).
  destruct Hkey as [-> | ->]; eapply coordinate_line_present; eassumption.
Qed.

(** The outcome of the assembly, read off the table loop alone. *)
Lemma build_document_rows (df : DataFrame) :
  match map_result table_cells (iterrows df) with
  | Raise e => build_document df = Raise e
  | Ok css =>
      exists doc,
        build_document df = Ok doc
        /\ table_rows doc = Some (table_header :: css)
        /\ plot_fragment sfd_title doc
           = Some (sfd_head
                     ++ String.concat "" (map (line_of "Shear force") (iterrows df))
                     ++ sfd_tail)
        /\ plot_fragment bmd_title doc
           = Some (bmd_head
                     ++ String.concat "" (map (line_of "Bending Moment") (iterrows df))
                     ++ bmd_tail)
  end.
Proof.
  pose proof (build_document_spec df) as S.
  destruct (map_result table_cells (iterrows df)) as [css|e] eqn:E; [| exact S].
  rewrite generate_sfd_plot_eq, generate_bmd_plot_eq in S.
  rewrite (table_rows_plot_lines "Shear force" _ css (or_introl eq_refl) E) in S.
  rewrite (table_rows_plot_lines "Bending Moment" _ css (or_intror eq_refl) E) in S.
  destruct S as (doc & Ed & Ht & Hs & Hb & _). exists doc. auto.
Qed.

Lemma forallb_nth {A : Type} (p : A -> bool) (xs : list A) (i : nat) (d : A) :
  forallb p xs = true -> p d = true -> p (nth i xs d) = true.
Proof.
  intros H Hd. revert i. induction xs as [|x xs IH]; intros i.
  - now destruct i.
  - cbn [forallb] in H. apply andb_true_iff in H as [Hx Hxs].
    destruct i as [|i]; cbn [nth]; [exact Hx | now apply IH].
Qed.

Lemma getitem_column_cell (d : dtype) (i : nat) (key : string)
      (cols : list (string * Column)) (c : string * Column) :
  find (fun c => String.eqb (fst c) key) cols = Some c ->
  getitem (map (fun c => (fst c, cell d (snd c) i)) cols) key = Ok (cell d (snd c) i).
Proof.
  induction cols as [|[k c'] cols IH]; cbn [find map getitem fst snd]; [discriminate |].
  destruct (String.eqb k key); [now intros [= <-] | exact IH].
Qed.

Lemma iterrows_column (df : DataFrame) (key : string) (c : Column) (row : Series) :
  column df key = Some c -> In row (iterrows df) ->
  exists i, getitem row key = Ok (cell (common_dtype df) c i).
Proof.
  unfold column, iterrows. intros H Hrow.
  destruct (find _ (columns df)) as [c'|] eqn:F; [| discriminate].
  injection H as <-.
  apply in_map_iff in Hrow as (i & <- & _). exists i. now apply getitem_column_cell.
Qed.

Lemma lookup_write_same (p : string) (f : File) (fs : list (string * File)) :
  lookup_file p (write_file p f fs) = Some f.
Proof. unfold write_file. cbn [lookup_file]. now rewrite String.eqb_refl. Qed.

Lemma lookup_write_other (p q : string) (f : File) (fs : list (string * File)) :
  String.eqb p q = false -> lookup_file q (write_file p f fs) = lookup_file q fs.
Proof.
  intros H. unfold write_file. cbn [lookup_file]. rewrite H.
  induction fs as [|[k g] fs IH]; [reflexivity |].
  cbn [filter fst lookup_file].
  destruct (String.eqb k p) eqn:Ekp; cbn [negb].
  - apply String.eqb_eq in Ekp. subst k. now rewrite H.
  - cbn [lookup_file]. now rewrite IH.
Qed.

(** The outcome of a run when the three things it depends on are known. *)
Lemma run_outcome (w : World) :
  match lookup_file input_path (files w) with
  | None =>
      generate_beam_report w
      = (Raise (FileNotFoundError input_path),
         with_stdout w (stdout w ++ [reading_message])%list)
  | Some (Workbook df) =>
      match build_document df with
      | Raise e =>
          generate_beam_report w
          = (Raise e, with_stdout w (stdout w ++ [reading_message])%list)
      | Ok doc =>
          let fs := write_file tex_path (TexSource doc) (files w) in
          match latex w fs doc with
          | Compiled =>
              generate_beam_report w
              = (Ok tt,
                 {| files := write_file pdf_path (PdfOf doc) fs;
                    stdout := ((stdout w ++ [reading_message])
                                 ++ [generating_message; success_message])%list;
                    latex := latex w |})
          | Rejected output =>
              generate_beam_report w
              = (Raise (CalledProcessError "beam_analysis_report"),
                 {| files := fs;
                    stdout := ((stdout w ++ [reading_message])
                                 ++ [generating_message; output])%list;
                    latex := latex w |})
          | NotInstalled =>
              generate_beam_report w
              = (Raise (CompilerError "beam_analysis_report"),
                 {| files := fs;
                    stdout := ((stdout w ++ [reading_message])
                                 ++ [generating_message])%list;
                    latex := latex w |})
          end
      end
  | Some _ =>
      generate_beam_report w
      = (Raise (BadExcelFile input_path),
         with_stdout w (stdout w ++ [reading_message])%list)
  end.
Proof.
  rewrite generate_beam_report_spec. cbv zeta.
  destruct (lookup_file input_path (files w)) as [[df|d|d|b]|].
  2-5: reflexivity.
  destruct (build_document df) as [doc|e]; [| reflexivity].
  destruct (latex w _ doc); reflexivity.
Qed.

(** ** The first cell of a row that does not format *)

Lemma table_cells_cell_text (row : Series) :
  table_cells row
  = (x <- cell_text row "X" ;;
     s <- cell_text row "Shear force" ;;
     b <- cell_text row "Bending Moment" ;;
     Ok [x; s; b])%py.
Proof. reflexivity. Qed.

(** The cells of a row are formatted from left to right: the first one
    that raises decides the error of the row. *)
Lemma table_cells_first_bad_cell (row : Series) (before : list string) (key : string)
      (after : list string) (e : exn) :
  required_columns = (before ++ key :: after)%list ->
  (forall k, In k before -> exists s, cell_text row k = Ok s) ->
  cell_text row key = Raise e ->
  table_cells row = Raise e.
Proof.
  intros Hcols Hbefore Hkey. rewrite table_cells_cell_text.
  unfold required_columns in Hcols.
  destruct before as [|k1 [|k2 [|k3 before]]]; cbn [app] in Hcols.
  - injection Hcols as <- _. now rewrite Hkey.
  - injection Hcols as <- <- _.
    destruct (Hbefore "X" (or_introl eq_refl)) as [x ->]. cbn [bind]. now rewrite Hkey.
  - injection Hcols as <- <- <- _.
    destruct (Hbefore "X" (or_introl eq_refl)) as [x ->].
    destruct (Hbefore "Shear force" (or_intror (or_introl eq_refl))) as [s ->].
    cbn [bind]. now rewrite Hkey.
  - injection Hcols as _ _ _ Hnil. destruct before; discriminate Hnil.
Qed.

(** ** Sheets as they are stored *)














(** * The claims *)

(** ** C1: one coordinate token per Record, in order *)

(** C1.  For every Dataset, each plot function returns its fixed head, one
    line per Record and its fixed tail; the tokens read back from the
    fragment are exactly the tokens of the Records, as many as there are
    rows and in the order of the rows, whatever the values of X. *)
Theorem formatter_one_token_per_record (df : DataFrame) :
  is_dataset df = true ->
  (exists tikz toks,
     generate_sfd_plot df = Ok tikz
     /\ tikz = sfd_head ++ String.concat "" (map (line_of "Shear force") (iterrows df))
                 ++ sfd_tail
     /\ coordinate_tokens tikz = Some toks
     /\ toks = map (token_of "Shear force") (iterrows df)
     /\ List.length toks = nrows df)
  /\ (exists tikz toks,
        generate_bmd_plot df = Ok tikz
        /\ tikz = bmd_head
                    ++ String.concat "" (map (line_of "Bending Moment") (iterrows df))
                    ++ bmd_tail
        /\ coordinate_tokens tikz = Some toks
        /\ toks = map (token_of "Bending Moment") (iterrows df)
        /\ List.length toks = nrows df).
Proof.
  intros H. split.
  - destruct (coordinate_tokens_sfd df H) as (tikz & E & S & T).
    exists tikz, (map (token_of "Shear force") (iterrows df)).
    repeat split; try assumption. now rewrite length_map, iterrows_length.
  - destruct (coordinate_tokens_bmd df H) as (tikz & E & S & T).
    exists tikz, (map (token_of "Bending Moment") (iterrows df)).
    repeat split; try assumption. now rewrite length_map, iterrows_length.
Qed.

(** Witness for C1: a shear-force jump, two Records at X = 6; both are
    kept, in their order. *)
Lemma formatter_one_token_per_record_witness :
  is_dataset jump_df = true
  /\ exists tikz,
       generate_sfd_plot jump_df = Ok tikz
       /\ coordinate_tokens tikz = Some ["(0, 15)"; "(6, 15)"; "(6, -15)"; "(12, -15)"].
Proof.
  split; [vm_compute; reflexivity |].
  destruct (formatter_one_token_per_record jump_df) as [(tikz & toks & E & _ & T & Ht & _) _];
    [vm_compute; reflexivity |].
  exists tikz. split; [exact E |]. rewrite T, Ht. vm_compute. reflexivity.
Defined.

(** ** C2: the data table *)

(** C2.  For every Dataset the table of the document has the header row
    followed by one row per Record, in order; the three cells of a row are
    the Record's Position, Shear force and Bending Moment in the [.1f]
    format: each has exactly one decimal and shows the tenth nearest to
    the field's value. *)
Theorem table_has_one_row_per_record (df : DataFrame) :
  is_dataset df = true ->
  exists doc rows,
    build_document df = Ok doc
    /\ table_rows doc = Some (table_header :: rows)
    /\ rows = map cells_of (iterrows df)
    /\ List.length rows = nrows df
    /\ (forall row, In row (iterrows df) ->
          exists x s b,
            cells_of row = [x; s; b]
            /\ format_1f (field row "X") = Ok x
            /\ format_1f (field row "Shear force") = Ok s
            /\ format_1f (field row "Bending Moment") = Ok b
            /\ has_one_decimal x && has_one_decimal s && has_one_decimal b = true
            /\ nearest_tenth (field row "X") x
               && nearest_tenth (field row "Shear force") s
               && nearest_tenth (field row "Bending Moment") b = true).
Proof.
  intros H. destruct (build_document_dataset df H) as (doc & sfd & bmd & Ed & _ & _ & Ht & _).
  exists doc, (map cells_of (iterrows df)).
  repeat split; try assumption.
  - now rewrite length_map, iterrows_length.
  - intros row Hrow. pose proof (dataset_rows df H row Hrow) as Hrec.
    destruct (table_cells_record row Hrec) as (x & s & b & E & Fx & Fs & Fb & Dx & Ds & Db).
    destruct (is_record_fields row Hrec) as (Rx & Rs & Rb).
    exists x, s, b. unfold cells_of. rewrite E, Dx, Ds, Db.
    rewrite (format_1f_nearest _ _ (proj2 (real_at_field _ _ Rx)) Fx).
    rewrite (format_1f_nearest _ _ (proj2 (real_at_field _ _ Rs)) Fs).
    rewrite (format_1f_nearest _ _ (proj2 (real_at_field _ _ Rb)) Fb).
    auto 10.
Qed.

(** Witness for C2: the scenario dataset; its table is the header and the
    rows 0.0, 0.0, 0.0 / 6.0, 15.0, 67.5 / 12.0, 0.0, 0.0. *)
Lemma table_has_one_row_per_record_witness :
  is_dataset scenario_df = true
  /\ exists doc,
       build_document scenario_df = Ok doc
       /\ table_rows doc
          = Some [table_header; ["0.0"; "0.0"; "0.0"]; ["6.0"; "15.0"; "67.5"];
                  ["12.0"; "0.0"; "0.0"]].
Proof.
  split; [vm_compute; reflexivity |].
  destruct (table_has_one_row_per_record scenario_df) as (doc & rows & Ed & Ht & Hr & _);
    [vm_compute; reflexivity |].
  exists doc. split; [exact Ed |]. rewrite Ht, Hr. vm_compute. reflexivity.
Defined.

(** ** C3: the scenario dataset *)

(** The coordinate lists the claim expects are not the ones produced: the
    numbers are doubles and are written as such, and the separator inside
    a token is a comma and a space.  The expected text does not occur in
    the fragments at all. *)
Lemma scenario_lists_are_not_as_claimed :
  coordinate_lists scenario_df <> Some ("(0,0) (6,15) (12,0)", "(0,0) (6,67.5) (12,0)")
  /\ exists sfd bmd,
       generate_sfd_plot scenario_df = Ok sfd
       /\ generate_bmd_plot scenario_df = Ok bmd
       /\ coordinate_list sfd <> Some "(0,0) (6,15) (12,0)"
       /\ coordinate_list bmd <> Some "(0,0) (6,67.5) (12,0)"
       /\ occurrences "(0,0) (6,15) (12,0)" sfd = 0%nat
       /\ occurrences "(0,0) (6,67.5) (12,0)" bmd = 0%nat.
Proof.
  split; [vm_compute; discriminate |].
  destruct (generate_sfd_plot scenario_df) as [sfd|] eqn:Es; [| vm_compute in Es; discriminate].
  destruct (generate_bmd_plot scenario_df) as [bmd|] eqn:Eb; [| vm_compute in Eb; discriminate].
  exists sfd, bmd.
  vm_compute in Es. vm_compute in Eb.
  injection Es as <-. injection Eb as <-.
  repeat split; try (vm_compute; discriminate); vm_compute; reflexivity.
Qed.

(** C3, amended.  For the Dataset [(0,0,0), (6,15,67.5), (12,0,0)] the
    shear-force fragment holds the tokens (0.0, 0.0), (6.0, 15.0) and
    (12.0, 0.0) and the bending-moment fragment the tokens (0.0, 0.0),
    (6.0, 67.5) and (12.0, 0.0), each on a line of its own; this is so
    whether the whole-number columns are read as integers or as doubles. *)
Theorem scenario_coordinate_lists :
  coordinate_lists scenario_df
  = Some ("(0.0, 0.0) (6.0, 15.0) (12.0, 0.0)", "(0.0, 0.0) (6.0, 67.5) (12.0, 0.0)")
  /\ coordinate_lists scenario_df_float = coordinate_lists scenario_df
  /\ generate_sfd_plot scenario_df
     = Ok (sfd_head ++ "        (0.0, 0.0)
        (6.0, 15.0)
        (12.0, 0.0)
" ++ sfd_tail)
  /\ generate_bmd_plot scenario_df
     = Ok (bmd_head ++ "        (0.0, 0.0)
        (6.0, 67.5)
        (12.0, 0.0)
" ++ bmd_tail).
Proof. repeat split; vm_compute; reflexivity. Qed.

(** ** C4: what the loader checks *)

(** A sheet without the "Bending Moment" column, and one with a word in a
    cell, both pass the loader; the run fails afterwards, while the table
    is built. *)
Lemma missing_column_passes_the_loader :
  has_column two_column_df "Bending Moment" = false
  /\ read_excel input_path (world_of [(input_path, Workbook two_column_df)])
     = (Ok two_column_df, world_of [(input_path, Workbook two_column_df)])
  /\ fst (generate_beam_report (world_of [(input_path, Workbook two_column_df)]))
     = Raise (KeyError "Bending Moment")
  /\ read_excel input_path (world_of [(input_path, Workbook text_cell_df)])
     = (Ok text_cell_df, world_of [(input_path, Workbook text_cell_df)])
  /\ fst (generate_beam_report (world_of [(input_path, Workbook text_cell_df)]))
     = Raise (ValueError "Unknown format code 'f' for object of type 'str'").
Proof. repeat split; vm_compute; reflexivity. Qed.

(** C4, amended.  Whenever the loader reads the workbook, the run passes
    it with the frame as it is, whatever columns and cells the frame has.
    A missing required column stops the run later, at the first table
    row, with [KeyError] for that column, when the cells to its left
    format; text in a cell of a required column stops it at the row of
    that cell, with the [ValueError] of the format code, when the rows
    before and the cells to its left format.  Either way the run ends
    after its first message and before any file is written.  A frame
    without rows does not stop the run. *)
Theorem loader_does_not_validate (w : World) (df : DataFrame) :
  lookup_file input_path (files w) = Some (Workbook df) ->
  read_excel input_path w = (Ok df, w)
  /\ (forall row rest before key after,
        iterrows df = row :: rest ->
        required_columns = (before ++ key :: after)%list ->
        (forall k, In k before -> exists s, cell_text row k = Ok s) ->
        has_column df key = false ->
        build_document df = Raise (KeyError key)
        /\ generate_beam_report w
           = (Raise (KeyError key), with_stdout w (stdout w ++ [reading_message])%list)
        /\ files (snd (generate_beam_report w)) = files w)
  /\ (forall good row rest before key after text,
        iterrows df = (good ++ row :: rest)%list ->
        (forall r, In r good -> exists cs, table_cells r = Ok cs) ->
        required_columns = (before ++ key :: after)%list ->
        (forall k, In k before -> exists s, cell_text row k = Ok s) ->
        getitem row key = Ok (VStr text) ->
        build_document df = Raise str_format_error
        /\ generate_beam_report w
           = (Raise str_format_error, with_stdout w (stdout w ++ [reading_message])%list)
        /\ files (snd (generate_beam_report w)) = files w)
  /\ (nrows df = O -> exists doc, build_document df = Ok doc).
Proof.
  intros Hw.
  assert (Hrun : forall e,
            build_document df = Raise e ->
            build_document df = Raise e
            /\ generate_beam_report w
               = (Raise e, with_stdout w (stdout w ++ [reading_message])%list)
            /\ files (snd (generate_beam_report w)) = files w).
  { intros e Hd. pose proof (run_outcome w) as R.
    rewrite Hw in R. cbv beta iota in R. rewrite Hd in R. cbv beta iota in R.
    split; [exact Hd |]. split; [exact R |]. rewrite R. reflexivity. }
  assert (Hrows : forall good row rest e,
            iterrows df = (good ++ row :: rest)%list ->
            (forall r, In r good -> exists cs, table_cells r = Ok cs) ->
            table_cells row = Raise e -> build_document df = Raise e).
  { intros good row rest e Hsplit Hgood Hrow.
    pose proof (build_document_rows df) as S. rewrite Hsplit in S.
    now rewrite (map_result_first_error table_cells good row rest e Hgood Hrow) in S. }
  split; [unfold read_excel; now rewrite Hw |]. split; [| split].
  - intros row rest before key after Hfirst Hcols Hbefore Hmiss.
    apply Hrun. apply (Hrows [] row rest); [exact Hfirst | intros r [] |].
    apply (table_cells_first_bad_cell row before key after); [exact Hcols | exact Hbefore |].
    unfold cell_text.
    rewrite (iterrows_missing df key row Hmiss) by (rewrite Hfirst; now left).
    reflexivity.
  - intros good row rest before key after text Hsplit Hgood Hcols Hbefore Htext.
    apply Hrun. apply (Hrows good row rest); [exact Hsplit | exact Hgood |].
    apply (table_cells_first_bad_cell row before key after); [exact Hcols | exact Hbefore |].
    unfold cell_text. rewrite Htext. reflexivity.
  - intros H0. destruct (document_builds_without_rows df H0) as [doc Hd].
    now exists doc.
Qed.

Lemma loader_does_not_validate_witness :
  (build_document two_column_df = Raise (KeyError "Bending Moment")
   /\ files (snd (generate_beam_report (world_of [(input_path, Workbook two_column_df)])))
      = [(input_path, Workbook two_column_df)])
  /\ (build_document text_cell_df = Raise str_format_error
      /\ files (snd (generate_beam_report (world_of [(input_path, Workbook text_cell_df)])))
         = [(input_path, Workbook text_cell_df)]).
Proof.
  split.
  - destruct (loader_does_not_validate
                (world_of [(input_path, Workbook two_column_df)]) two_column_df eq_refl)
      as (_ & Hmiss & _ & _).
    destruct (Hmiss [("X", VInt 0); ("Shear force", VInt 15)]
                    [[("X", VInt 6); ("Shear force", VInt (-15))]]
                    ["X"; "Shear force"] "Bending Moment" [])
      as (Hd & _ & Hf).
    + vm_compute; reflexivity.
    + reflexivity.
    + intros k [<- | [<- | []]]; eexists; vm_compute; reflexivity.
    + vm_compute; reflexivity.
    + split; [exact Hd | exact Hf].
  - destruct (loader_does_not_validate
                (world_of [(input_path, Workbook text_cell_df)]) text_cell_df eq_refl)
      as (_ & _ & Htext & _).
    destruct (Htext [[("X", VInt 0); ("Shear force", VInt 15); ("Bending Moment", VInt 0)]]
                    [("X", VInt 6); ("Shear force", VStr "pending");
                     ("Bending Moment", VInt 90)]
                    [] ["X"] "Shear force" ["Bending Moment"] "pending")
      as (Hd & _ & Hf).
    + vm_compute; reflexivity.
    + intros r [<- | []]. eexists. vm_compute; reflexivity.
    + reflexivity.
    + intros k [<- | []]. eexists. vm_compute; reflexivity.
    + reflexivity.
    + split; [exact Hd | exact Hf].
Defined.

(** ** C5: a missing input file *)

(** C5.  When the spreadsheet is missing the run raises the loader's
    error at once: the only effect is the first console message; no file
    is written or changed, and no document has been created. *)
Theorem missing_input_aborts (w : World) :
  lookup_file input_path (files w) = None ->
  generate_beam_report w
  = (Raise (FileNotFoundError input_path),
     with_stdout w (stdout w ++ [reading_message])%list)
  /\ files (snd (generate_beam_report w)) = files w
  /\ fst (read_excel input_path w) = Raise (FileNotFoundError input_path).
Proof.
  intros H. rewrite generate_beam_report_spec. cbv zeta. rewrite H.
  unfold read_excel. rewrite H. repeat split.
Qed.

Lemma missing_input_aborts_witness :
  lookup_file input_path (files (world_of [("beam.png", OtherFile "png")])) = None
  /\ files (snd (generate_beam_report (world_of [("beam.png", OtherFile "png")])))
     = [("beam.png", OtherFile "png")].
Proof.
  split; [reflexivity |].
  apply (missing_input_aborts (world_of [("beam.png", OtherFile "png")])).
  reflexivity.
Defined.

(** ** C6: the empty Dataset *)

(** C6.  A frame without rows raises nothing: both plot functions return
    head and tail with an empty coordinate list between them, the document
    is built and its table has the header row only; the run then succeeds
    whenever the toolchain accepts the source. *)
Theorem empty_dataset_is_not_an_error (df : DataFrame) :
  nrows df = O ->
  generate_sfd_plot df = Ok (sfd_head ++ sfd_tail)
  /\ generate_bmd_plot df = Ok (bmd_head ++ bmd_tail)
  /\ coordinate_tokens (sfd_head ++ sfd_tail) = Some []
  /\ coordinate_tokens (bmd_head ++ bmd_tail) = Some []
  /\ exists doc,
       build_document df = Ok doc
       /\ table_rows doc = Some [table_header]
       /\ plot_fragment sfd_title doc = Some (sfd_head ++ sfd_tail)
       /\ plot_fragment bmd_title doc = Some (bmd_head ++ bmd_tail)
       /\ forall w,
            lookup_file input_path (files w) = Some (Workbook df) ->
            latex w (write_file tex_path (TexSource doc) (files w)) doc = Compiled ->
            fst (generate_beam_report w) = Ok tt.
Proof.
  intros H. apply iterrows_empty in H.
  assert (Es : generate_sfd_plot df = Ok (sfd_head ++ sfd_tail)).
  { rewrite generate_sfd_plot_eq, H. reflexivity. }
  assert (Eb : generate_bmd_plot df = Ok (bmd_head ++ bmd_tail)).
  { rewrite generate_bmd_plot_eq, H. reflexivity. }
  repeat split; try assumption; try reflexivity.
  pose proof (build_document_spec df) as S.
  rewrite H, Es, Eb in S. cbn [map_result] in S.
  destruct S as (doc & Ed & Ht & Hs & Hb & _).
  exists doc. repeat split; try assumption.
  intros w Hw Hl. rewrite generate_beam_report_spec. cbv zeta.
  now rewrite Hw, Ed, Hl.
Qed.

Lemma empty_dataset_is_not_an_error_witness :
  nrows empty_df = O
  /\ generate_sfd_plot empty_df = Ok (sfd_head ++ sfd_tail)
  /\ fst (generate_beam_report
            (world_of [(input_path, Workbook empty_df); ("beam.png", OtherFile "png")]))
     = Ok tt.
Proof.
  split; [reflexivity |].
  destruct (empty_dataset_is_not_an_error empty_df eq_refl)
    as (Es & _ & _ & _ & doc & Ed & _ & _ & _ & Hrun).
  split; [exact Es |].
  apply Hrun; reflexivity.
Defined.

(** ** C7: the generated source depends on the input data only *)

(** C7.  Two runs in worlds that hold the same input file either both
    stop before rendering, with the same error and without touching any
    file, or both write the same source; that source carries the date as
    the macro [\today], not as a timestamp, so nothing needs to be left out
    of the comparison. *)
Theorem generated_source_is_deterministic (w1 w2 : World) :
  lookup_file input_path (files w1) = lookup_file input_path (files w2) ->
  (exists e,
     fst (generate_beam_report w1) = Raise e
     /\ fst (generate_beam_report w2) = Raise e
     /\ files (snd (generate_beam_report w1)) = files w1
     /\ files (snd (generate_beam_report w2)) = files w2)
  \/ (exists doc,
        lookup_file tex_path (files (snd (generate_beam_report w1)))
        = Some (TexSource doc)
        /\ lookup_file tex_path (files (snd (generate_beam_report w2)))
           = Some (TexSource doc)
        /\ In (Command "date" (NoEscape "\today")) (preamble doc)).
Proof.
  intros H. rewrite !generate_beam_report_spec. cbv zeta. rewrite <- H.
  destruct (lookup_file input_path (files w1)) as [[df|d|d|b]|];
    try (left; eexists; repeat split; reflexivity).
  pose proof (build_document_spec df) as S.
  destruct (build_document df) as [doc|e] eqn:Ed;
    [| left; eexists; repeat split; reflexivity].
  right. exists doc.
  assert (Hdate : In (Command "date" (NoEscape "\today")) (preamble doc)).
  { destruct (map_result table_cells (iterrows df)); [| discriminate].
    destruct (generate_sfd_plot df); [| discriminate].
    destruct (generate_bmd_plot df); [| discriminate].
    destruct S as (doc' & E' & _ & _ & _ & _ & _ & Hd).
    now inversion E'; subst. }
  split; [| split; [| exact Hdate]].
  - destruct (latex w1 _ doc); cbn [snd files write_file lookup_file];
      unfold tex_path, pdf_path; reflexivity.
  - destruct (latex w2 _ doc); cbn [snd files write_file lookup_file];
      unfold tex_path, pdf_path; reflexivity.
Qed.

(** Witness for C7: the same input in two worlds that differ in
    everything else. *)
Lemma generated_source_is_deterministic_witness :
  exists doc,
    lookup_file tex_path
      (files (snd (generate_beam_report
                     (world_of [(input_path, Workbook scenario_df)]))))
    = Some (TexSource doc)
    /\ lookup_file tex_path
         (files (snd (generate_beam_report
                        {| files := [(tex_path, OtherFile "old");
                                     ("beam.png", OtherFile "png");
                                     (input_path, Workbook scenario_df)];
                           stdout := ["earlier output"];
                           latex := fun _ _ => NotInstalled |})))
       = Some (TexSource doc).
Proof.
  destruct (generated_source_is_deterministic
              (world_of [(input_path, Workbook scenario_df)])
              {| files := [(tex_path, OtherFile "old");
                           ("beam.png", OtherFile "png");
                           (input_path, Workbook scenario_df)];
                 stdout := ["earlier output"];
                 latex := fun _ _ => NotInstalled |}
              eq_refl) as [(e & _ & _ & F1 & _) | (doc & H1 & H2 & _)].
  - vm_compute in F1. discriminate F1.
  - exists doc. split; assumption.
Defined.

(** ** C8: the coordinate list reads back as the data *)



(** ** C9: the key observations are constants *)

(** C9.  Whatever the Dataset, when the document is built the bullets of
    the SFD subsection and of the BMD subsection are the same fixed
    strings. *)
Theorem key_observations_are_fixed (df : DataFrame) (doc : Document) :
  build_document df = Ok doc ->
  key_observations sfd_title doc = Some sfd_observations
  /\ key_observations bmd_title doc = Some bmd_observations.
Proof.
  intros H. pose proof (build_document_spec df) as S.
  destruct (map_result table_cells (iterrows df)); [| congruence].
  destruct (generate_sfd_plot df); [| congruence].
  destruct (generate_bmd_plot df); [| congruence].
  destruct S as (doc' & E' & _ & _ & _ & Ks & Kb & _).
  rewrite H in E'. inversion E'; subst. auto.
Qed.

Lemma key_observations_are_fixed_witness :
  exists doc,
    build_document jump_df = Ok doc
    /\ key_observations sfd_title doc = Some sfd_observations
    /\ key_observations bmd_title doc = Some bmd_observations.
Proof.
  destruct (build_document jump_df) as [doc|e] eqn:E.
  - exists doc. split; [reflexivity |].
    exact (key_observations_are_fixed jump_df doc E).
  - vm_compute in E. discriminate E.
Defined.

(** ** C10: the zero line and the legends *)

(** C10.  For every Dataset the shear-force fragment holds two plot
    commands, the second being the fixed dashed line from (0,0) to (12,0),
    and a legend with the two entries Shear Force and Zero Line; the
    bending-moment fragment holds one plot command, no dashed line and a
    legend with the single entry Bending Moment. *)
Theorem zero_line_only_in_shear_plot (df : DataFrame) :
  is_dataset df = true ->
  exists sfd bmd,
    generate_sfd_plot df = Ok sfd
    /\ generate_bmd_plot df = Ok bmd
    /\ occurrences "\addplot" sfd = 2%nat
    /\ occurrences zero_line sfd = 1%nat
    /\ legend_entries sfd = Some ["Shear Force"; "Zero Line"]
    /\ occurrences "\addplot" bmd = 1%nat
    /\ occurrences zero_line bmd = 0%nat
    /\ occurrences "dashed" bmd = 0%nat
    /\ legend_entries bmd = Some ["Bending Moment"].
Proof.
  intros H.
  destruct (coordinate_tokens_sfd df H) as (sfd & Es & Ss & _).
  destruct (coordinate_tokens_bmd df H) as (bmd & Eb & Sb & _).
  exists sfd, bmd. split; [exact Es |]. split; [exact Eb |].
  assert (Rs := record_reals "Shear force" _ (dataset_rows df H) (or_introl eq_refl)).
  assert (Rb := record_reals "Bending Moment" _ (dataset_rows df H) (or_intror eq_refl)).
  subst sfd bmd. unfold legend_entries.
  rewrite !sfd_head_addplot, !bmd_head_addplot, sfd_head_zero_line, bmd_head_zero_line,
    bmd_head_dashed, sfd_head_legend, bmd_head_legend.
  unfold zero_line.
  pose proof (fun c0 pat E => fragment_frame "Shear force" sfd_tail _ c0 pat Rs E) as Fs.
  pose proof (fun c0 pat E => fragment_frame "Bending Moment" bmd_tail _ c0 pat Rb E) as Fb.
  rewrite (proj1 (Fs "\"%char "addplot" eq_refl)).
  rewrite (proj1 (Fs "\"%char _ eq_refl)).
  rewrite (proj2 (Fs "\"%char "legend{" eq_refl)).
  rewrite (proj1 (Fb "\"%char "addplot" eq_refl)).
  rewrite (proj1 (Fb "\"%char _ eq_refl)).
  rewrite (proj1 (Fb "d"%char "ashed" eq_refl)).
  rewrite (proj2 (Fb "\"%char "legend{" eq_refl)).
  repeat split.
Qed.

Lemma zero_line_only_in_shear_plot_witness :
  is_dataset scenario_df = true
  /\ exists sfd bmd,
       generate_sfd_plot scenario_df = Ok sfd
       /\ generate_bmd_plot scenario_df = Ok bmd
       /\ occurrences "\addplot" sfd = 2%nat
       /\ occurrences zero_line sfd = 1%nat
       /\ legend_entries sfd = Some ["Shear Force"; "Zero Line"]
       /\ occurrences "\addplot" bmd = 1%nat
       /\ occurrences zero_line bmd = 0%nat
       /\ occurrences "dashed" bmd = 0%nat
       /\ legend_entries bmd = Some ["Bending Moment"].
Proof.
  split; [vm_compute; reflexivity |].
  apply (zero_line_only_in_shear_plot scenario_df). vm_compute; reflexivity.
Defined.

(** * Further properties of the program *)

(** ** The plot functions on any frame *)

Lemma getitem_present (d : dtype) (i : nat) (key : string) (cols : list (string * Column)) :
  existsb (fun c => String.eqb (fst c) key) cols = true ->
  exists v, getitem (map (fun c => (fst c, cell d (snd c) i)) cols) key = Ok v.
Proof.
  induction cols as [|[k c] cols IH]; cbn [existsb map getitem fst snd]; [discriminate |].
  destruct (String.eqb k key); [intros _; now eexists | exact IH].
Qed.

Lemma iterrows_present (df : DataFrame) (key : string) (row : Series) :
  has_column df key = true -> In row (iterrows df) -> exists v, getitem row key = Ok v.
Proof.
  unfold has_column, iterrows. intros H Hrow.
  apply in_map_iff in Hrow as (i & <- & _). now apply getitem_present.
Qed.

Lemma iterrows_first (df : DataFrame) :
  nrows df <> O -> exists row rest, iterrows df = row :: rest.
Proof.
  intros H. pose proof (iterrows_length df) as L.
  destruct (iterrows df) as [|row rest]; [cbn in L; congruence | now eexists _, _].
Qed.

(** The lines of a plot loop on any frame: every row gives its line when
    the two columns are there; the first row raises otherwise, on ["X"]
    before the column plotted. *)
Lemma plot_lines (key : string) (df : DataFrame) :
  map_result (coordinate_line key) (iterrows df)
  = if (nrows df =? 0)%nat || has_column df "X" && has_column df key
    then Ok (map (line_of key) (iterrows df))
    else Raise (KeyError (if has_column df "X" then key else "X")).
Proof.
  destruct (nrows df =? 0)%nat eqn:En; cbn [orb].
  - apply Nat.eqb_eq in En. now rewrite (iterrows_empty df En).
  - apply Nat.eqb_neq in En.
    destruct (has_column df "X") eqn:Hx; cbn [andb].
    + destruct (has_column df key) eqn:Hk.
      * apply map_result_ok. intros row Hrow.
        destruct (iterrows_present df "X" row Hx Hrow) as [x Gx].
        destruct (iterrows_present df key row Hk Hrow) as [y Gy].
        now apply (coordinate_line_present key row x y).
      * destruct (iterrows_first df En) as (row & rest & E).
        assert (Hrow : In row (iterrows df)) by (rewrite E; now left).
        destruct (iterrows_present df "X" row Hx Hrow) as [x Gx].
        rewrite E. cbn [map_result]. unfold coordinate_line.
        rewrite Gx, (iterrows_missing df key row Hk Hrow). reflexivity.
    + destruct (iterrows_first df En) as (row & rest & E).
      assert (Hrow : In row (iterrows df)) by (rewrite E; now left).
      rewrite E. cbn [map_result]. unfold coordinate_line.
      rewrite (iterrows_missing df "X" row Hx Hrow). reflexivity.
Qed.

(** X1.  On any frame whose column labels are distinct, whatever its
    cells hold, [generate_sfd_plot] returns exactly when the frame has no
    rows or has the columns ["X"] and ["Shear force"], and
    [generate_bmd_plot] exactly when it has no rows or has ["X"] and
    ["Bending Moment"]: neither needs the column of the other plot.  The
    fragment is then the head, one line per row in row order with the
    cells written by [str] (text cells as they are, empty cells as
    [nan]), and the tail.  Otherwise the first row raises [KeyError], for
    ["X"] when that column is missing and for the plotted column when
    only that one is. *)
Theorem plot_functions_need_their_columns (df : DataFrame) :
  unique_labels df = true ->
  generate_sfd_plot df
  = (if (nrows df =? 0)%nat || has_column df "X" && has_column df "Shear force"
     then Ok (sfd_head
                ++ String.concat "" (map (line_of "Shear force") (iterrows df))
                ++ sfd_tail)
     else Raise (KeyError (if has_column df "X" then "Shear force" else "X")))
  /\ generate_bmd_plot df
     = (if (nrows df =? 0)%nat || has_column df "X" && has_column df "Bending Moment"
        then Ok (bmd_head
                   ++ String.concat "" (map (line_of "Bending Moment") (iterrows df))
                   ++ bmd_tail)
        else Raise (KeyError (if has_column df "X" then "Bending Moment" else "X"))).
Proof.
  intros _. rewrite generate_sfd_plot_eq, generate_bmd_plot_eq, !plot_lines.
  split.
  - now destruct ((nrows df =? 0)%nat || has_column df "X" && has_column df "Shear force").
  - now destruct ((nrows df =? 0)%nat || has_column df "X" && has_column df "Bending Moment").
Qed.

Lemma plot_functions_need_their_columns_witness :
  unique_labels moment_only_df = true
  /\ unique_labels no_position_df = true
  /\ generate_bmd_plot moment_only_df
     = Ok (bmd_head ++ "        (0, 0)
        (6, 90)
" ++ bmd_tail)
  /\ generate_sfd_plot moment_only_df = Raise (KeyError "Shear force")
  /\ generate_sfd_plot no_position_df = Raise (KeyError "X")
  /\ generate_bmd_plot no_position_df = Raise (KeyError "X").
Proof.
  split; [reflexivity |]. split; [reflexivity |].
  destruct (plot_functions_need_their_columns moment_only_df eq_refl) as [Hs Hb].
  destruct (plot_functions_need_their_columns no_position_df eq_refl) as [Hs' Hb'].
  rewrite Hs, Hb, Hs', Hb'. repeat split; vm_compute; reflexivity.
Defined.

(** ** Where the assembly of the document can fail *)

(** X2.  The assembly of the document fails only in the loop that fills
    the table: the document is built exactly when every row formats
    there, and an error of the assembly is the error of that loop.  The
    two plot functions are called after it and never raise in a report:
    the document built holds the fragments they return. *)
Theorem assembly_fails_only_in_the_table_loop (df : DataFrame) :
  (forall e,
     build_document df = Raise e <-> map_result table_cells (iterrows df) = Raise e)
  /\ ((exists doc, build_document df = Ok doc)
      <-> (forall row, In row (iterrows df) -> exists cs, table_cells row = Ok cs))
  /\ (forall doc,
        build_document df = Ok doc ->
        exists sfd bmd,
          generate_sfd_plot df = Ok sfd /\ generate_bmd_plot df = Ok bmd
          /\ plot_fragment sfd_title doc = Some sfd
          /\ plot_fragment bmd_title doc = Some bmd).
Proof.
  pose proof (build_document_rows df) as S.
  destruct (map_result table_cells (iterrows df)) as [css|e0] eqn:E.
  - destruct S as (doc & Ed & _ & Hs & Hb). repeat split.
    + rewrite Ed. discriminate.
    + discriminate.
    + intros _. apply (proj1 (map_result_all _ _)). now exists css.
    + intros _. now exists doc.
    + intros doc' Ed'. rewrite Ed in Ed'. injection Ed' as <-.
      rewrite generate_sfd_plot_eq, generate_bmd_plot_eq.
      rewrite (table_rows_plot_lines "Shear force" _ css (or_introl eq_refl) E).
      rewrite (table_rows_plot_lines "Bending Moment" _ css (or_intror eq_refl) E).
      eexists _, _. repeat split; assumption.
  - repeat split.
    + rewrite S. now intros [= <-].
    + now intros [= <-].
    + intros [doc Ed]. rewrite S in Ed. discriminate.
    + intros H. apply (proj2 (map_result_all _ _)) in H as [css E']. congruence.
    + intros doc Ed. rewrite S in Ed. discriminate.
Qed.

Lemma assembly_fails_only_in_the_table_loop_witness :
  build_document text_cell_df
  = Raise (ValueError "Unknown format code 'f' for object of type 'str'")
  /\ generate_sfd_plot text_cell_df
     = Ok (sfd_head ++ "        (0, 15)
        (6, pending)
" ++ sfd_tail).
Proof.
  split.
  - apply (proj1 (assembly_fails_only_in_the_table_loop text_cell_df)).
    vm_compute; reflexivity.
  - vm_compute; reflexivity.
Defined.

(** X3.  The run stops at the first row that does not format, wherever
    it stands: with rows before it that format and a row whose table
    cells raise, the assembly raises that row's error whatever the rows
    after it hold; the run ends with it after its first message, writes
    no file and does not start the toolchain. *)
Theorem first_bad_row_stops_the_run
        (df : DataFrame) (good : list Series) (row : Series) (rest : list Series)
        (e : exn) :
  iterrows df = (good ++ row :: rest)%list ->
  (forall r, In r good -> exists cs, table_cells r = Ok cs) ->
  table_cells row = Raise e ->
  build_document df = Raise e
  /\ assembly_error e = true
  /\ forall w,
       lookup_file input_path (files w) = Some (Workbook df) ->
       generate_beam_report w
       = (Raise e, with_stdout w (stdout w ++ [reading_message])%list).
Proof.
  intros Hrows Hgood Hrow.
  assert (Hb : build_document df = Raise e).
  { pose proof (build_document_rows df) as S. rewrite Hrows in S.
    now rewrite (map_result_first_error table_cells good row rest e Hgood Hrow) in S. }
  split; [exact Hb |]. split; [eapply table_cells_error, Hrow |].
  intros w Hw. rewrite generate_beam_report_spec. cbv zeta. now rewrite Hw, Hb.
Qed.

Lemma first_bad_row_stops_the_run_witness :
  build_document text_cell_df
  = Raise (ValueError "Unknown format code 'f' for object of type 'str'")
  /\ generate_beam_report
       (world_of [(input_path, Workbook text_cell_df); ("beam.png", OtherFile "png")])
     = (Raise (ValueError "Unknown format code 'f' for object of type 'str'"),
        with_stdout
          (world_of [(input_path, Workbook text_cell_df); ("beam.png", OtherFile "png")])
          [reading_message]).
Proof.
  destruct (first_bad_row_stops_the_run text_cell_df
              [[("X", VInt 0); ("Shear force", VInt 15); ("Bending Moment", VInt 0)]]
              [("X", VInt 6); ("Shear force", VStr "pending"); ("Bending Moment", VInt 90)]
              []
              (ValueError "Unknown format code 'f' for object of type 'str'"))
    as (Hb & _ & Hw).
  - vm_compute; reflexivity.
  - intros r [<- | []]. eexists. vm_compute; reflexivity.
  - vm_compute; reflexivity.
  - split; [exact Hb |]. apply Hw. vm_compute; reflexivity.
Defined.

(** ** Sheets of numbers *)

Lemma float_of_Z_int64 (z : Z) :
  in_int64 z = true -> exists m e, float_of_Z z = Ffin (z <? 0) m e.
Proof.
  intros Hz. unfold in_int64 in Hz. apply andb_true_iff in Hz as [Hlo Hhi].
  apply Z.leb_le in Hlo. apply Z.ltb_lt in Hhi.
  assert (Ha : Z.abs z <= 2 ^ 63) by lia.
  unfold float_of_Z, round_b64. cbv zeta.
  destruct (Z.abs z =? 0); [now eexists _, _ |].
  set (lg := floor_log2_q (Z.abs z) 1).
  assert (Hlg : lg <= 63).
  { pose proof (floor_log2_q_le (Z.abs z) 1) as H.
    change (Z.log2 1) with 0 in H.
    pose proof (Z.log2_le_mono _ _ Ha) as H'.
    rewrite Z.log2_pow2 in H' by lia. unfold lg. lia. }
  set (e := Z.max (lg - 52) emin).
  assert (He : e <= 11) by (unfold e, emin; lia).
  set (q := round_half_even _ _).
  replace (emax <? (if q =? 2 ^ 53 then e + 1 else e)) with false.
  - now eexists _, _.
  - symmetry. apply Z.ltb_ge. unfold emax. destruct (q =? 2 ^ 53); lia.
Qed.

(** A cell of a column of numbers is written by [.1f], in whatever dtype
    the row holds it. *)
Lemma format_1f_numeric_cell (d : dtype) (c : Column) (i : nat) :
  numeric_column c = true -> exists s, format_1f (cell d c i) = Ok s.
Proof.
  destruct c as [xs|xs|xs]; cbn [numeric_column cell]; intros H; [| | discriminate].
  - destruct d; cbn [format_1f]; try (now eexists);
      destruct (float_of_Z_int64 (nth i xs 0)) as (m & e & ->);
      try (now eexists); now apply forallb_nth.
  - cbn [format_1f]. now eexists.
Qed.

Lemma numeric_row_cell (df : DataFrame) (key : string) (row : Series) :
  (exists c, column df key = Some c /\ numeric_column c = true) ->
  In row (iterrows df) ->
  exists s,
    (v <- getitem row key ;; format_1f v)%py = Ok s
    /\ format_1f (field row key) = Ok s.
Proof.
  intros (c & Hc & Hn) Hrow.
  destruct (iterrows_column df key c row Hc Hrow) as [i G].
  destruct (format_1f_numeric_cell (common_dtype df) c i Hn) as [s F].
  exists s. unfold field. rewrite G. cbn [bind]. auto.
Qed.

(** X4.  A sheet whose three columns hold numbers always gives a
    document: the program checks neither that a cell is filled in nor
    that a value is finite.  Each row gives three cells written by
    [.1f], an empty cell (NaN) is written [nan] in the table, and the run
    succeeds when the toolchain accepts the source. *)
Theorem numeric_sheets_always_build (df : DataFrame) :
  (forall key, In key required_columns ->
     exists c, column df key = Some c /\ numeric_column c = true) ->
  exists doc,
    build_document df = Ok doc
    /\ table_rows doc = Some (table_header :: map cells_of (iterrows df))
    /\ (forall row, In row (iterrows df) ->
          exists x s b,
            cells_of row = [x; s; b]
            /\ format_1f (field row "X") = Ok x
            /\ format_1f (field row "Shear force") = Ok s
            /\ format_1f (field row "Bending Moment") = Ok b)
    /\ (forall row key, In row (iterrows df) -> In key required_columns ->
          field row key = VFloat Fnan -> In "nan" (cells_of row))
    /\ (forall w,
          lookup_file input_path (files w) = Some (Workbook df) ->
          latex w (write_file tex_path (TexSource doc) (files w)) doc = Compiled ->
          fst (generate_beam_report w) = Ok tt).
Proof.
  intros H.
  assert (Hcells : forall row, In row (iterrows df) ->
            exists x s b,
              table_cells row = Ok [x; s; b]
              /\ format_1f (field row "X") = Ok x
              /\ format_1f (field row "Shear force") = Ok s
              /\ format_1f (field row "Bending Moment") = Ok b).
  { intros row Hrow.
    destruct (numeric_row_cell df "X" row) as (x & Cx & Fx);
      [apply H; cbn; auto | exact Hrow |].
    destruct (numeric_row_cell df "Shear force" row) as (s & Cs & Fs);
      [apply H; cbn; auto | exact Hrow |].
    destruct (numeric_row_cell df "Bending Moment" row) as (b & Cb & Fb);
      [apply H; cbn; auto | exact Hrow |].
    exists x, s, b. unfold table_cells. rewrite Cx, Cs, Cb. cbn [bind]. auto. }
  assert (Hrows : map_result table_cells (iterrows df) = Ok (map cells_of (iterrows df))).
  { apply map_result_ok. intros row Hrow.
    destruct (Hcells row Hrow) as (x & s & b & E & _). unfold cells_of. now rewrite E. }
  pose proof (build_document_rows df) as S. rewrite Hrows in S.
  destruct S as (doc & Ed & Ht & _). exists doc.
  split; [exact Ed |]. split; [exact Ht |]. split; [| split].
  - intros row Hrow. destruct (Hcells row Hrow) as (x & s & b & E & F).
    exists x, s, b. unfold cells_of. rewrite E. split; [reflexivity | exact F].
  - intros row key Hrow Hkey Hnan.
    destruct (Hcells row Hrow) as (x & s & b & E & Fx & Fs & Fb).
    unfold cells_of. rewrite E.
    cbn [required_columns In] in Hkey.
    destruct Hkey as [<- | [<- | [<- | []]]].
    + rewrite Hnan in Fx. injection Fx as <-. now left.
    + rewrite Hnan in Fs. injection Fs as <-. right. now left.
    + rewrite Hnan in Fb. injection Fb as <-. right. right. now left.
  - intros w Hw Hl. rewrite generate_beam_report_spec. cbv zeta.
    now rewrite Hw, Ed, Hl.
Qed.

Lemma numeric_sheets_always_build_witness :
  exists doc,
    build_document blank_cell_df = Ok doc
    /\ table_rows doc
       = Some [table_header; ["0.0"; "15.0"; "0.0"]; ["6.0"; "nan"; "90.0"];
               ["12.0"; "-15.0"; "0.0"]].
Proof.
  destruct (numeric_sheets_always_build blank_cell_df) as (doc & Ed & Ht & _).
  - intros key [<- | [<- | [<- | []]]];
      [exists (Int64Column [0; 6; 12])
      | exists (Float64Column [float_of_Z 15; Fnan; float_of_Z (-15)])
      | exists (Int64Column [0; 90; 0])];
      split; vm_compute; reflexivity.
  - exists doc. split; [exact Ed |]. rewrite Ht. vm_compute; reflexivity.
Defined.

(** ** The files and the console of a run *)

(** A run writes at the two output paths only. *)
Lemma run_keeps_other_files (w : World) (p : string) :
  String.eqb tex_path p = false -> String.eqb pdf_path p = false ->
  lookup_file p (files (snd (generate_beam_report w))) = lookup_file p (files w).
Proof.
  intros Ht Hp. pose proof (run_outcome w) as R.
  destruct (lookup_file input_path (files w)) as [[df|d|d|b]|].
  2-5: now rewrite R.
  destruct (build_document df) as [doc|e]; [| now rewrite R].
  cbv zeta in R.
  destruct (latex w _ doc); rewrite R; cbn [snd files];
    rewrite ?(lookup_write_other pdf_path p) by exact Hp;
    now rewrite (lookup_write_other tex_path p) by exact Ht.
Qed.

(** X5.  A run succeeds exactly when the input file is a workbook, every
    row of its frame formats and the toolchain accepts the source.  It
    then leaves the source and the PDF of the one document built from
    the frame, and has printed its three messages, in order, after what
    the console held. *)
Theorem run_succeeds_exactly_when (w : World) :
  (fst (generate_beam_report w) = Ok tt
   <-> exists df doc,
         lookup_file input_path (files w) = Some (Workbook df)
         /\ build_document df = Ok doc
         /\ latex w (write_file tex_path (TexSource doc) (files w)) doc = Compiled)
  /\ (fst (generate_beam_report w) = Ok tt ->
      exists df doc,
        lookup_file input_path (files w) = Some (Workbook df)
        /\ build_document df = Ok doc
        /\ lookup_file tex_path (files (snd (generate_beam_report w)))
           = Some (TexSource doc)
        /\ lookup_file pdf_path (files (snd (generate_beam_report w)))
           = Some (PdfOf doc)
        /\ stdout (snd (generate_beam_report w))
           = (stdout w ++ [reading_message; generating_message; success_message])%list).
Proof.
  pose proof (run_outcome w) as R.
  destruct (lookup_file input_path (files w)) as [[df|d|d|b]|].
  2-5: rewrite R; split; [split; [intros [=] | intros (? & ? & [=] & _)] | intros [=]].
  destruct (build_document df) as [doc|e] eqn:Ed.
  2: { rewrite R. split; [split; [intros [=] |] | intros [=]].
       intros (df' & doc' & [= <-] & Hd' & _). congruence. }
  cbv zeta in R.
  destruct (latex w (write_file tex_path (TexSource doc) (files w)) doc) eqn:L; rewrite R.
  - split; [split |].
    + intros _. exists df, doc. auto.
    + reflexivity.
    + intros _. exists df, doc. cbn [snd files stdout].
      split; [reflexivity |]. split; [exact Ed |].
      rewrite lookup_write_other by reflexivity.
      rewrite !lookup_write_same, <- app_assoc. auto.
  - split; [split; [intros [=] |] | intros [=]].
    intros (df' & doc' & [= <-] & Hd' & L'). congruence.
  - split; [split; [intros [=] |] | intros [=]].
    intros (df' & doc' & [= <-] & Hd' & L'). congruence.
Qed.

Lemma run_succeeds_exactly_when_witness :
  fst (generate_beam_report
         (world_of [(input_path, Workbook scenario_df); ("beam.png", OtherFile "png")]))
  = Ok tt
  /\ stdout (snd (generate_beam_report
                    (world_of [(input_path, Workbook scenario_df);
                               ("beam.png", OtherFile "png")])))
     = [reading_message; generating_message; success_message].
Proof.
  assert (H : fst (generate_beam_report
                     (world_of [(input_path, Workbook scenario_df);
                                ("beam.png", OtherFile "png")])) = Ok tt)
    by (vm_compute; reflexivity).
  destruct (proj2 (run_succeeds_exactly_when _) H) as (df & doc & _ & _ & _ & _ & Hout).
  split; [exact H | exact Hout].
Defined.

(** X6.  When the document is built and the toolchain does not accept
    it, be it a source rejected (a missing beam image) or no toolchain
    installed, the run ends with the error of the toolchain, yet the
    generated source is on disk: [clean_tex=False] keeps it.  The program
    prints its two progress messages and not its success message; the
    only other line is the diagnostics of a rejection. *)
Theorem failed_rendering_keeps_the_source (w : World) (df : DataFrame) (doc : Document) :
  lookup_file input_path (files w) = Some (Workbook df) ->
  build_document df = Ok doc ->
  latex w (write_file tex_path (TexSource doc) (files w)) doc <> Compiled ->
  (fst (generate_beam_report w) = Raise (CalledProcessError "beam_analysis_report")
   \/ fst (generate_beam_report w) = Raise (CompilerError "beam_analysis_report"))
  /\ lookup_file tex_path (files (snd (generate_beam_report w))) = Some (TexSource doc)
  /\ (stdout (snd (generate_beam_report w))
      = (stdout w ++ [reading_message; generating_message])%list
      \/ exists output,
           latex w (write_file tex_path (TexSource doc) (files w)) doc = Rejected output
           /\ stdout (snd (generate_beam_report w))
              = (stdout w ++ [reading_message; generating_message; output])%list).
Proof.
  intros Hw Hd Hl. pose proof (run_outcome w) as R.
  rewrite Hw in R. cbv beta iota in R. rewrite Hd in R. cbv beta iota zeta in R.
  destruct (latex w (write_file tex_path (TexSource doc) (files w)) doc) as [|output|];
    [now elim Hl | |]; rewrite R; cbn [fst snd files stdout];
    rewrite lookup_write_same, <- app_assoc; cbn [app].
  - split; [left; reflexivity |]. split; [reflexivity |].
    right. exists output. split; reflexivity.
  - split; [right; reflexivity |]. split; [reflexivity |]. left. reflexivity.
Qed.

Lemma failed_rendering_keeps_the_source_witness :
  exists doc,
    build_document scenario_df = Ok doc
    /\ fst (generate_beam_report (world_of [(input_path, Workbook scenario_df)]))
       = Raise (CalledProcessError "beam_analysis_report")
    /\ lookup_file tex_path
         (files (snd (generate_beam_report
                        (world_of [(input_path, Workbook scenario_df)]))))
       = Some (TexSource doc).
Proof.
  destruct (build_document scenario_df) as [doc|e] eqn:E;
    [| vm_compute in E; discriminate E].
  exists doc. split; [reflexivity |].
  destruct (failed_rendering_keeps_the_source
              (world_of [(input_path, Workbook scenario_df)]) scenario_df doc)
    as (_ & Htex & _).
  - reflexivity.
  - exact E.
  - cbn. discriminate.
  - split; [vm_compute; reflexivity | exact Htex].
Defined.

(** X7.  No run changes what it reads: after a run, however it ends, the
    input workbook and the beam image are the files they were.  What the
    console held before is kept, and the first line added is always the
    reading message. *)
Theorem run_never_changes_its_inputs (w : World) :
  lookup_file input_path (files (snd (generate_beam_report w)))
  = lookup_file input_path (files w)
  /\ lookup_file "beam.png" (files (snd (generate_beam_report w)))
     = lookup_file "beam.png" (files w)
  /\ exists lines,
       stdout (snd (generate_beam_report w))
       = (stdout w ++ reading_message :: lines)%list.
Proof.
  split; [now apply run_keeps_other_files |].
  split; [now apply run_keeps_other_files |].
  pose proof (run_outcome w) as R.
  destruct (lookup_file input_path (files w)) as [[df|d|d|b]|].
  2-5: rewrite R; exists []; reflexivity.
  destruct (build_document df) as [doc|e]; [| rewrite R; exists []; reflexivity].
  cbv zeta in R.
  destruct (latex w _ doc); rewrite R; cbn [snd stdout]; rewrite <- app_assoc; cbn [app];
    eexists; reflexivity.
Qed.

(** X8.  Running the program again on what a run left gives the same
    source: once the document of the input is built, the source file
    holds it after the first run and after the second, whatever the
    toolchain made of it either time; and a second run that succeeds
    leaves the PDF of that same document. *)
Theorem second_run_rewrites_the_same_source (w : World) (df : DataFrame) (doc : Document) :
  lookup_file input_path (files w) = Some (Workbook df) ->
  build_document df = Ok doc ->
  lookup_file tex_path (files (snd (generate_beam_report w))) = Some (TexSource doc)
  /\ lookup_file tex_path
       (files (snd (generate_beam_report (snd (generate_beam_report w)))))
     = Some (TexSource doc)
  /\ (fst (generate_beam_report (snd (generate_beam_report w))) = Ok tt ->
      lookup_file pdf_path
        (files (snd (generate_beam_report (snd (generate_beam_report w)))))
      = Some (PdfOf doc)).
Proof.
  intros Hw Hd.
  assert (Hsrc : forall w',
            lookup_file input_path (files w') = Some (Workbook df) ->
            lookup_file tex_path (files (snd (generate_beam_report w')))
            = Some (TexSource doc)
            /\ (fst (generate_beam_report w') = Ok tt ->
                lookup_file pdf_path (files (snd (generate_beam_report w')))
                = Some (PdfOf doc))).
  { intros w' Hw'. pose proof (run_outcome w') as R.
    rewrite Hw' in R. cbv beta iota in R. rewrite Hd in R. cbv beta iota zeta in R.
    destruct (latex w' _ doc); rewrite R; cbn [fst snd files].
    - rewrite lookup_write_other by reflexivity. rewrite !lookup_write_same.
      split; [reflexivity | intros _; reflexivity].
    - rewrite lookup_write_same. split; [reflexivity | intros [=]].
    - rewrite lookup_write_same. split; [reflexivity | intros [=]]. }
  assert (Hw1 : lookup_file input_path (files (snd (generate_beam_report w)))
                = Some (Workbook df)).
  { rewrite run_keeps_other_files by reflexivity. exact Hw. }
  split; [apply (Hsrc w Hw) |]. apply (Hsrc _ Hw1).
Qed.

Lemma second_run_rewrites_the_same_source_witness :
  exists doc,
    lookup_file tex_path
      (files (snd (generate_beam_report
                     (world_of [(input_path, Workbook jump_df);
                                ("beam.png", OtherFile "png")]))))
    = Some (TexSource doc)
    /\ lookup_file tex_path
         (files (snd (generate_beam_report
                        (snd (generate_beam_report
                                (world_of [(input_path, Workbook jump_df);
                                           ("beam.png", OtherFile "png")]))))))
       = Some (TexSource doc).
Proof.
  destruct (build_document jump_df) as [doc|e] eqn:E;
    [| vm_compute in E; discriminate E].
  exists doc.
  destruct (second_run_rewrites_the_same_source
              (world_of [(input_path, Workbook jump_df); ("beam.png", OtherFile "png")])
              jump_df doc eq_refl E) as (H1 & H2 & _).
  split; [exact H1 | exact H2].
Defined.

(** ** The layout of the document *)

Lemma table_cells_three (rows : list Series) (css : list (list string)) :
  map_result table_cells rows = Ok css ->
  Forall (fun cs => List.length cs = 3%nat) css.
Proof.
  revert css. induction rows as [|row rows IH]; intros css; cbn [map_result].
  - intros [= <-]. constructor.
  - destruct (table_cells row) as [cs|e] eqn:E; [| intros [=]].
    destruct (map_result table_cells rows) as [css'|e]; [| intros [=]].
    intros [= <-]. constructor; [| now apply IH].
    destruct (table_cells_ok row cs E) as (_ & _ & _ & x & s & b & _ & _ & _ & _ & _ & _ & ->).
    reflexivity.
Qed.

Lemma table_items_length (css : list (list string)) :
  List.length (table_items css) = (2 * List.length css + 3)%nat.
Proof.
  unfold table_items. cbn [List.length].
  induction css as [|cs css IH]; [reflexivity |].
  cbn [flat_map app List.length]. rewrite IH. lia.
Qed.

(** The document a frame gives, part by part. *)
Lemma build_document_layout (df : DataFrame) (doc : Document) :
  build_document df = Ok doc ->
  documentclass doc = "report"
  /\ document_options doc = ["a4paper"; "12pt"]
  /\ packages doc
     = [mkPackage "tikz" []; mkPackage "pgfplots" [];
        mkPackage "geometry" ["margin=1in"]; mkPackage "graphicx" []]
  /\ preamble doc
     = [Command "title" (Text "Beam Analysis Report");
        Command "author" (Text "Structural Engineering Analysis");
        Command "date" (NoEscape "\today")]
  /\ front_matter (doc_data doc)
     = [NoEscape "\maketitle"; NoEscape "\tableofcontents"; NoEscape "\newpage"]
  /\ outline (doc_data doc)
     = [("Introduction", ["Beam Description"; "Data Source"]);
        ("Analysis", [sfd_title; bmd_title]);
        ("Summary", ["Shear Force Diagram"; "Bending Moment Diagram"])]
  /\ beam_figure doc
     = Some (Figure "h!" [Image "beam.png" "0.8\textwidth";
                          Caption "Simply Supported Beam Configuration"])
  /\ exists css,
       map_result table_cells (iterrows df) = Ok css
       /\ data_table doc = Some (Tabular "|c|c|c|" (table_items css)).
Proof.
  unfold build_document, fill_document.
  run_builder.
  rewrite table_loop_ext by (intros; reflexivity).
  destruct (map_result table_cells (iterrows df)) as [css|e]; [| intros [=]].
  run_builder.
  destruct (generate_sfd_plot df) as [sfd|e]; [| intros [=]].
  run_builder.
  destruct (generate_bmd_plot df) as [bmd|e]; [| intros [=]].
  run_builder.
  intros [= <-].
  unfold outline, subsection_titles, beam_figure, data_table, find_subsection, table_items.
  cbn.
  repeat split. exists css. split; reflexivity.
Qed.

(** X9.  The layout of the document does not depend on the data: every
    document the program builds is a [report] on A4 paper at 12pt with
    the packages tikz, pgfplots, geometry (one inch margins) and
    graphicx, the title, the author and [\today] as date, the title page,
    the table of contents and a page break, then the sections
    Introduction, Analysis and Summary with the same subsections, and the
    figure of [beam.png] at 0.8 of the text width with its caption. *)
Theorem document_layout_is_fixed (df : DataFrame) (doc : Document) :
  build_document df = Ok doc ->
  documentclass doc = "report"
  /\ document_options doc = ["a4paper"; "12pt"]
  /\ packages doc
     = [mkPackage "tikz" []; mkPackage "pgfplots" [];
        mkPackage "geometry" ["margin=1in"]; mkPackage "graphicx" []]
  /\ preamble doc
     = [Command "title" (Text "Beam Analysis Report");
        Command "author" (Text "Structural Engineering Analysis");
        Command "date" (NoEscape "\today")]
  /\ front_matter (doc_data doc)
     = [NoEscape "\maketitle"; NoEscape "\tableofcontents"; NoEscape "\newpage"]
  /\ outline (doc_data doc)
     = [("Introduction", ["Beam Description"; "Data Source"]);
        ("Analysis", [sfd_title; bmd_title]);
        ("Summary", ["Shear Force Diagram"; "Bending Moment Diagram"])]
  /\ beam_figure doc
     = Some (Figure "h!" [Image "beam.png" "0.8\textwidth";
                          Caption "Simply Supported Beam Configuration"]).
Proof.
  intros H.
  destruct (build_document_layout df doc H) as (H1 & H2 & H3 & H4 & H5 & H6 & H7 & _).
  repeat split; assumption.
Qed.

Lemma document_layout_is_fixed_witness :
  exists doc,
    build_document blank_cell_df = Ok doc
    /\ outline (doc_data doc)
       = [("Introduction", ["Beam Description"; "Data Source"]);
          ("Analysis", [sfd_title; bmd_title]);
          ("Summary", ["Shear Force Diagram"; "Bending Moment Diagram"])].
Proof.
  destruct (build_document blank_cell_df) as [doc|e] eqn:E;
    [| vm_compute in E; discriminate E].
  exists doc. split; [reflexivity |].
  exact (proj1 (proj2 (proj2 (proj2 (proj2 (proj2
           (document_layout_is_fixed blank_cell_df doc E))))))).
Defined.

(** X10.  The table of every document built has three centred columns
    between rules and holds a rule, the header row, a rule, and then for
    each row of the frame, in order, its cells and the rule below them:
    every row has exactly three cells, as the column specification
    requires, and the table has [2 * nrows + 3] items. *)
Theorem table_has_rules_and_three_cells (df : DataFrame) (doc : Document) :
  build_document df = Ok doc ->
  exists css,
    map_result table_cells (iterrows df) = Ok css
    /\ data_table doc
       = Some (Tabular "|c|c|c|"
                 (HLine :: Row table_header :: HLine
                    :: flat_map (fun cs => [Row cs; HLine]) css))
    /\ List.length css = nrows df
    /\ Forall (fun cs => List.length cs = 3%nat) css
    /\ List.length (HLine :: Row table_header :: HLine
                      :: flat_map (fun cs => [Row cs; HLine]) css)
       = (2 * nrows df + 3)%nat.
Proof.
  intros H.
  destruct (build_document_layout df doc H) as (_ & _ & _ & _ & _ & _ & _ & css & E & T).
  exists css. split; [exact E |]. split; [exact T |].
  assert (L : List.length css = nrows df).
  { rewrite (map_result_length _ _ _ E). apply iterrows_length. }
  split; [exact L |]. split; [now apply (table_cells_three (iterrows df)) |].
  rewrite <- L. apply (table_items_length css).
Qed.

Lemma table_has_rules_and_three_cells_witness :
  exists doc,
    build_document two_row_df = Ok doc
    /\ data_table doc
       = Some (Tabular "|c|c|c|"
                 [HLine; Row table_header; HLine;
                  Row ["0.0"; "15.0"; "0.0"]; HLine;
                  Row ["6.0"; "-15.0"; "90.0"]; HLine]).
Proof.
  destruct (build_document two_row_df) as [doc|e] eqn:E;
    [| vm_compute in E; discriminate E].
  exists doc. split; [reflexivity |].
  destruct (table_has_rules_and_three_cells two_row_df doc E) as (css & Hc & Ht & _).
  rewrite Ht. vm_compute in Hc. injection Hc as <-. reflexivity.
Defined.

(** ** The axes of the plots *)

Lemma sfd_head_axis (s : string) :
  axis_option "xmin" (sfd_head ++ s) = Some "0"
  /\ axis_option "xmax" (sfd_head ++ s) = Some "12"
  /\ axis_option "ymin" (sfd_head ++ s) = Some "-50"
  /\ axis_option "ymax" (sfd_head ++ s) = Some "50".
Proof. repeat split; reflexivity. Qed.

Lemma bmd_head_axis (s : string) :
  axis_option "xmin" (bmd_head ++ s) = Some "0"
  /\ axis_option "xmax" (bmd_head ++ s) = Some "12"
  /\ axis_option "ymin" (bmd_head ++ s) = Some "0"
  /\ axis_option "ymax" (bmd_head ++ s) = Some "180".
Proof. repeat split; reflexivity. Qed.

(** X11.  The axes of the plots do not follow the data: whatever the
    frame holds, a shear-force fragment sets the axis from 0 to 12 in x
    and from -50 to 50 in y, and a bending-moment fragment from 0 to 12
    in x and from 0 to 180 in y.  Points beyond these limits are still
    written to the coordinate list. *)
Theorem axis_limits_are_fixed (df : DataFrame) :
  (forall tikz,
     generate_sfd_plot df = Ok tikz ->
     axis_option "xmin" tikz = Some "0" /\ axis_option "xmax" tikz = Some "12"
     /\ axis_option "ymin" tikz = Some "-50" /\ axis_option "ymax" tikz = Some "50")
  /\ (forall tikz,
        generate_bmd_plot df = Ok tikz ->
        axis_option "xmin" tikz = Some "0" /\ axis_option "xmax" tikz = Some "12"
        /\ axis_option "ymin" tikz = Some "0" /\ axis_option "ymax" tikz = Some "180").
Proof.
  split; intros tikz.
  - rewrite generate_sfd_plot_eq.
    destruct (map_result _ (iterrows df)) as [ls|e]; [| intros [=]].
    intros [= <-]. apply sfd_head_axis.
  - rewrite generate_bmd_plot_eq.
    destruct (map_result _ (iterrows df)) as [ls|e]; [| intros [=]].
    intros [= <-]. apply bmd_head_axis.
Qed.

Lemma axis_limits_are_fixed_witness :
  exists tikz,
    generate_sfd_plot long_beam_df = Ok tikz
    /\ coordinate_tokens tikz = Some ["(0, 100)"; "(10, 0)"; "(20, -100)"]
    /\ axis_option "xmax" tikz = Some "12"
    /\ axis_option "ymax" tikz = Some "50".
Proof.
  destruct (generate_sfd_plot long_beam_df) as [tikz|e] eqn:E;
    [| vm_compute in E; discriminate E].
  exists tikz. split; [reflexivity |].
  destruct (proj1 (axis_limits_are_fixed long_beam_df) tikz E) as (_ & Hx & _ & Hy).
  split; [| split; [exact Hx | exact Hy]].
  vm_compute in E. injection E as <-. vm_compute; reflexivity.
Defined.

(** ** Sheets of whole numbers *)

Lemma common_dtype_int64 (df : DataFrame) :
  common_dtype df = dt_int64 ->
  forallb is_int64 (map (fun c => dtype_of (snd c)) (columns df)) = true.
Proof.
  unfold common_dtype. cbv zeta.
  destruct (forallb is_int64 _); [reflexivity |].
  destruct (forallb is_number_dtype _); discriminate.
Qed.

Lemma getitem_int64 (i : nat) (key : string) (cols : list (string * Column)) (v : value) :
  forallb is_int64 (map (fun c => dtype_of (snd c)) cols) = true ->
  getitem (map (fun c => (fst c, cell dt_int64 (snd c) i)) cols) key = Ok v ->
  exists z, v = VInt z.
Proof.
  induction cols as [|[k c] cols IH]; cbn [map forallb getitem fst snd]; [intros _ [=] |].
  intros H. apply andb_true_iff in H as [Hc Hcols].
  destruct (String.eqb k key); [| now apply IH].
  destruct c as [xs|xs|xs]; try discriminate Hc.
  cbn [cell]. intros [= <-]. now eexists.
Qed.

(** In a sheet of whole numbers a row holds an integer under every label
    of the sheet. *)
Lemma whole_number_field (df : DataFrame) (row : Series) (key : string) :
  common_dtype df = dt_int64 -> In row (iterrows df) -> has_column df key = true ->
  exists z, getitem row key = Ok (VInt z) /\ field row key = VInt z.
Proof.
  intros Hd Hrow Hk. destruct (iterrows_present df key row Hk Hrow) as [v G].
  assert (Hz : exists z, v = VInt z).
  { unfold iterrows in Hrow. rewrite Hd in Hrow.
    apply in_map_iff in Hrow as (i & <- & _).
    eapply getitem_int64; [apply common_dtype_int64, Hd | exact G]. }
  destruct Hz as [z ->]. exists z. unfold field. now rewrite G.
Qed.

(** X12.  In a sheet of whole numbers only, every number is written to
    the plots as the integer it is, whatever its size, and a number of
    magnitude at most 2^53 is written to the table as that integer
    followed by [.0]: a position 6 is the coordinate [6] and the table
    cell [6.0].  A larger integer is first rounded to a double by [.1f]:
    9007199254740993 is the table cell [9007199254740992.0]. *)
Theorem whole_numbers_in_table_and_plots (df : DataFrame) (row : Series) :
  common_dtype df = dt_int64 ->
  (forall key, In key required_columns -> has_column df key = true) ->
  In row (iterrows df) ->
  exists x s b : Z,
    field row "X" = VInt x /\ field row "Shear force" = VInt s
    /\ field row "Bending Moment" = VInt b
    /\ coordinate_line "Shear force" row
       = Ok ("        (" ++ str_int x ++ ", " ++ str_int s ++ ")
")
    /\ coordinate_line "Bending Moment" row
       = Ok ("        (" ++ str_int x ++ ", " ++ str_int b ++ ")
")
    /\ (Z.abs x <= 2 ^ 53 -> Z.abs s <= 2 ^ 53 -> Z.abs b <= 2 ^ 53 ->
        table_cells row
        = Ok [str_int x ++ ".0"; str_int s ++ ".0"; str_int b ++ ".0"])
    /\ format_1f (VInt 9007199254740993) = Ok "9007199254740992.0".
Proof.
  intros Hd Hcols Hrow.
  destruct (whole_number_field df row "X" Hd Hrow) as (x & Gx & Ex);
    [apply Hcols; cbn; auto |].
  destruct (whole_number_field df row "Shear force" Hd Hrow) as (s & Gs & Es);
    [apply Hcols; cbn; auto |].
  destruct (whole_number_field df row "Bending Moment" Hd Hrow) as (b & Gb & Eb);
    [apply Hcols; cbn; auto |].
  exists x, s, b. split; [exact Ex |]. split; [exact Es |]. split; [exact Eb |].
  unfold table_cells, coordinate_line. rewrite Gx, Gs, Gb. cbn [bind py_str].
  split; [reflexivity |]. split; [reflexivity |]. split.
  - intros Hx Hs Hb.
    rewrite (format_1f_int x Hx), (format_1f_int s Hs), (format_1f_int b Hb).
    reflexivity.
  - vm_compute; reflexivity.
Qed.

Lemma whole_numbers_in_table_and_plots_witness :
  table_cells [("X", VInt 6); ("Shear force", VInt (-15)); ("Bending Moment", VInt 90)]
  = Ok ["6.0"; "-15.0"; "90.0"]
  /\ coordinate_line "Shear force"
       [("X", VInt 6); ("Shear force", VInt (-15)); ("Bending Moment", VInt 90)]
     = Ok "        (6, -15)
".
Proof.
  destruct (whole_numbers_in_table_and_plots two_row_df
              [("X", VInt 6); ("Shear force", VInt (-15)); ("Bending Moment", VInt 90)])
    as (x & s & b & Ex & Es & Eb & Hs & _ & Ht & _).
  - reflexivity.
  - intros key [<- | [<- | [<- | []]]]; reflexivity.
  - right. left. reflexivity.
  - vm_compute in Ex, Es, Eb.
    injection Ex as <-. injection Es as <-. injection Eb as <-.
    rewrite Hs, Ht by (vm_compute; discriminate).
    split; vm_compute; reflexivity.
Defined.

(** ** The table and the other columns of the sheet *)

(** [.1f] writes a whole number and its float alike. *)
Lemma format_1f_cell_dtype (d d' : dtype) (c : Column) (i : nat) :
  in_range_column c = true -> format_1f (cell d c i) = format_1f (cell d' c i).
Proof.
  destruct c as [xs|xs|xs]; cbn [in_range_column cell]; intros H; [| reflexivity ..].
  assert (F : format_1f (VInt (nth i xs 0)) = format_1f (VFloat (float_of_Z (nth i xs 0)))).
  { cbn [format_1f].
    destruct (float_of_Z_int64 (nth i xs 0)) as (m & e & ->); [| reflexivity].
    now apply forallb_nth. }
  destruct d, d'; try reflexivity; first [exact F | symmetry; exact F].
Qed.

Lemma map_result_map {A B C : Type} (g : A -> B) (f : B -> result C) (xs : list A) :
  map_result f (map g xs) = map_result (fun x => f (g x)) xs.
Proof.
  induction xs as [|x xs IH]; [reflexivity |].
  cbn [map map_result]. now rewrite IH.
Qed.

Lemma map_result_ext {A B : Type} (f g : A -> result B) (xs : list A) :
  (forall x, f x = g x) -> map_result f xs = map_result g xs.
Proof.
  intros H. induction xs as [|x xs IH]; [reflexivity |].
  cbn [map_result]. now rewrite H, IH.
Qed.

Lemma column_cell_text (df df' : DataFrame) (key : string) (i : nat) :
  (exists c, column df key = Some c /\ column df' key = Some c
             /\ in_range_column c = true) ->
  (v <- getitem (map (fun c => (fst c, cell (common_dtype df) (snd c) i)) (columns df))
                key ;; format_1f v)%py
  = (v <- getitem (map (fun c => (fst c, cell (common_dtype df') (snd c) i)) (columns df'))
                  key ;; format_1f v)%py.
Proof.
  intros (c & Hc & Hc' & Hr). unfold column in Hc, Hc'.
  destruct (find _ (columns df)) as [kc|] eqn:F; [| discriminate].
  destruct (find _ (columns df')) as [kc'|] eqn:F'; [| discriminate].
  injection Hc as Hc. injection Hc' as Hc'.
  rewrite (getitem_column_cell _ i key _ kc F), (getitem_column_cell _ i key _ kc' F').
  cbn [bind]. rewrite Hc, Hc'. now apply format_1f_cell_dtype.
Qed.

(** X13.  The table depends on the three columns it shows and on
    nothing else in the sheet: two sheets of as many rows that agree on
    the columns ["X"], ["Shear force"] and ["Bending Moment"] give the
    same table rows, or the same error, whatever other columns they have.
    This holds although another column can change how [iterrows] hands
    the whole numbers over, and with that the text of the plots. *)
Theorem table_ignores_other_columns (df df' : DataFrame) :
  nrows df = nrows df' ->
  (forall key, In key required_columns ->
     exists c, column df key = Some c /\ column df' key = Some c
               /\ in_range_column c = true) ->
  map_result table_cells (iterrows df) = map_result table_cells (iterrows df')
  /\ (forall doc doc',
        build_document df = Ok doc -> build_document df' = Ok doc' ->
        table_rows doc = table_rows doc').
Proof.
  intros Hn H.
  assert (E : map_result table_cells (iterrows df)
              = map_result table_cells (iterrows df')).
  { unfold iterrows. rewrite !map_result_map, <- Hn.
    apply map_result_ext. intros i. unfold table_cells.
    rewrite (column_cell_text df df' "X" i) by (apply H; cbn; auto).
    rewrite (column_cell_text df df' "Shear force" i) by (apply H; cbn; auto).
    rewrite (column_cell_text df df' "Bending Moment" i) by (apply H; cbn; auto).
    reflexivity. }
  split; [exact E |]. intros doc doc' Hd Hd'.
  pose proof (build_document_rows df) as S. pose proof (build_document_rows df') as S'.
  rewrite <- E in S'.
  destruct (map_result table_cells (iterrows df)) as [css|e].
  - destruct S as (d & Ed & Ht & _). destruct S' as (d' & Ed' & Ht' & _).
    rewrite Hd in Ed. rewrite Hd' in Ed'.
    injection Ed as <-. injection Ed' as <-. now rewrite Ht, Ht'.
  - rewrite Hd in S. discriminate S.
Qed.

Lemma table_ignores_other_columns_witness :
  map_result table_cells (iterrows two_row_df)
  = map_result table_cells (iterrows two_row_load_df)
  /\ generate_sfd_plot two_row_df
     = Ok (sfd_head ++ "        (0, 15)
        (6, -15)
" ++ sfd_tail)
  /\ generate_sfd_plot two_row_load_df
     = Ok (sfd_head ++ "        (0.0, 15.0)
        (6.0, -15.0)
" ++ sfd_tail).
Proof.
  destruct (table_ignores_other_columns two_row_df two_row_load_df) as [E _].
  - reflexivity.
  - intros key [<- | [<- | [<- | []]]];
      [exists (Int64Column [0; 6])
      | exists (Int64Column [15; -15])
      | exists (Int64Column [0; 90])];
      repeat split; vm_compute; reflexivity.
  - split; [exact E |]. split; vm_compute; reflexivity.
Defined.
